(** * KDP Ad Automator: profitability engine and change-proposal workflow

    A shallow embedding of
    - [src/analysis/roi-calculator.ts] (aggregation, ROI ratios, period
      comparison),
    - the pending-change operations and the metric queries of
      [src/db/database.ts],
    - the write tools and the read tools of the MCP server ([propose_*],
      [approve_change], [reject_change], [analyze_roi], ...: the
      [CallToolRequestSchema] handler found in
      [src/scripts/import-csv.ts]), and
    - the date parsing of the CSV import,
    followed by the properties of the specification that were checked
    against them. *)

From Stdlib Require Import QArith Qcanon Permutation Sorted.
From stdpp Require Import base gmap strings list numbers.
From stdpp Require sorting.
From Stdlib Require SpecFloat.

Local Open Scope Z_scope.

(** ** JavaScript numbers

    A JS [number] is modelled by an exact rational extended with the three
    special values of IEEE arithmetic.  Rounding and the sign of zero are
    not modelled: finite results are exact, and [x / 0] takes the sign of
    [x].  This is the arithmetic of the statements that do not depend on
    rounding or overflow; the module [F64] further down repeats the ROI
    engine over binary64 for the statements that do. *)

Inductive num : Type :=
| Fin (q : Qc)
| PInf
| NInf
| NaN.

Definition of_Z (z : Z) : num := Fin (Q2Qc (inject_Z z)).
Definition of_frac (n : Z) (d : positive) : num := Fin (Q2Qc (n # d)).

Definition is_finite (x : num) : bool :=
  match x with Fin _ => true | _ => false end.

Inductive sgn : Type := SNeg | SZero | SPos.

Definition Qc_sgn (q : Qc) : sgn :=
  if bool_decide (q = 0%Qc) then SZero
  else if bool_decide (0 < q)%Qc then SPos else SNeg.

Definition inf_of (s : sgn) : num :=
  match s with SPos => PInf | SNeg => NInf | SZero => NaN end.

Definition sgn_mul (a b : sgn) : sgn :=
  match a, b with
  | SZero, _ | _, SZero => SZero
  | SPos, s | s, SPos => s
  | SNeg, SNeg => SPos
  end.

Definition nneg (x : num) : num :=
  match x with
  | Fin q => Fin (- q)%Qc
  | PInf => NInf
  | NInf => PInf
  | NaN => NaN
  end.

Definition nadd (x y : num) : num :=
  match x, y with
  | NaN, _ | _, NaN => NaN
  | Fin a, Fin b => Fin (a + b)%Qc
  | PInf, NInf | NInf, PInf => NaN
  | PInf, _ | _, PInf => PInf
  | NInf, _ | _, NInf => NInf
  end.

Definition nsub (x y : num) : num := nadd x (nneg y).

Definition nsgn (x : num) : option sgn :=
  match x with
  | Fin q => Some (Qc_sgn q)
  | PInf => Some SPos
  | NInf => Some SNeg
  | NaN => None
  end.

Definition nmul (x y : num) : num :=
  match x, y with
  | Fin a, Fin b => Fin (a * b)%Qc
  | _, _ =>
      match nsgn x, nsgn y with
      | Some s, Some t => inf_of (sgn_mul s t)
      | _, _ => NaN
      end
  end.

Definition ndiv (x y : num) : num :=
  match x, y with
  | NaN, _ | _, NaN => NaN
  | Fin a, Fin b =>
      if bool_decide (b = 0%Qc) then inf_of (Qc_sgn a) else Fin (a / b)%Qc
  | Fin _, _ => Fin 0%Qc
  | _, Fin b =>
      match nsgn x with
      | Some s => inf_of (sgn_mul s (if bool_decide (b < 0)%Qc then SNeg else SPos))
      | None => NaN
      end
  | _, _ => NaN
  end.

(** [x > y] of JavaScript: false as soon as one side is NaN. *)
Definition ngt (x y : num) : bool :=
  match x, y with
  | NaN, _ | _, NaN => false
  | Fin a, Fin b => bool_decide (b < a)%Qc
  | PInf, PInf => false
  | PInf, _ => true
  | _, PInf => false
  | NInf, _ => false
  | Fin _, NInf => true
  end.

(** [x === 0]. *)
Definition nis0 (x : num) : bool :=
  match x with Fin q => bool_decide (q = 0%Qc) | _ => false end.

(** [0 <= x] for a finite [x]; used to state the data model only. *)
Definition nonneg (x : num) : bool :=
  match x with Fin q => bool_decide (0 <= q)%Qc | _ => false end.

Declare Scope num_scope.
Delimit Scope num_scope with num.
Bind Scope num_scope with num.
Infix "+" := nadd : num_scope.
Infix "-" := nsub : num_scope.
Infix "*" := nmul : num_scope.
Infix "/" := ndiv : num_scope.
Infix ">?" := ngt (at level 70, no associativity) : num_scope.

(** ** Metric records and reports (the types of [types/index]) *)

Record CampaignMetrics : Type := {
  campaignId : string;
  date : string;
  impressions : num;
  clicks : num;
  spend : num;
  sales : num;
  orders : num;
  unitsSold : num;
  kenpRoyalties : option num;
  kenpPagesRead : option num
}.

Record AnalysisConfig : Type := {
  royaltyPerSale : num;
  kenpRatePerPage : option num
}.

Record Aggregate : Type := {
  agg_impressions : num;
  agg_clicks : num;
  agg_spend : num;
  agg_sales : num;
  agg_orders : num;
  agg_unitsSold : num;
  agg_kenpRoyalties : num
}.

Record Period : Type := {
  startDate : string;
  endDate : string
}.

Record ROIMetrics : Type := {
  roiCampaignId : string;
  campaignName : string;
  period : Period;
  totalSpend : num;
  totalSales : num;
  totalOrders : num;
  totalUnitsSold : num;
  totalImpressions : num;
  totalClicks : num;
  acos : num;
  roas : num;
  ctr : num;
  cpc : num;
  conversionRate : num;
  estimatedRoyalties : num;
  estimatedProfit : num;
  profitMargin : num;
  breakEvenAcos : num
}.

Record Changes : Type := {
  spendChange : num;
  salesChange : num;
  acosChange : num;
  profitChange : num;
  impressionsChange : num;
  clicksChange : num
}.

Record PeriodComparison : Type := {
  currentPeriod : ROIMetrics;
  previousPeriod : ROIMetrics;
  changes : Changes
}.

(** ** [roi-calculator.ts] *)

(** The reducer of [aggregateMetrics]; [m.kenpRoyalties ?? 0]. *)
Definition aggregate_step (acc : Aggregate) (m : CampaignMetrics) : Aggregate :=
  {| agg_impressions := (agg_impressions acc + impressions m)%num;
     agg_clicks := (agg_clicks acc + clicks m)%num;
     agg_spend := (agg_spend acc + spend m)%num;
     agg_sales := (agg_sales acc + sales m)%num;
     agg_orders := (agg_orders acc + orders m)%num;
     agg_unitsSold := (agg_unitsSold acc + unitsSold m)%num;
     agg_kenpRoyalties :=
       (agg_kenpRoyalties acc + default (of_Z 0) (kenpRoyalties m))%num |}.

Definition aggregate_zero : Aggregate :=
  {| agg_impressions := of_Z 0; agg_clicks := of_Z 0; agg_spend := of_Z 0;
     agg_sales := of_Z 0; agg_orders := of_Z 0; agg_unitsSold := of_Z 0;
     agg_kenpRoyalties := of_Z 0 |}.

Definition aggregateMetrics (metrics : list CampaignMetrics) : Aggregate :=
  foldl aggregate_step aggregate_zero metrics.

(** [metrics[0].date] and [metrics[metrics.length - 1].date], or the pair of
    empty strings for the empty array. *)
Definition dateRange (metrics : list CampaignMetrics) : Period :=
  match metrics with
  | [] => {| startDate := ""; endDate := "" |}
  | m0 :: _ =>
      {| startDate := date m0; endDate := date (List.last metrics m0) |}
  end.

Definition calculateROI (cid cname : string)
    (metrics : list CampaignMetrics) (config : AnalysisConfig) : ROIMetrics :=
  let agg := aggregateMetrics metrics in
  let acos :=
    if (agg_sales agg >? of_Z 0)%num
    then (agg_spend agg / agg_sales agg * of_Z 100)%num else of_Z 0 in
  let roas :=
    if (agg_spend agg >? of_Z 0)%num
    then (agg_sales agg / agg_spend agg)%num else of_Z 0 in
  let ctr :=
    if (agg_impressions agg >? of_Z 0)%num
    then (agg_clicks agg / agg_impressions agg * of_Z 100)%num else of_Z 0 in
  let cpc :=
    if (agg_clicks agg >? of_Z 0)%num
    then (agg_spend agg / agg_clicks agg)%num else of_Z 0 in
  let conversionRate :=
    if (agg_clicks agg >? of_Z 0)%num
    then (agg_orders agg / agg_clicks agg * of_Z 100)%num else of_Z 0 in
  let salesRoyalties := (agg_unitsSold agg * royaltyPerSale config)%num in
  let totalRoyalties := (salesRoyalties + agg_kenpRoyalties agg)%num in
  let profit := (totalRoyalties - agg_spend agg)%num in
  let profitMargin :=
    if (totalRoyalties >? of_Z 0)%num
    then (profit / totalRoyalties * of_Z 100)%num else of_Z 0 in
  let breakEvenAcos :=
    if (agg_sales agg >? of_Z 0)%num
    then (totalRoyalties / agg_sales agg * of_Z 100)%num
    else if (royaltyPerSale config >? of_Z 0)%num then of_Z 30 else of_Z 0 in
  {| roiCampaignId := cid;
     campaignName := cname;
     period := dateRange metrics;
     totalSpend := agg_spend agg;
     totalSales := agg_sales agg;
     totalOrders := agg_orders agg;
     totalUnitsSold := agg_unitsSold agg;
     totalImpressions := agg_impressions agg;
     totalClicks := agg_clicks agg;
     acos := acos;
     roas := roas;
     ctr := ctr;
     cpc := cpc;
     conversionRate := conversionRate;
     estimatedRoyalties := totalRoyalties;
     estimatedProfit := profit;
     profitMargin := profitMargin;
     breakEvenAcos := breakEvenAcos |}.

Definition percentageChange (current previous : num) : num :=
  if nis0 previous then
    (if (current >? of_Z 0)%num then of_Z 100 else of_Z 0)
  else ((current - previous) / previous * of_Z 100)%num.

Definition comparePeriods (current previous : ROIMetrics) : PeriodComparison :=
  {| currentPeriod := current;
     previousPeriod := previous;
     changes :=
       {| spendChange := percentageChange (totalSpend current) (totalSpend previous);
          salesChange := percentageChange (totalSales current) (totalSales previous);
          acosChange := percentageChange (acos current) (acos previous);
          profitChange :=
            percentageChange (estimatedProfit current) (estimatedProfit previous);
          impressionsChange :=
            percentageChange (totalImpressions current) (totalImpressions previous);
          clicksChange :=
            percentageChange (totalClicks current) (totalClicks previous) |} |}.

(** ** The change-proposal registry: data ([src/db/database.ts] and the
    schema of [pending_changes] and [change_history]) *)

Inductive ChangeType : Type :=
| bid_adjustment
| state_change
| budget_change
| add_negative_keyword.

Inductive TargetType : Type :=
| target_campaign
| target_ad_group
| target_keyword.

Inductive Status : Type :=
| pending
| approved
| rejected
| executed
| failed.

Inductive EntityState : Type :=
| enabled
| paused
| archived.

Inductive MatchType : Type :=
| broad
| phrase
| exact.

Inductive NegativeMatchType : Type :=
| negativeExact
| negativePhrase.

Inductive CampaignType : Type :=
| sponsoredProducts
| sponsoredBrands
| sponsoredDisplay.

Inductive TargetingType : Type :=
| manual
| auto.

#[global] Instance ChangeType_eq_dec : EqDecision ChangeType.
Proof. solve_decision. Defined.
#[global] Instance TargetType_eq_dec : EqDecision TargetType.
Proof. solve_decision. Defined.
#[global] Instance Status_eq_dec : EqDecision Status.
Proof. solve_decision. Defined.

Definition EntityState_name (s : EntityState) : string :=
  match s with enabled => "enabled" | paused => "paused" | archived => "archived" end.

Definition NegativeMatchType_name (m : NegativeMatchType) : string :=
  match m with
  | negativeExact => "negativeExact"
  | negativePhrase => "negativePhrase"
  end.

(** The values that occur in the [Record<string, unknown>] payloads. *)
Inductive JsValue : Type :=
| JUndefined
| JNumber (n : num)
| JString (s : string).

Definition JsObject : Type := list (string * JsValue).

(** Property access [o.k]; a missing key reads as [undefined]. *)
Fixpoint prop (o : JsObject) (k : string) : JsValue :=
  match o with
  | [] => JUndefined
  | (k', v) :: o' => if String.eqb k' k then v else prop o' k
  end.

Record Keyword : Type := {
  kw_id : string;
  kw_adGroupId : string;
  kw_campaignId : string;
  kw_keywordText : string;
  kw_matchType : MatchType;
  kw_state : EntityState;
  kw_bid : num;
  kw_createdAt : Z;
  kw_updatedAt : Z
}.

Record Campaign : Type := {
  c_id : string;
  c_name : string;
  c_campaignType : CampaignType;
  c_state : EntityState;
  c_dailyBudget : num;
  c_startDate : string;
  c_endDate : option string;
  c_targetingType : TargetingType;
  c_createdAt : Z;
  c_updatedAt : Z
}.

Record PendingChange : Type := {
  id : Z;
  changeType : ChangeType;
  targetType : TargetType;
  targetId : string;
  targetName : option string;
  currentValue : JsObject;
  proposedValue : JsObject;
  reason : option string;
  status : Status;
  createdAt : Z;
  reviewedAt : option Z;
  executedAt : option Z;
  errorMessage : option string
}.

(** The argument of [createPendingChange]. *)
Record NewChange : Type := {
  new_changeType : ChangeType;
  new_targetType : TargetType;
  new_targetId : string;
  new_targetName : option string;
  new_currentValue : JsObject;
  new_proposedValue : JsObject;
  new_reason : option string
}.

Record ChangeHistoryEntry : Type := {
  h_pendingChangeId : option Z;
  h_targetType : TargetType;
  h_targetId : string;
  h_changeType : ChangeType;
  h_oldValue : option JsObject;
  h_newValue : JsObject;
  h_executedAt : Z;
  h_success : bool;
  h_apiResponse : option JsObject
}.

(** ** The execution backend ([AmazonAdsClient])

    The four mutations [approve_change] can send.  The arguments are what
    the unchecked casts of the handler read out of the stored payload. *)

Inductive AdsRequest : Type :=
| updateKeywordBid (keywordId : string) (newBid : JsValue)
| updateKeywordState (keywordId : string) (state : JsValue)
| updateCampaignBudget (campaignId : string) (dailyBudget : JsValue)
| addNegativeKeyword (campaignId : string) (keywordText matchType : JsValue).

(** What a [catch] clause can receive: an [Error] with its message, or any
    other thrown value. *)
Inductive Thrown : Type :=
| JsError (message : string)
| JsOther.

Inductive AdsOutcome : Type :=
| AdsOk
| AdsThrow (e : Thrown).

(** The backend is opaque: its answer may depend on the request and on
    everything it was sent before. *)
Definition AdsClient : Type := list AdsRequest -> AdsRequest -> AdsOutcome.

(** ** The store

    The tables the write tools touch, the value of [NOW()], the SERIAL
    sequence of [pending_changes], and the requests sent to the backend
    so far (oldest first). *)

Record World : Type := {
  keywords : gmap string Keyword;
  campaigns : gmap string Campaign;
  pending_changes : gmap Z PendingChange;
  pending_changes_seq : Z;
  change_history : list ChangeHistoryEntry;
  now : Z;
  ads_calls : list AdsRequest
}.

Definition set_pending_changes (t : gmap Z PendingChange) (w : World) : World :=
  {| keywords := keywords w; campaigns := campaigns w;
     pending_changes := t; pending_changes_seq := pending_changes_seq w;
     change_history := change_history w; now := now w;
     ads_calls := ads_calls w |}.

Definition set_pending_changes_seq (n : Z) (w : World) : World :=
  {| keywords := keywords w; campaigns := campaigns w;
     pending_changes := pending_changes w; pending_changes_seq := n;
     change_history := change_history w; now := now w;
     ads_calls := ads_calls w |}.

Definition set_change_history (h : list ChangeHistoryEntry) (w : World) : World :=
  {| keywords := keywords w; campaigns := campaigns w;
     pending_changes := pending_changes w;
     pending_changes_seq := pending_changes_seq w;
     change_history := h; now := now w; ads_calls := ads_calls w |}.

Definition set_ads_calls (l : list AdsRequest) (w : World) : World :=
  {| keywords := keywords w; campaigns := campaigns w;
     pending_changes := pending_changes w;
     pending_changes_seq := pending_changes_seq w;
     change_history := change_history w; now := now w; ads_calls := l |}.

Definition set_now (t : Z) (w : World) : World :=
  {| keywords := keywords w; campaigns := campaigns w;
     pending_changes := pending_changes w;
     pending_changes_seq := pending_changes_seq w;
     change_history := change_history w; now := t; ads_calls := ads_calls w |}.

(** ** [KdpDatabase]: the statements on [pending_changes] and
    [change_history] *)

(** The row [INSERT INTO pending_changes (...) VALUES (...)] creates: the
    columns that are not listed take their defaults ([status] 'pending',
    [created_at] NOW(), the others NULL). *)
Definition new_row (i t : Z) (c : NewChange) : PendingChange :=
  {| id := i;
     changeType := new_changeType c;
     targetType := new_targetType c;
     targetId := new_targetId c;
     targetName := new_targetName c;
     currentValue := new_currentValue c;
     proposedValue := new_proposedValue c;
     reason := new_reason c;
     status := pending;
     createdAt := t;
     reviewedAt := None;
     executedAt := None;
     errorMessage := None |}.

(** [createPendingChange]: the id comes from the sequence, which advances
    even when the insertion is refused; an id already in the table violates
    the primary key and the query fails ([None]). *)
Definition createPendingChange (c : NewChange) (w : World) : option Z * World :=
  let i := pending_changes_seq w in
  let w1 := set_pending_changes_seq (i + 1) w in
  match pending_changes w !! i with
  | Some _ => (None, w1)
  | None =>
      (Some i, set_pending_changes (<[i := new_row i (now w) c]> (pending_changes w)) w1)
  end.

Definition getPendingChangeById (i : Z) (w : World) : option PendingChange :=
  pending_changes w !! i.

(** The effect of the [SET] clause [updatePendingChangeStatus] builds:
    [status] and [reviewed_at] always, [executed_at] for 'executed' and
    'failed', [error_message] only when the argument is truthy (given and
    not the empty string). *)
Definition status_update (t : Z) (s : Status) (errorMsg : option string)
    (c : PendingChange) : PendingChange :=
  {| id := id c;
     changeType := changeType c;
     targetType := targetType c;
     targetId := targetId c;
     targetName := targetName c;
     currentValue := currentValue c;
     proposedValue := proposedValue c;
     reason := reason c;
     status := s;
     createdAt := createdAt c;
     reviewedAt := Some t;
     executedAt :=
       if bool_decide (s = executed \/ s = failed) then Some t else executedAt c;
     errorMessage :=
       match errorMsg with
       | Some e => if String.eqb e "" then errorMessage c else Some e
       | None => errorMessage c
       end |}.

(** [UPDATE pending_changes SET ... WHERE id = $1]: the row with that id,
    whatever its stored status; no row, no change. *)
Definition updatePendingChangeStatus (i : Z) (s : Status)
    (errorMsg : option string) (w : World) : World :=
  set_pending_changes (alter (status_update (now w) s errorMsg) i (pending_changes w)) w.

Definition recordChangeHistory (pendingChangeId : option Z) (tt : TargetType)
    (tid : string) (ct : ChangeType) (oldValue : option JsObject)
    (newValue : JsObject) (success : bool) (apiResponse : option JsObject)
    (w : World) : World :=
  set_change_history
    (change_history w ++
     [ {| h_pendingChangeId := pendingChangeId; h_targetType := tt;
          h_targetId := tid; h_changeType := ct; h_oldValue := oldValue;
          h_newValue := newValue; h_executedAt := now w;
          h_success := success; h_apiResponse := apiResponse |} ])
    w.

(** ** Handlers as programs over atomic steps

    Every [await] of a handler is one atomic step: one SQL statement, or
    one request to the backend.  A handler is a tree of such steps; running
    it alone gives the handler as a function on the store, and two handlers
    can be interleaved step by step. *)

Inductive Eff : Type -> Type :=
| GetKeywordById (i : string) : Eff (option Keyword)
| GetCampaignById (i : string) : Eff (option Campaign)
| CreatePendingChange (c : NewChange) : Eff (option Z)
| GetPendingChangeById (i : Z) : Eff (option PendingChange)
| UpdatePendingChangeStatus (i : Z) (s : Status) (errorMsg : option string) : Eff unit
| RecordChangeHistory (pendingChangeId : option Z) (tt : TargetType)
    (tid : string) (ct : ChangeType) (oldValue : option JsObject)
    (newValue : JsObject) (success : bool) (apiResponse : option JsObject) : Eff unit
| AdsCall (client : AdsClient) (req : AdsRequest) : Eff AdsOutcome.

Inductive Prog (A : Type) : Type :=
| Ret (a : A)
| Vis {X : Type} (e : Eff X) (k : X -> Prog A).

Arguments Ret {A} a.
Arguments Vis {A X} e k.

Fixpoint bind {A B : Type} (p : Prog A) (f : A -> Prog B) : Prog B :=
  match p with
  | Ret a => f a
  | Vis e k => Vis e (fun x => bind (k x) f)
  end.

Definition trigger {X : Type} (e : Eff X) : Prog X := Vis e Ret.

#[global] Instance Prog_ret : MRet Prog := fun _ a => Ret a.
#[global] Instance Prog_bind : MBind Prog := fun _ _ f p => bind p f.

Definition perform {X : Type} (e : Eff X) (w : World) : X * World :=
  match e in Eff X return X * World with
  | GetKeywordById i => (keywords w !! i, w)
  | GetCampaignById i => (campaigns w !! i, w)
  | CreatePendingChange c => createPendingChange c w
  | GetPendingChangeById i => (getPendingChangeById i w, w)
  | UpdatePendingChangeStatus i s e => (tt, updatePendingChangeStatus i s e w)
  | RecordChangeHistory pid tt' tid ct ov nv ok resp =>
      (tt, recordChangeHistory pid tt' tid ct ov nv ok resp w)
  | AdsCall client req =>
      (client (ads_calls w) req, set_ads_calls (ads_calls w ++ [req]) w)
  end.

(** One handler running alone, to completion. *)
Fixpoint run {A : Type} (p : Prog A) (w : World) : A * World :=
  match p with
  | Ret a => (a, w)
  | Vis e k => let '(x, w') := perform e w in run (k x) w'
  end.

(** One atomic step of a handler. *)
Definition step {A : Type} (p : Prog A) (w : World) : Prog A * World :=
  match p with
  | Ret a => (Ret a, w)
  | Vis e k => let '(x, w') := perform e w in (k x, w')
  end.

Inductive Turn : Type :=
| First
| Second.

(** Two handlers in flight: the schedule says whose step comes next; when
    it is used up the first handler finishes, then the second. *)
Fixpoint interleave {A B : Type} (sched : list Turn) (p : Prog A) (q : Prog B)
    (w : World) : A * B * World :=
  match sched with
  | [] =>
      let '(a, w1) := run p w in
      let '(b, w2) := run q w1 in (a, b, w2)
  | First :: sched' => let '(p', w') := step p w in interleave sched' p' q w'
  | Second :: sched' => let '(q', w') := step q w in interleave sched' p q' w'
  end.

(** ** The write tools of the MCP server (the tool handler in
    [src/scripts/import-csv.ts])

    A tool result is the [{ content, isError }] object the handler returns.
    Its text is not modelled character by character: one constructor per
    [return] statement, carrying the values the message is built from. *)

Inductive ToolResult : Type :=
| KeywordNotFound (keywordId : string)
    (* "Keyword ${keywordId} not found.", isError *)
| CampaignNotFound (campaignId : string)
    (* "Campaign ${campaignId} not found.", isError *)
| ProposalCreated (changeId : Z) (ct : ChangeType) (current proposed : JsObject)
    (* "Proposed ... created (ID: ${changeId}) ..." *)
| ChangeNotFound (changeId : Z)
    (* "Change ${changeId} not found.", isError *)
| AlreadyResolved (changeId : Z) (current : Status)
    (* "Change ${changeId} is already ${change.status}.", isError *)
| ApprovedNotExecuted (changeId : Z) (target : string) (proposed : JsObject)
    (* "Change ${changeId} approved, but Amazon Advertising API is not
       configured. ... Please apply this change manually ..." *)
| ExecutedOk (changeId : Z) (target : string) (proposed : JsObject)
    (* "Change ${changeId} executed successfully! ..." *)
| ExecutionFailed (changeId : Z) (errorMsg : string)
    (* "Failed to execute change ${changeId}: ${errorMsg}", isError *)
| RejectedOk (changeId : Z)
    (* "Change ${changeId} rejected. ..." *)
| ToolError (message : string)
    (* the outer catch: "Error: ${error.message}", isError *).

Definition isError (r : ToolResult) : bool :=
  match r with
  | KeywordNotFound _ | CampaignNotFound _ | ChangeNotFound _
  | AlreadyResolved _ _ | ExecutionFailed _ _ | ToolError _ => true
  | ProposalCreated _ _ _ _ | ApprovedNotExecuted _ _ _
  | ExecutedOk _ _ _ | RejectedOk _ => false
  end.

(** [change.targetName || change.targetId] *)
Definition target_label (c : PendingChange) : string :=
  match targetName c with
  | Some n => if String.eqb n "" then targetId c else n
  | None => targetId c
  end.

(** [error instanceof Error ? error.message : 'Unknown error'] *)
Definition errorText (e : Thrown) : string :=
  match e with
  | JsError m => m
  | JsOther => "Unknown error"
  end.

(** The [switch (change.changeType)] of [approve_change]: one backend
    mutation per change kind.  [ChangeType] has exactly the four kinds of
    the column's CHECK constraint, so the [default:] arm of the source has
    no counterpart. *)
Definition dispatch (c : PendingChange) : AdsRequest :=
  match changeType c with
  | bid_adjustment => updateKeywordBid (targetId c) (prop (proposedValue c) "bid")
  | state_change => updateKeywordState (targetId c) (prop (proposedValue c) "state")
  | budget_change =>
      updateCampaignBudget (targetId c) (prop (proposedValue c) "dailyBudget")
  | add_negative_keyword =>
      addNegativeKeyword (targetId c)
        (prop (proposedValue c) "keywordText") (prop (proposedValue c) "matchType")
  end.

(** What the outer [catch] of the request handler reports when the INSERT
    of [createPendingChange] is refused. *)
Definition insert_refused : ToolResult :=
  ToolError "duplicate key value violates unique constraint".

Definition created (r : option Z) (ct : ChangeType) (cur prp : JsObject)
    : Prog ToolResult :=
  match r with
  | Some changeId => mret (ProposalCreated changeId ct cur prp)
  | None => mret insert_refused
  end.

Definition propose_bid_change (keyword_id : string) (new_bid : num)
    (why : option string) : Prog ToolResult :=
  keyword ← trigger (GetKeywordById keyword_id);
  match keyword with
  | None => mret (KeywordNotFound keyword_id)
  | Some keyword =>
      let cur := [("bid", JNumber (kw_bid keyword))] in
      let prp := [("bid", JNumber new_bid)] in
      r ← trigger (CreatePendingChange
             {| new_changeType := bid_adjustment;
                new_targetType := target_keyword;
                new_targetId := keyword_id;
                new_targetName := Some (kw_keywordText keyword);
                new_currentValue := cur;
                new_proposedValue := prp;
                new_reason := why |});
      created r bid_adjustment cur prp
  end.

Definition propose_keyword_state_change (keyword_id : string)
    (new_state : EntityState) (why : option string) : Prog ToolResult :=
  keyword ← trigger (GetKeywordById keyword_id);
  match keyword with
  | None => mret (KeywordNotFound keyword_id)
  | Some keyword =>
      let cur := [("state", JString (EntityState_name (kw_state keyword)))] in
      let prp := [("state", JString (EntityState_name new_state))] in
      r ← trigger (CreatePendingChange
             {| new_changeType := state_change;
                new_targetType := target_keyword;
                new_targetId := keyword_id;
                new_targetName := Some (kw_keywordText keyword);
                new_currentValue := cur;
                new_proposedValue := prp;
                new_reason := why |});
      created r state_change cur prp
  end.

Definition propose_budget_change (campaign_id : string) (new_budget : num)
    (why : option string) : Prog ToolResult :=
  campaign ← trigger (GetCampaignById campaign_id);
  match campaign with
  | None => mret (CampaignNotFound campaign_id)
  | Some campaign =>
      let cur := [("dailyBudget", JNumber (c_dailyBudget campaign))] in
      let prp := [("dailyBudget", JNumber new_budget)] in
      r ← trigger (CreatePendingChange
             {| new_changeType := budget_change;
                new_targetType := target_campaign;
                new_targetId := campaign_id;
                new_targetName := Some (c_name campaign);
                new_currentValue := cur;
                new_proposedValue := prp;
                new_reason := why |});
      created r budget_change cur prp
  end.

Definition propose_negative_keyword (campaign_id keyword_text : string)
    (match_type : NegativeMatchType) (why : option string) : Prog ToolResult :=
  campaign ← trigger (GetCampaignById campaign_id);
  match campaign with
  | None => mret (CampaignNotFound campaign_id)
  | Some campaign =>
      let cur := [] in
      let prp := [("keywordText", JString keyword_text);
                  ("matchType", JString (NegativeMatchType_name match_type))] in
      r ← trigger (CreatePendingChange
             {| new_changeType := add_negative_keyword;
                new_targetType := target_campaign;
                new_targetId := campaign_id;
                new_targetName := Some (c_name campaign);
                new_currentValue := cur;
                new_proposedValue := prp;
                new_reason := why |});
      created r add_negative_keyword cur prp
  end.

(** The part of [approve_change] after the two guards, for a configured
    backend: the [try] block and its [catch]. *)
Definition execute_change (client : AdsClient) (change_id : Z)
    (change : PendingChange) : Prog ToolResult :=
  r ← trigger (AdsCall client (dispatch change));
  match r with
  | AdsOk =>
      _ ← trigger (UpdatePendingChangeStatus change_id executed None);
      _ ← trigger (RecordChangeHistory (Some change_id) (targetType change)
             (targetId change) (changeType change) (Some (currentValue change))
             (proposedValue change) true None);
      mret (ExecutedOk change_id (target_label change) (proposedValue change))
  | AdsThrow e =>
      let errorMsg := errorText e in
      _ ← trigger (UpdatePendingChangeStatus change_id failed (Some errorMsg));
      _ ← trigger (RecordChangeHistory (Some change_id) (targetType change)
             (targetId change) (changeType change) (Some (currentValue change))
             (proposedValue change) false (Some [("error", JString errorMsg)]));
      mret (ExecutionFailed change_id errorMsg)
  end.

(** [adsClient] is the module-level constant of the server: [None] when
    [createAmazonAdsClient] found the credentials missing. *)
Definition approve_change (adsClient : option AdsClient) (change_id : Z)
    : Prog ToolResult :=
  change ← trigger (GetPendingChangeById change_id);
  match change with
  | None => mret (ChangeNotFound change_id)
  | Some change =>
      if bool_decide (status change <> pending) then
        mret (AlreadyResolved change_id (status change))
      else
        match adsClient with
        | None =>
            _ ← trigger (UpdatePendingChangeStatus change_id approved None);
            mret (ApprovedNotExecuted change_id (target_label change)
                    (proposedValue change))
        | Some client => execute_change client change_id change
        end
  end.

Definition reject_change (change_id : Z) : Prog ToolResult :=
  change ← trigger (GetPendingChangeById change_id);
  match change with
  | None => mret (ChangeNotFound change_id)
  | Some change =>
      if bool_decide (status change <> pending) then
        mret (AlreadyResolved change_id (status change))
      else
        _ ← trigger (UpdatePendingChangeStatus change_id rejected None);
        mret (RejectedOk change_id)
  end.

(** The requests of a caller, and what happens between them. *)
Inductive ToolCall : Type :=
| call_propose_bid_change (keyword_id : string) (new_bid : num) (why : option string)
| call_propose_keyword_state_change (keyword_id : string)
    (new_state : EntityState) (why : option string)
| call_propose_budget_change (campaign_id : string) (new_budget : num)
    (why : option string)
| call_propose_negative_keyword (campaign_id keyword_text : string)
    (match_type : NegativeMatchType) (why : option string)
| call_approve_change (change_id : Z)
| call_reject_change (change_id : Z).

Definition handler (adsClient : option AdsClient) (c : ToolCall) : Prog ToolResult :=
  match c with
  | call_propose_bid_change k b r => propose_bid_change k b r
  | call_propose_keyword_state_change k s r => propose_keyword_state_change k s r
  | call_propose_budget_change c b r => propose_budget_change c b r
  | call_propose_negative_keyword c k m r => propose_negative_keyword c k m r
  | call_approve_change i => approve_change adsClient i
  | call_reject_change i => reject_change i
  end.

Inductive Event : Type :=
| Call (c : ToolCall)
| Clock (t : Z).

Definition apply_event (adsClient : option AdsClient) (ev : Event) (w : World) : World :=
  match ev with
  | Call c => snd (run (handler adsClient c) w)
  | Clock t => set_now t w
  end.

Definition run_events (adsClient : option AdsClient) (evs : list Event)
    (w : World) : World :=
  foldl (fun w ev => apply_event adsClient ev w) w evs.

(** ** Vocabulary of the specification

    The definitions below are not part of the program: they spell out the
    words of the specification so that the program can be compared with
    them. *)

(** The rational a finite number stands for. *)
Definition val (x : num) : Qc :=
  match x with Fin q => q | _ => 0%Qc end.

(** Data model: a metric record has finite, non-negative counts and
    amounts; the optional page-read royalty is a finite amount. *)
Definition wf_metric (m : CampaignMetrics) : bool :=
  nonneg (impressions m) && nonneg (clicks m) && nonneg (spend m) &&
  nonneg (sales m) && nonneg (orders m) && nonneg (unitsSold m) &&
  from_option is_finite true (kenpRoyalties m).

Definition wf_config (c : AnalysisConfig) : bool :=
  is_finite (royaltyPerSale c).


(** "[p] runs from the earliest to the latest date present in [metrics]". *)
Definition covers (p : Period) (metrics : list CampaignMetrics) : Prop :=
  (exists m, m ∈ metrics /\ startDate p = date m) /\
  (exists m, m ∈ metrics /\ endDate p = date m) /\
  forall m, m ∈ metrics ->
    String.leb (startDate p) (date m) = true /\
    String.leb (date m) (endDate p) = true.


(** "change = (current − previous) / previous × 100, except when
    previous = 0, in which case change = 100 if current > 0, else 0", on
    rationals. *)
Definition change_rule (current previous : Qc) : Qc :=
  if bool_decide (previous = 0%Qc) then
    (if bool_decide (0 < current)%Qc then Q2Qc 100 else 0%Qc)
  else ((current - previous) / previous * Q2Qc 100)%Qc.

(** The six values a comparison reads from a report are finite. *)
Definition compared_finite (r : ROIMetrics) : bool :=
  is_finite (totalSpend r) && is_finite (totalSales r) && is_finite (acos r) &&
  is_finite (estimatedProfit r) && is_finite (totalImpressions r) &&
  is_finite (totalClicks r).


(** "All totals and all derived ratios are 0", with the break-even ACOS
    left as a parameter. *)
Definition all_zero_but (breakEven : num) (r : ROIMetrics) : Prop :=
  totalSpend r = of_Z 0 /\ totalSales r = of_Z 0 /\ totalOrders r = of_Z 0 /\
  totalUnitsSold r = of_Z 0 /\ totalImpressions r = of_Z 0 /\
  totalClicks r = of_Z 0 /\
  acos r = of_Z 0 /\ roas r = of_Z 0 /\ ctr r = of_Z 0 /\ cpc r = of_Z 0 /\
  conversionRate r = of_Z 0 /\ profitMargin r = of_Z 0 /\
  breakEvenAcos r = breakEven.

(** Sample data: the two campaigns of 2025-12-10 and 2025-12-11. *)
Definition day (d : string) (imp clk : Z) (sp sa : num) (ord : Z) : CampaignMetrics :=
  {| campaignId := "A1"; date := d;
     impressions := of_Z imp; clicks := of_Z clk; spend := sp; sales := sa;
     orders := of_Z ord; unitsSold := of_Z ord;
     kenpRoyalties := None; kenpPagesRead := None |}.

Definition dec10 : CampaignMetrics :=
  day "2025-12-10" 2100 20 (of_frac 1570 100) (of_frac 3198 100) 2.

Definition dec11 : CampaignMetrics :=
  day "2025-12-11" 2400 25 (of_frac 1925 100) (of_frac 6396 100) 4.

Definition default_config : AnalysisConfig :=
  {| royaltyPerSale := of_frac 280 100; kenpRatePerPage := Some (of_frac 45 10000) |}.

(** The transitions of section 4.4: pending → approved → executed | failed,
    and pending → rejected. *)
Definition lifecycle_transition (s s' : Status) : bool :=
  match s, s' with
  | pending, approved | pending, rejected
  | approved, executed | approved, failed => true
  | _, _ => false
  end.

(** The transitions of the program: a pending proposal is resolved in one
    move. *)
Definition resolution (s s' : Status) : bool :=
  match s, s' with
  | pending, approved | pending, rejected
  | pending, executed | pending, failed => true
  | _, _ => false
  end.

(** What one tool call can do to the table of proposals: nothing, resolve a
    pending proposal, or add a pending one under a new id. *)
Inductive table_step (t : gmap Z PendingChange) : gmap Z PendingChange -> Prop :=
| table_same : table_step t t
| table_resolve (i : Z) (p : PendingChange) (time : Z) (s : Status)
    (e : option string) :
    t !! i = Some p -> status p = pending -> s <> pending ->
    table_step t (alter (status_update time s e) i t)
| table_create (i : Z) (row : PendingChange) :
    t !! i = None -> status row = pending ->
    table_step t (<[i := row]> t).

(** The status a configured backend's answer leads to. *)
Definition outcome_status (r : AdsOutcome) : Status :=
  match r with
  | AdsOk => executed
  | AdsThrow _ => failed
  end.

(** The status an approval of a pending proposal leads to: 'approved'
    without a backend, otherwise what the backend's answer to the dispatched
    request decides. *)
Definition approval_status (adsClient : option AdsClient) (w : World)
    (p : PendingChange) : Status :=
  match adsClient with
  | None => approved
  | Some client => outcome_status (client (ads_calls w) (dispatch p))
  end.

(** The SERIAL sequence is ahead of every id in the table. *)
Definition store_consistent (w : World) : Prop :=
  forall i, pending_changes_seq w <= i -> pending_changes w !! i = None.

(** Sample data: the keyword "epic fantasy books" at a bid of $1.10, and a
    proposal to lower it to $0.85. *)
Definition epic_fantasy : Keyword :=
  {| kw_id := "K1"; kw_adGroupId := "G1"; kw_campaignId := "A1";
     kw_keywordText := "epic fantasy books"; kw_matchType := exact;
     kw_state := enabled; kw_bid := of_frac 110 100;
     kw_createdAt := 0; kw_updatedAt := 0 |}.

Definition shop : World :=
  {| keywords := {["K1" := epic_fantasy]};
     campaigns := ∅;
     pending_changes := ∅;
     pending_changes_seq := 1;
     change_history := [];
     now := 1000;
     ads_calls := [] |}.

Definition lower_bid (s : Status) : PendingChange :=
  {| id := 1; changeType := bid_adjustment; targetType := target_keyword;
     targetId := "K1"; targetName := Some "epic fantasy books";
     currentValue := [("bid", JNumber (of_frac 110 100))];
     proposedValue := [("bid", JNumber (of_frac 85 100))];
     reason := Some "ACOS above break-even";
     status := s; createdAt := 1000;
     reviewedAt := match s with pending => None | _ => Some 1010 end;
     executedAt := match s with executed | failed => Some 1010 | _ => None end;
     errorMessage := None |}.

Definition shop_with (c : PendingChange) : World :=
  set_pending_changes_seq 2 (set_pending_changes {[1 := c]} shop).

Definition backend_ok : AdsClient := fun _ _ => AdsOk.

Definition backend_throws (message : string) : AdsClient :=
  fun _ _ => AdsThrow (JsError message).

(** ** The errors of [AmazonAdsClient]

    What a mutation of the client throws of its own: the access token could
    not be refreshed ([refreshAccessToken]), the API answered with an error
    status ([request]), or the answer reports a code other than 'SUCCESS'
    (the mutation itself).  The strings stand for the texts the message
    templates interpolate. *)
Inductive ClientError : Type :=
| TokenRefreshFailed (body : string)
| ApiError (code detail : string)
| MutationRefused (code : string).

Definition refusal_prefix (r : AdsRequest) : string :=
  match r with
  | updateKeywordBid _ _ => "Failed to update keyword bid: "
  | updateKeywordState _ _ => "Failed to update keyword state: "
  | updateCampaignBudget _ _ => "Failed to update campaign budget: "
  | addNegativeKeyword _ _ _ => "Failed to add negative keyword: "
  end.

Definition clientErrorMessage (r : AdsRequest) (e : ClientError) : string :=
  match e with
  | TokenRefreshFailed body => "Token refresh failed: " ++ body
  | ApiError code detail => "API Error: " ++ code ++ " - " ++ detail
  | MutationRefused code => refusal_prefix r ++ code
  end.

(** A backend that refuses every mutation with the given code. *)
Definition backend_refuses (code : string) : AdsClient :=
  fun _ r => AdsThrow (JsError (clientErrorMessage r (MutationRefused code))).

(** ** Further operations of the registry *)

(** The optional [WHERE status = $1] of [getPendingChanges]. *)
Definition has_status (st : option Status) (p : PendingChange) : Prop :=
  match st with
  | Some s => status p = s
  | None => True
  end.

#[global] Instance has_status_dec (st : option Status) (p : PendingChange) :
  Decision (has_status st p).
Proof. destruct st; simpl; apply _. Defined.

(** [ORDER BY created_at DESC] *)
Definition newest_first (a b : PendingChange) : Prop := createdAt b <= createdAt a.

#[global] Instance newest_first_dec : RelDecision newest_first.
Proof. intros a b. unfold newest_first. apply _. Defined.

(** [getPendingChanges(status?)]: the rows of the table, those of the given
    status when one is given, newest first.  The order among rows created
    at the same instant is the database's choice; here it is the one
    [merge_sort] makes. *)
Definition getPendingChanges (st : option Status) (w : World) : list PendingChange :=
  sorting.merge_sort newest_first
    (filter (has_status st) (map_to_list (pending_changes w)).*2).

(** The two results of the [list_pending_changes] tool: "No ${status}
    changes found.", or the heading "${STATUS} changes (n):" followed by one
    block per change, in the order of the query. *)
Inductive ListResult : Type :=
| NoChangesFound (st : Status)
| ChangesListed (st : Status) (listed : list PendingChange).

(** [(args?.status as PendingChange['status']) || 'pending'] *)
Definition list_pending_changes (status_arg : option Status) (w : World) : ListResult :=
  let st := default pending status_arg in
  let listed := getPendingChanges (Some st) w in
  if bool_decide (length listed = 0%nat) then NoChangesFound st
  else ChangesListed st listed.

(** ** Vocabulary for the further properties *)

(** An effect that cannot reopen a proposal: every status update writes a
    status other than 'pending'. *)
Definition keeps_resolved {X : Type} (e : Eff X) : Prop :=
  match e with
  | UpdatePendingChangeStatus _ s _ => s <> pending
  | _ => True
  end.

(** A program all of whose effects, along every path, keep resolved
    proposals resolved. *)
Inductive never_reopens {A : Type} : Prog A -> Prop :=
| never_reopens_ret (a : A) : never_reopens (Ret a)
| never_reopens_vis (X : Type) (e : Eff X) (k : X -> Prog A) :
    keeps_resolved e -> (forall x, never_reopens (k x)) ->
    never_reopens (Vis e k).

(** From table [t] to table [t']: every proposal is still there with its
    identity and payloads, and is not pending again if it was resolved. *)
Definition table_kept (t t' : gmap Z PendingChange) : Prop :=
  forall i p, t !! i = Some p ->
    exists p', t' !! i = Some p' /\
      id p' = id p /\ changeType p' = changeType p /\
      targetId p' = targetId p /\
      currentValue p' = currentValue p /\ proposedValue p' = proposedValue p /\
      createdAt p' = createdAt p /\
      (status p <> pending -> status p' <> pending).

(** The shape of a stored proposal: it carries its own id; it has a review
    time exactly when it is not pending, an execution time exactly when it
    is executed or failed, and an error text only when it failed. *)
Definition row_ok (i : Z) (p : PendingChange) : Prop :=
  id p = i /\
  (reviewedAt p = None <-> status p = pending) /\
  (executedAt p <> None <-> status p = executed \/ status p = failed) /\
  (errorMessage p <> None -> status p = failed).

Definition rows_ok (w : World) : Prop :=
  forall i p, pending_changes w !! i = Some p -> row_ok i p.

(** A history entry and the proposal it belongs to. *)
Definition entry_of (h : ChangeHistoryEntry) (i : Z) (p : PendingChange) : Prop :=
  h_pendingChangeId h = Some i /\
  status p = (if h_success h then executed else failed) /\
  h_targetType h = targetType p /\ h_targetId h = targetId p /\
  h_changeType h = changeType p /\
  h_oldValue h = Some (currentValue p) /\ h_newValue h = proposedValue p /\
  (h_success h = true -> h_apiResponse h = None).

(** Every entry of the change history belongs to a stored proposal. *)
Definition history_ok (w : World) : Prop :=
  forall h, h ∈ change_history w ->
    exists i p, pending_changes w !! i = Some p /\ entry_of h i p.

(** The history entry [approve_change] records at time [t] for proposal
    [p] stored under [i], after the backend answered [r]. *)
Definition execution_entry (t i : Z) (p : PendingChange) (r : AdsOutcome)
    : ChangeHistoryEntry :=
  {| h_pendingChangeId := Some i;
     h_targetType := targetType p;
     h_targetId := targetId p;
     h_changeType := changeType p;
     h_oldValue := Some (currentValue p);
     h_newValue := proposedValue p;
     h_executedAt := t;
     h_success := match r with AdsOk => true | AdsThrow _ => false end;
     h_apiResponse :=
       match r with
       | AdsOk => None
       | AdsThrow e => Some [("error", JString (errorText e))]
       end |}.

(** ** Further functions of [roi-calculator.ts] *)

(** [x < y] of JavaScript. *)
Definition nlt (x y : num) : bool := ngt y x.

Record DailyTrend : Type := {
  t_date : string;
  t_spend : num;
  t_sales : num;
  t_acos : num;
  t_impressions : num;
  t_clicks : num
}.

Definition calculateDailyTrends (metrics : list CampaignMetrics) : list DailyTrend :=
  map
    (fun m =>
       {| t_date := date m;
          t_spend := spend m;
          t_sales := sales m;
          t_acos :=
            if (sales m >? of_Z 0)%num
            then (spend m / sales m * of_Z 100)%num else of_Z 0;
          t_impressions := impressions m;
          t_clicks := clicks m |})
    metrics.

(** The lines [generateROISummary] pushes after the heading "Analysis:".
    The formatted figures above that heading are not modelled.  Each
    constructor stands for the line or the two lines of one branch. *)
Inductive AnalysisLine : Type :=
| AcosAboveBreakEven
    (* "ACOS (..) is above break-even (..)",
       "Consider optimizing keywords or reducing bids" *)
| AcosBelowBreakEven
    (* "ACOS (..) is below break-even (..)", "Campaign is profitable" *)
| CtrLow
    (* "CTR is low - consider improving ad copy or targeting" *)
| ConversionLow
    (* "Conversion rate is low - review book listing quality and relevance" *).

(** The lines [generateComparisonSummary] pushes after the heading
    "Interpretation:". *)
Inductive InterpretationLine : Type :=
| EfficiencyImproving
    (* "Efficiency improving - sales growing faster than spend" *)
| EfficiencyDeclining
    (* "Efficiency declining - spend growing faster than sales" *)
| AcosImproved
    (* "ACOS improved (lower is better)" *)
| AcosIncreased
    (* "ACOS increased significantly - review campaign performance" *).

Definition comparisonInterpretation (comparison : PeriodComparison)
    : list InterpretationLine :=
  let c := changes comparison in
  (if (salesChange c >? spendChange c)%num then [EfficiencyImproving]
   else if nlt (salesChange c) (spendChange c) then [EfficiencyDeclining]
   else []) ++
  (if nlt (acosChange c) (of_Z 0) then [AcosImproved]
   else if (acosChange c >? of_Z 10)%num then [AcosIncreased]
   else []).

(** ** Dates in the CSV import ([src/scripts/import-csv.ts])

    The three regular expressions of [parseDate] only contain [\d], [-] and
    [/] between [^] and [$], so each is a test on the length of the string
    and on the kind of character at each position. *)

(** The character a one-character literal stands for. *)
Definition char_of (s : string) : Ascii.ascii :=
  match s with
  | String c _ => c
  | EmptyString => Ascii.zero
  end.

Definition is_digit (c : Ascii.ascii) : bool :=
  (48 <=? Ascii.nat_of_ascii c)%nat && (Ascii.nat_of_ascii c <=? 57)%nat.

Definition is_dash (c : Ascii.ascii) : bool := Ascii.eqb c (char_of "-").

Definition is_slash (c : Ascii.ascii) : bool := Ascii.eqb c (char_of "/").

(** [/^\d{4}-\d{2}-\d{2}$/] *)
Definition iso_chars (l : list Ascii.ascii) : bool :=
  match l with
  | [y1; y2; y3; y4; s1; m1; m2; s2; d1; d2] =>
      forallb is_digit [y1; y2; y3; y4; m1; m2; d1; d2] &&
      is_dash s1 && is_dash s2
  | _ => false
  end.

(** [/^(\d{1,2})\/(\d{1,2})\/(\d{4})$/]: the month, the day and the year
    when the string matches. *)
Definition slashed_chars (l : list Ascii.ascii)
    : option (list Ascii.ascii * list Ascii.ascii * list Ascii.ascii) :=
  match l with
  | [m1; s1; d1; s2; y1; y2; y3; y4] =>
      if forallb is_digit [m1; d1; y1; y2; y3; y4] && is_slash s1 && is_slash s2
      then Some ([m1], [d1], [y1; y2; y3; y4]) else None
  | [a1; a2; a3; a4; a5; y1; y2; y3; y4] =>
      if forallb is_digit [a1; a2; a4; y1; y2; y3; y4] && is_slash a3 && is_slash a5
      then Some ([a1; a2], [a4], [y1; y2; y3; y4])
      else if forallb is_digit [a1; a3; a4; y1; y2; y3; y4] &&
              is_slash a2 && is_slash a5
      then Some ([a1], [a3; a4], [y1; y2; y3; y4])
      else None
  | [m1; m2; s1; d1; d2; s2; y1; y2; y3; y4] =>
      if forallb is_digit [m1; m2; d1; d2; y1; y2; y3; y4] &&
         is_slash s1 && is_slash s2
      then Some ([m1; m2], [d1; d2], [y1; y2; y3; y4]) else None
  | _ => None
  end.

(** [/^\d{8}$/] *)
Definition eight_digit_chars (l : list Ascii.ascii) : bool :=
  (length l =? 8)%nat && forallb is_digit l.

(** [s.padStart(2, '0')] for a string of one or two characters. *)
Definition padStart2 (l : list Ascii.ascii) : list Ascii.ascii :=
  match l with
  | [c] => [char_of "0"; c]
  | _ => l
  end.

Definition parseDate_chars (l : list Ascii.ascii) : list Ascii.ascii :=
  match l with
  | [] => []
  | _ =>
      if iso_chars l then l
      else
        match slashed_chars l with
        | Some (month, day, year) =>
            year ++ char_of "-" :: padStart2 month ++ char_of "-" :: padStart2 day
        | None =>
            if eight_digit_chars l
            then take 4 l ++ char_of "-" :: take 2 (drop 4 l) ++
                 char_of "-" :: take 2 (drop 6 l)
            else l
        end
  end.

Definition parseDate (dateStr : string) : string :=
  String.string_of_list_ascii (parseDate_chars (String.list_ascii_of_string dateStr)).

(** [s.replace(/-/g, '')], as [importCampaignReport] applies it to the
    parsed start and end dates. *)
Definition strip_dashes (s : string) : string :=
  String.string_of_list_ascii
    (filter (fun c => is_dash c = false) (String.list_ascii_of_string s)).

Definition iso_shaped (s : string) : bool := iso_chars (String.list_ascii_of_string s).

Definition eight_digits (s : string) : bool :=
  eight_digit_chars (String.list_ascii_of_string s).

(** One of the three formats [parseDate] knows. *)
Definition recognised (s : string) : bool :=
  iso_shaped s || bool_decide (is_Some (slashed_chars (String.list_ascii_of_string s))) ||
  eight_digits s.

(** * The ROI engine in binary64

    The numbers of the program are IEEE 754 binary64 values.  This module
    repeats [roi-calculator.ts] over them: [spec_float] with the operations
    of the Standard Library's specification of binary64 (53 bits of
    precision, rounding to nearest with ties to even), in which sums round
    and overflow as they do in the program. *)
Module F64.

Definition f64 : Type := SpecFloat.spec_float.

Definition fadd : f64 -> f64 -> f64 := SpecFloat.SFadd 53 1024.
Definition fsub : f64 -> f64 -> f64 := SpecFloat.SFsub 53 1024.
Definition fmul : f64 -> f64 -> f64 := SpecFloat.SFmul 53 1024.
Definition fdiv : f64 -> f64 -> f64 := SpecFloat.SFdiv 53 1024.

(** [x > y], [x < y] and [x === y]; false when an argument is NaN. *)
Definition fgt (x y : f64) : bool := SpecFloat.SFltb y x.
Definition flt (x y : f64) : bool := SpecFloat.SFltb x y.
Definition feq (x y : f64) : bool := SpecFloat.SFeqb x y.

(** The value of an integer literal, and of a decimal literal [n / d] with
    [n] and [d] below 2^53: the nearest binary64 value, which is what the
    correctly rounded quotient of the two integers is. *)
Definition of_Z (z : Z) : f64 := SpecFloat.binary_normalize 53 1024 z 0 false.
Definition of_frac (n d : Z) : f64 := fdiv (of_Z n) (of_Z d).

Declare Scope f64_scope.
Delimit Scope f64_scope with f64.
Bind Scope f64_scope with f64.
Infix "+" := fadd : f64_scope.
Infix "-" := fsub : f64_scope.
Infix "*" := fmul : f64_scope.
Infix "/" := fdiv : f64_scope.
Infix ">?" := fgt (at level 70, no associativity) : f64_scope.
Infix "<?" := flt (at level 70, no associativity) : f64_scope.

Definition is_nan (x : f64) : bool :=
  match x with SpecFloat.S754_nan => true | _ => false end.

(** [Number.isFinite]. *)
Definition is_finite (x : f64) : bool :=
  match x with
  | SpecFloat.S754_zero _ | SpecFloat.S754_finite _ _ _ => true
  | _ => false
  end.

(** ** Metric records and reports *)

Record CampaignMetrics : Type := {
  campaignId : string;
  date : string;
  impressions : f64;
  clicks : f64;
  spend : f64;
  sales : f64;
  orders : f64;
  unitsSold : f64;
  kenpRoyalties : option f64;
  kenpPagesRead : option f64
}.

Record AnalysisConfig : Type := {
  royaltyPerSale : f64;
  kenpRatePerPage : option f64
}.

Record Aggregate : Type := {
  agg_impressions : f64;
  agg_clicks : f64;
  agg_spend : f64;
  agg_sales : f64;
  agg_orders : f64;
  agg_unitsSold : f64;
  agg_kenpRoyalties : f64
}.

Record ROIMetrics : Type := {
  roiCampaignId : string;
  campaignName : string;
  period : Period;
  totalSpend : f64;
  totalSales : f64;
  totalOrders : f64;
  totalUnitsSold : f64;
  totalImpressions : f64;
  totalClicks : f64;
  acos : f64;
  roas : f64;
  ctr : f64;
  cpc : f64;
  conversionRate : f64;
  estimatedRoyalties : f64;
  estimatedProfit : f64;
  profitMargin : f64;
  breakEvenAcos : f64
}.

(** ** [roi-calculator.ts] *)

(** The reducer of [aggregateMetrics]; [m.kenpRoyalties ?? 0]. *)
Definition aggregate_step (acc : Aggregate) (m : CampaignMetrics) : Aggregate :=
  {| agg_impressions := (agg_impressions acc + impressions m)%f64;
     agg_clicks := (agg_clicks acc + clicks m)%f64;
     agg_spend := (agg_spend acc + spend m)%f64;
     agg_sales := (agg_sales acc + sales m)%f64;
     agg_orders := (agg_orders acc + orders m)%f64;
     agg_unitsSold := (agg_unitsSold acc + unitsSold m)%f64;
     agg_kenpRoyalties :=
       (agg_kenpRoyalties acc + default (of_Z 0) (kenpRoyalties m))%f64 |}.

Definition aggregate_zero : Aggregate :=
  {| agg_impressions := of_Z 0; agg_clicks := of_Z 0; agg_spend := of_Z 0;
     agg_sales := of_Z 0; agg_orders := of_Z 0; agg_unitsSold := of_Z 0;
     agg_kenpRoyalties := of_Z 0 |}.

Definition aggregateMetrics (metrics : list CampaignMetrics) : Aggregate :=
  foldl aggregate_step aggregate_zero metrics.

(** [metrics[0].date] and [metrics[metrics.length - 1].date], or the pair of
    empty strings for the empty array. *)
Definition dateRange (metrics : list CampaignMetrics) : Period :=
  match metrics with
  | [] => {| startDate := ""; endDate := "" |}
  | m0 :: _ =>
      {| startDate := date m0; endDate := date (List.last metrics m0) |}
  end.

Definition calculateROI (cid cname : string)
    (metrics : list CampaignMetrics) (config : AnalysisConfig) : ROIMetrics :=
  let agg := aggregateMetrics metrics in
  let acos :=
    if (agg_sales agg >? of_Z 0)%f64
    then (agg_spend agg / agg_sales agg * of_Z 100)%f64 else of_Z 0 in
  let roas :=
    if (agg_spend agg >? of_Z 0)%f64
    then (agg_sales agg / agg_spend agg)%f64 else of_Z 0 in
  let ctr :=
    if (agg_impressions agg >? of_Z 0)%f64
    then (agg_clicks agg / agg_impressions agg * of_Z 100)%f64 else of_Z 0 in
  let cpc :=
    if (agg_clicks agg >? of_Z 0)%f64
    then (agg_spend agg / agg_clicks agg)%f64 else of_Z 0 in
  let conversionRate :=
    if (agg_clicks agg >? of_Z 0)%f64
    then (agg_orders agg / agg_clicks agg * of_Z 100)%f64 else of_Z 0 in
  let salesRoyalties := (agg_unitsSold agg * royaltyPerSale config)%f64 in
  let totalRoyalties := (salesRoyalties + agg_kenpRoyalties agg)%f64 in
  let profit := (totalRoyalties - agg_spend agg)%f64 in
  let profitMargin :=
    if (totalRoyalties >? of_Z 0)%f64
    then (profit / totalRoyalties * of_Z 100)%f64 else of_Z 0 in
  let breakEvenAcos :=
    if (agg_sales agg >? of_Z 0)%f64
    then (totalRoyalties / agg_sales agg * of_Z 100)%f64
    else if (royaltyPerSale config >? of_Z 0)%f64 then of_Z 30 else of_Z 0 in
  {| roiCampaignId := cid;
     campaignName := cname;
     period := dateRange metrics;
     totalSpend := agg_spend agg;
     totalSales := agg_sales agg;
     totalOrders := agg_orders agg;
     totalUnitsSold := agg_unitsSold agg;
     totalImpressions := agg_impressions agg;
     totalClicks := agg_clicks agg;
     acos := acos;
     roas := roas;
     ctr := ctr;
     cpc := cpc;
     conversionRate := conversionRate;
     estimatedRoyalties := totalRoyalties;
     estimatedProfit := profit;
     profitMargin := profitMargin;
     breakEvenAcos := breakEvenAcos |}.

Record Changes : Type := {
  spendChange : f64;
  salesChange : f64;
  acosChange : f64;
  profitChange : f64;
  impressionsChange : f64;
  clicksChange : f64
}.

Record PeriodComparison : Type := {
  currentPeriod : ROIMetrics;
  previousPeriod : ROIMetrics;
  changes : Changes
}.

Definition percentageChange (current previous : f64) : f64 :=
  if feq previous (of_Z 0) then
    (if (current >? of_Z 0)%f64 then of_Z 100 else of_Z 0)
  else ((current - previous) / previous * of_Z 100)%f64.

Definition comparePeriods (current previous : ROIMetrics) : PeriodComparison :=
  {| currentPeriod := current;
     previousPeriod := previous;
     changes :=
       {| spendChange := percentageChange (totalSpend current) (totalSpend previous);
          salesChange := percentageChange (totalSales current) (totalSales previous);
          acosChange := percentageChange (acos current) (acos previous);
          profitChange :=
            percentageChange (estimatedProfit current) (estimatedProfit previous);
          impressionsChange :=
            percentageChange (totalImpressions current) (totalImpressions previous);
          clicksChange :=
            percentageChange (totalClicks current) (totalClicks previous) |} |}.

Record DailyTrend : Type := {
  t_date : string;
  t_spend : f64;
  t_sales : f64;
  t_acos : f64;
  t_impressions : f64;
  t_clicks : f64
}.

Definition calculateDailyTrends (metrics : list CampaignMetrics) : list DailyTrend :=
  map
    (fun m =>
       {| t_date := date m;
          t_spend := spend m;
          t_sales := sales m;
          t_acos :=
            if (sales m >? of_Z 0)%f64
            then (spend m / sales m * of_Z 100)%f64 else of_Z 0;
          t_impressions := impressions m;
          t_clicks := clicks m |})
    metrics.

(** The lines [generateROISummary] pushes after the heading "Analysis:". *)
Definition summaryAnalysis (roi : ROIMetrics) : list AnalysisLine :=
  (if (acos roi >? breakEvenAcos roi)%f64
   then [AcosAboveBreakEven] else [AcosBelowBreakEven]) ++
  (if (ctr roi <? of_frac 3 10)%f64 then [CtrLow] else []) ++
  (if (conversionRate roi <? of_Z 5)%f64 then [ConversionLow] else []).

(** ** Vocabulary of the specification, over binary64 *)

(** Data model: a finite number that is not negative (either zero counts). *)
Definition nonneg (x : f64) : bool :=
  match x with
  | SpecFloat.S754_zero _ | SpecFloat.S754_finite false _ _ => true
  | _ => false
  end.

(** What sums of such numbers are: not negative and not NaN, possibly
    [Infinity]. *)
Definition not_negative (x : f64) : bool :=
  match x with
  | SpecFloat.S754_zero _ | SpecFloat.S754_finite false _ _
  | SpecFloat.S754_infinity false => true
  | _ => false
  end.

(** A value with the sign [s]: a zero, a finite number or an infinity, and
    not NaN. *)
Definition signed (s : bool) (x : f64) : Prop :=
  match x with
  | SpecFloat.S754_zero s' | SpecFloat.S754_infinity s'
  | SpecFloat.S754_finite s' _ _ => s' = s
  | SpecFloat.S754_nan => False
  end.

(** A metric record has finite, non-negative counts and amounts, the
    page-read royalty included when present. *)
Definition wf_metric (m : CampaignMetrics) : bool :=
  nonneg (impressions m) && nonneg (clicks m) && nonneg (spend m) &&
  nonneg (sales m) && nonneg (orders m) && nonneg (unitsSold m) &&
  from_option nonneg true (kenpRoyalties m).

(** The royalty per sale is a finite, non-negative amount. *)
Definition wf_config (c : AnalysisConfig) : bool :=
  nonneg (royaltyPerSale c).

(** "x / y, defined as 0 when y = 0" and "x / y × 100, defined as 0 when
    y = 0". *)
Definition zero_guarded (x y : f64) : f64 :=
  if feq y (of_Z 0) then of_Z 0 else (x / y)%f64.

Definition zero_guarded_pct (x y : f64) : f64 :=
  if feq y (of_Z 0) then of_Z 0 else (x / y * of_Z 100)%f64.

(** "royalties / sales × 100 when sales > 0; 30 when sales = 0 and
    royaltyPerUnit > 0; otherwise 0". *)
Definition breakEven_rule (royalties totalSales rpu : f64) : f64 :=
  if (totalSales >? of_Z 0)%f64 then (royalties / totalSales * of_Z 100)%f64
  else if feq totalSales (of_Z 0) && (rpu >? of_Z 0)%f64 then of_Z 30
  else of_Z 0.

(** No sum has overflowed: the six totals and the estimated royalties of
    the report are finite. *)
Definition no_overflow (r : ROIMetrics) : bool :=
  is_finite (totalSpend r) && is_finite (totalSales r) &&
  is_finite (totalOrders r) && is_finite (totalUnitsSold r) &&
  is_finite (totalImpressions r) && is_finite (totalClicks r) &&
  is_finite (estimatedRoyalties r).

(** None of the nine derived figures is NaN. *)
Definition derived_not_nan (r : ROIMetrics) : bool :=
  negb (is_nan (acos r)) && negb (is_nan (roas r)) && negb (is_nan (ctr r)) &&
  negb (is_nan (cpc r)) && negb (is_nan (conversionRate r)) &&
  negb (is_nan (estimatedRoyalties r)) && negb (is_nan (estimatedProfit r)) &&
  negb (is_nan (profitMargin r)) && negb (is_nan (breakEvenAcos r)).

(** The sum of a column as the reducer takes it: from 0, in the order of
    the records. *)
Definition sum_in_order (f : CampaignMetrics -> f64)
    (metrics : list CampaignMetrics) : f64 :=
  foldl (fun acc m => (acc + f m)%f64) (of_Z 0) metrics.

(** Days compare as 'YYYY-MM-DD' strings. *)
Definition date_le (a b : CampaignMetrics) : Prop :=
  String.leb (date a) (date b) = true.

(** "[p] runs from the earliest to the latest date present in [metrics]". *)
Definition covers (p : Period) (metrics : list CampaignMetrics) : Prop :=
  (exists m, m ∈ metrics /\ startDate p = date m) /\
  (exists m, m ∈ metrics /\ endDate p = date m) /\
  forall m, m ∈ metrics ->
    String.leb (startDate p) (date m) = true /\
    String.leb (date m) (endDate p) = true.

(** The change the comparison reports against a previous value of 0. *)
Definition appeared (x : f64) : f64 :=
  if (x >? of_Z 0)%f64 then of_Z 100 else of_Z 0.

(** Sample records. *)
Definition day (d : string) (imp clk : Z) (sp sa : f64) (ord : Z) : CampaignMetrics :=
  {| campaignId := "A1"; date := d;
     impressions := of_Z imp; clicks := of_Z clk; spend := sp; sales := sa;
     orders := of_Z ord; unitsSold := of_Z ord;
     kenpRoyalties := None; kenpPagesRead := None |}.

Definition default_config : AnalysisConfig :=
  {| royaltyPerSale := of_frac 280 100; kenpRatePerPage := Some (of_frac 45 10000) |}.

(** The two days of the sample report. *)
Definition two_days : list CampaignMetrics :=
  [day "2025-12-10" 2100 20 (of_frac 1570 100) (of_frac 3198 100) 2;
   day "2025-12-11" 2400 25 (of_frac 1925 100) (of_frac 6396 100) 4].

(** A day with a spend and sales of 1e308 each. *)
Definition huge_day : CampaignMetrics :=
  day "2025-12-10" 1 1 (of_Z (10 ^ 308)) (of_Z (10 ^ 308)) 1.

(** Three days with a spend of 0.1, 0.2 and 0.3 and no sales. *)
Definition three_days : list CampaignMetrics :=
  [day "2025-12-01" 100 1 (of_frac 1 10) (of_Z 0) 0;
   day "2025-12-02" 100 1 (of_frac 2 10) (of_Z 0) 0;
   day "2025-12-03" 100 1 (of_frac 3 10) (of_Z 0) 0].

(** Totals of well-formed records: not negative. *)
Definition wf_agg (a : Aggregate) : Prop :=
  not_negative (agg_impressions a) = true /\
  not_negative (agg_clicks a) = true /\
  not_negative (agg_spend a) = true /\
  not_negative (agg_sales a) = true /\
  not_negative (agg_orders a) = true /\
  not_negative (agg_unitsSold a) = true /\
  not_negative (agg_kenpRoyalties a) = true.

End F64.

(** * The metric queries of [KdpDatabase] and the read tools

    The table [campaign_metrics] holds one row per campaign and day: the
    day (a DATE, here the number of the day), the counts (INTEGER) and the
    amounts (DECIMAL(10, 2), here a whole number of cents).  The special
    values the column types also admit (the dates 'infinity' and
    '-infinity', the amount 'NaN') are left out.  Rows of the same day come
    in the order the sort leaves them in; the database promises none.

    Two conversions between days and strings lie outside the program and
    are parameters of the queries:
    - [date_in] is PostgreSQL's conversion of a text parameter to a DATE;
      [None] when it rejects the text ("invalid input syntax for type
      date"), which makes the query, and with it the tool, fail;
    - [date_out] is the string the row mapping makes of a stored day,
      [row.date.toISOString().split('T')[0]], where [row.date] is the
      midnight of the day in the time zone of the server: the day itself
      where that is at or behind UTC, the day before where it is ahead. *)

Record DateHandling : Type := {
  date_in : string -> option Z;
  date_out : Z -> string
}.

Record MetricsRow : Type := {
  row_campaign_id : string;
  row_date : Z;
  row_impressions : Z;
  row_clicks : Z;
  row_spend : Z;
  row_sales : Z;
  row_orders : Z;
  row_units_sold : Z;
  row_kenp_royalties : option Z;
  row_kenp_pages_read : option Z
}.

(** [parseFloat] of the text of a DECIMAL(10, 2) holding [cents] cents: the
    binary64 value nearest to [cents / 100] (for less than 2^53 cents). *)
Definition decimal2 (cents : Z) : F64.f64 := F64.of_frac cents 100.

(** The mapping of a row in [getCampaignMetrics] and [getAllMetrics]; a
    stored royalty is a non-empty text, so it is kept whenever it is not
    NULL. *)
Definition of_row (env : DateHandling) (row : MetricsRow) : F64.CampaignMetrics :=
  {| F64.campaignId := row_campaign_id row;
     F64.date := date_out env (row_date row);
     F64.impressions := F64.of_Z (row_impressions row);
     F64.clicks := F64.of_Z (row_clicks row);
     F64.spend := decimal2 (row_spend row);
     F64.sales := decimal2 (row_sales row);
     F64.orders := F64.of_Z (row_orders row);
     F64.unitsSold := F64.of_Z (row_units_sold row);
     F64.kenpRoyalties := decimal2 <$> row_kenp_royalties row;
     F64.kenpPagesRead := F64.of_Z <$> row_kenp_pages_read row |}.

(** [ORDER BY date] *)
Definition row_le (a b : MetricsRow) : Prop := row_date a <= row_date b.

#[global] Instance row_le_dec : RelDecision row_le.
Proof. intros a b. unfold row_le. apply _. Defined.

(** [date >= $start AND date <= $end], on days. *)
Definition in_range (a b : Z) (row : MetricsRow) : Prop :=
  a <= row_date row /\ row_date row <= b.

#[global] Instance in_range_dec (a b : Z) (row : MetricsRow) :
  Decision (in_range a b row).
Proof. unfold in_range. apply _. Defined.

(** [SELECT * FROM campaign_metrics WHERE campaign_id = $1 AND date >= $2
    AND date <= $3 ORDER BY date]; [None] when the query fails. *)
Definition getCampaignMetrics (env : DateHandling) (cid startDate endDate : string)
    (rows : list MetricsRow) : option (list F64.CampaignMetrics) :=
  match date_in env startDate, date_in env endDate with
  | Some a, Some b =>
      Some (of_row env <$>
            sorting.merge_sort row_le
              (filter (fun row => row_campaign_id row = cid /\ in_range a b row)
                 rows))
  | _, _ => None
  end.

(** [SELECT * FROM campaign_metrics WHERE date >= $1 AND date <= $2
    ORDER BY date] *)
Definition getAllMetrics (env : DateHandling) (startDate endDate : string)
    (rows : list MetricsRow) : option (list F64.CampaignMetrics) :=
  match date_in env startDate, date_in env endDate with
  | Some a, Some b =>
      Some (of_row env <$> sorting.merge_sort row_le (filter (in_range a b) rows))
  | _, _ => None
  end.

Record AggregatedMetrics : Type := {
  sum_impressions : F64.f64;
  sum_clicks : F64.f64;
  sum_spend : F64.f64;
  sum_sales : F64.f64;
  sum_orders : F64.f64;
  sum_unitsSold : F64.f64
}.

(** The optional [AND campaign_id = $3] of [getAggregatedMetrics]: added
    [if (campaignId)], that is for an id that is neither null nor the empty
    string. *)
Definition of_campaign (cid : option string) (row : MetricsRow) : Prop :=
  match cid with
  | Some c => if String.eqb c "" then True else row_campaign_id row = c
  | None => True
  end.

#[global] Instance of_campaign_dec (cid : option string) (row : MetricsRow) :
  Decision (of_campaign cid row).
Proof.
  unfold of_campaign. destruct cid as [c |]; [| apply _].
  destruct (String.eqb c ""); apply _.
Defined.

(** [SUM] of a column, which the database takes exactly. *)
Definition column_sum (f : MetricsRow -> Z) (rows : list MetricsRow) : Z :=
  foldr (fun row acc => f row + acc) 0 rows.

(** The sums of [getAggregatedMetrics] over the rows [selected]:
    [COALESCE(SUM(..), 0)], read back with [parseInt] and [parseFloat]. *)
Definition aggregate_of (selected : list MetricsRow) : AggregatedMetrics :=
  {| sum_impressions := F64.of_Z (column_sum row_impressions selected);
     sum_clicks := F64.of_Z (column_sum row_clicks selected);
     sum_spend := decimal2 (column_sum row_spend selected);
     sum_sales := decimal2 (column_sum row_sales selected);
     sum_orders := F64.of_Z (column_sum row_orders selected);
     sum_unitsSold := F64.of_Z (column_sum row_units_sold selected) |}.

(** [SELECT COALESCE(SUM(impressions), 0), ... FROM campaign_metrics WHERE
    date >= $1 AND date <= $2 [AND campaign_id = $3]] *)
Definition getAggregatedMetrics (env : DateHandling) (cid : option string)
    (startDate endDate : string) (rows : list MetricsRow)
    : option AggregatedMetrics :=
  match date_in env startDate, date_in env endDate with
  | Some a, Some b =>
      Some (aggregate_of
              (filter (fun row => in_range a b row /\ of_campaign cid row) rows))
  | _, _ => None
  end.

(** [SELECT MIN(date), MAX(date) FROM campaign_metrics]; null for the empty
    table, otherwise both days through the same formatting as the rows. *)
Definition getDateRange (env : DateHandling) (rows : list MetricsRow)
    : option (string * string) :=
  match rows with
  | [] => None
  | row :: rest =>
      Some (date_out env (foldl Z.min (row_date row) (row_date <$> rest)),
            date_out env (foldl Z.max (row_date row) (row_date <$> rest)))
  end.

(** The query the read tools make: [getAllMetrics] for 'all',
    [getCampaignMetrics] otherwise. *)
Definition tool_metrics (env : DateHandling) (rows : list MetricsRow)
    (campaign_id start_date end_date : string) : option (list F64.CampaignMetrics) :=
  if String.eqb campaign_id "all" then getAllMetrics env start_date end_date rows
  else getCampaignMetrics env campaign_id start_date end_date rows.

(** The name on the report: that of the stored campaign, 'All Campaigns'
    for 'all' and for a campaign that is not stored. *)
Definition report_name (campaigns : gmap string Campaign) (campaign_id : string)
    : string :=
  if String.eqb campaign_id "all" then "All Campaigns"
  else match campaigns !! campaign_id with
       | Some campaign => c_name campaign
       | None => "All Campaigns"
       end.

(** The tool [analyze_roi].  The error result is the one the [catch] around
    the tools makes of a failed query; the summary stands for the text
    [generateROISummary] makes of the report. *)
Inductive RoiToolResult : Type :=
| RoiQueryFailed
| NoMetricsFound
| RoiSummary (roi : F64.ROIMetrics).

Definition analyze_roi (env : DateHandling) (config : F64.AnalysisConfig)
    (campaigns : gmap string Campaign) (rows : list MetricsRow)
    (campaign_id start_date end_date : string) : RoiToolResult :=
  let campaignName := report_name campaigns campaign_id in
  match tool_metrics env rows campaign_id start_date end_date with
  | None => RoiQueryFailed
  | Some metrics =>
      if bool_decide (length metrics = 0%nat) then NoMetricsFound
      else RoiSummary (F64.calculateROI campaign_id campaignName metrics config)
  end.

(** The tool [compare_periods]: the query of the current period is made
    first. *)
Inductive CompareToolResult : Type :=
| CompareQueryFailed
| NoMetricsEitherPeriod
| ComparisonSummary (comparison : F64.PeriodComparison).

Definition compare_periods (env : DateHandling) (config : F64.AnalysisConfig)
    (campaigns : gmap string Campaign) (rows : list MetricsRow)
    (campaign_id current_start current_end previous_start previous_end : string)
    : CompareToolResult :=
  let campaignName := report_name campaigns campaign_id in
  match tool_metrics env rows campaign_id current_start current_end with
  | None => CompareQueryFailed
  | Some currentMetrics =>
      match tool_metrics env rows campaign_id previous_start previous_end with
      | None => CompareQueryFailed
      | Some previousMetrics =>
          if bool_decide (length currentMetrics = 0%nat) &&
             bool_decide (length previousMetrics = 0%nat)
          then NoMetricsEitherPeriod
          else
            ComparisonSummary
              (F64.comparePeriods
                 (F64.calculateROI campaign_id campaignName currentMetrics config)
                 (F64.calculateROI campaign_id campaignName previousMetrics config))
      end
  end.

(** The tool [get_campaign_metrics]: the number of days found and the sums
    of the aggregate query. *)
Inductive MetricsToolResult : Type :=
| MetricsQueryFailed
| NoCampaignMetrics
| MetricsSummary (days : nat) (sums : AggregatedMetrics).

Definition get_campaign_metrics (env : DateHandling) (rows : list MetricsRow)
    (campaign_id start_date end_date : string) : MetricsToolResult :=
  match getCampaignMetrics env campaign_id start_date end_date rows with
  | None => MetricsQueryFailed
  | Some metrics =>
      if bool_decide (length metrics = 0%nat) then NoCampaignMetrics
      else
        match getAggregatedMetrics env (Some campaign_id) start_date end_date rows with
        | None => MetricsQueryFailed
        | Some agg => MetricsSummary (length metrics) agg
        end
  end.

(** The tool [get_daily_breakdown]. *)
Inductive BreakdownResult : Type :=
| BreakdownQueryFailed
| NoDataFound
| DailyBreakdown (trends : list F64.DailyTrend).

Definition get_daily_breakdown (env : DateHandling) (rows : list MetricsRow)
    (campaign_id start_date end_date : string) : BreakdownResult :=
  match tool_metrics env rows campaign_id start_date end_date with
  | None => BreakdownQueryFailed
  | Some metrics =>
      if bool_decide (length metrics = 0%nat) then NoDataFound
      else DailyBreakdown (F64.calculateDailyTrends metrics)
  end.

(** The resource [kdp://metrics/summary].  Its handler has no [catch]: a
    failed query makes the request fail. *)
Record SummaryResource : Type := {
  res_dateRange : string * string;
  res_totals : AggregatedMetrics;
  res_acos : F64.f64;
  res_roas : F64.f64
}.

Inductive ResourceResult : Type :=
| ResourceFailed
| NoDataAvailable
| MetricsResource (summary : SummaryResource).

Definition metrics_summary (env : DateHandling) (rows : list MetricsRow)
    : ResourceResult :=
  match getDateRange env rows with
  | None => NoDataAvailable
  | Some (minDate, maxDate) =>
      match getAggregatedMetrics env None minDate maxDate rows with
      | None => ResourceFailed
      | Some agg =>
          MetricsResource
            {| res_dateRange := (minDate, maxDate);
               res_totals := agg;
               res_acos :=
                 if F64.fgt (sum_sales agg) (F64.of_Z 0)
                 then F64.fmul (F64.fdiv (sum_spend agg) (sum_sales agg))
                        (F64.of_Z 100)
                 else F64.of_Z 0;
               res_roas :=
                 if F64.fgt (sum_spend agg) (F64.of_Z 0)
                 then F64.fdiv (sum_sales agg) (sum_spend agg)
                 else F64.of_Z 0 |}
      end
  end.

(** The rows a read tool is about, once the bounds are read as the days
    [a] and [b]: those of the days from [a] to [b], of every campaign for
    'all' and of the named campaign otherwise. *)
Definition selected (campaign_id : string) (a b : Z) (row : MetricsRow) : Prop :=
  in_range a b row /\ (campaign_id = "all" \/ row_campaign_id row = campaign_id).

#[global] Instance selected_dec (campaign_id : string) (a b : Z) (row : MetricsRow) :
  Decision (selected campaign_id a b row).
Proof. unfold selected. apply _. Defined.

(** ** Two servers

    Sample date handling for the examples: year-month-day texts read with
    the proleptic Gregorian calendar (a part of what PostgreSQL accepts),
    days counted from 1970-01-01, for a server in UTC and for one east of
    it. *)

Definition days_from_civil (y m d : Z) : Z :=
  let y := if m <=? 2 then y - 1 else y in
  let era := y / 400 in
  let yoe := y mod 400 in
  let doy := (153 * (if 2 <? m then m - 3 else m + 9) + 2) / 5 + d - 1 in
  let doe := yoe * 365 + yoe / 4 - yoe / 100 + doy in
  era * 146097 + doe - 719468.

Definition civil_from_days (z : Z) : Z * Z * Z :=
  let z := z + 719468 in
  let era := z / 146097 in
  let doe := z mod 146097 in
  let yoe := (doe - doe / 1460 + doe / 36524 - doe / 146096) / 365 in
  let y := yoe + era * 400 in
  let doy := doe - (365 * yoe + yoe / 4 - yoe / 100) in
  let mp := (5 * doy + 2) / 153 in
  let d := doy - (153 * mp + 2) / 5 + 1 in
  let m := if mp <? 10 then mp + 3 else mp - 9 in
  (if m <=? 2 then y + 1 else y, m, d).

Definition digit (n : Z) : Ascii.ascii :=
  Ascii.ascii_of_nat (48 + Z.to_nat (n mod 10)).

Definition iso_day (z : Z) : string :=
  let '(y, m, d) := civil_from_days z in
  String.string_of_list_ascii
    [digit (y / 1000); digit (y / 100); digit (y / 10); digit y; char_of "-";
     digit (m / 10); digit m; char_of "-"; digit (d / 10); digit d].

Fixpoint number_of (acc : Z) (l : list Ascii.ascii) : option Z :=
  match l with
  | [] => Some acc
  | c :: l' =>
      if is_digit c
      then number_of (10 * acc + Z.of_nat (Ascii.nat_of_ascii c) - 48) l'
      else None
  end.

Fixpoint fields (cur : list Ascii.ascii) (l : list Ascii.ascii)
    : list (list Ascii.ascii) :=
  match l with
  | [] => [reverse cur]
  | c :: l' => if is_dash c then reverse cur :: fields [] l' else fields (c :: cur) l'
  end.

Definition read_day (s : string) : option Z :=
  match fields [] (String.list_ascii_of_string s) with
  | [ys; ms; ds] =>
      match ys, ms, ds with
      | _ :: _, _ :: _, _ :: _ =>
          match number_of 0 ys, number_of 0 ms, number_of 0 ds with
          | Some y, Some m, Some d =>
              let z := days_from_civil y m d in
              if bool_decide (civil_from_days z = (y, m, d)) then Some z else None
          | _, _, _ => None
          end
      | _, _, _ => None
      end
  | _ => None
  end.

Definition utc_server : DateHandling :=
  {| date_in := read_day; date_out := iso_day |}.

Definition eastern_server : DateHandling :=
  {| date_in := read_day; date_out := fun z => iso_day (z - 1) |}.

Definition stored (cid : string) (y m d : Z) (imp clk sp sa ord : Z) : MetricsRow :=
  {| row_campaign_id := cid; row_date := days_from_civil y m d;
     row_impressions := imp; row_clicks := clk; row_spend := sp; row_sales := sa;
     row_orders := ord; row_units_sold := ord;
     row_kenp_royalties := None; row_kenp_pages_read := None |}.

Definition metrics_table : list MetricsRow :=
  [stored "A1" 2025 12 11 2400 25 1925 6396 4;
   stored "B2" 2025 12 10 900 9 450 0 0;
   stored "A1" 2025 12 10 2100 20 1570 3198 2].

(** * Properties *)

(** ** Arithmetic on [num] *)

Lemma nadd_comm (x y : num) : (x + y)%num = (y + x)%num.
Proof.
  destruct x, y; simpl; try reflexivity.
  f_equal. ring.
Qed.


Lemma nadd_0_l (x : num) : (of_Z 0 + x)%num = x.
Proof.
  destruct x; try reflexivity.
  change (Fin (0 + q)%Qc = Fin q). f_equal. ring.
Qed.

Lemma nadd_0_r (x : num) : (x + of_Z 0)%num = x.
Proof. rewrite nadd_comm. apply nadd_0_l. Qed.

Lemma ngt_0 (q : Qc) : (Fin q >? of_Z 0)%num = bool_decide (0 < q)%Qc.
Proof. reflexivity. Qed.

Lemma nonneg_Fin (x : num) :
  nonneg x = true -> exists q, x = Fin q /\ (0 <= q)%Qc.
Proof.
  destruct x; try discriminate. simpl. intros H.
  apply bool_decide_eq_true in H. eauto.
Qed.

Lemma is_finite_Fin (x : num) : is_finite x = true -> exists q, x = Fin q.
Proof. destruct x; try discriminate. eauto. Qed.




(** Two finite numbers are different as soon as their reduced fractions
    are. *)
Ltac num_discriminate H :=
  apply (f_equal (fun x => this (val x))) in H; vm_compute in H; discriminate H.

Ltac num_eq := vm_compute; f_equal; apply Qc_is_canon; reflexivity.

(** The totals of the documented fortnight (32,830 impressions, 331
    clicks, $259.40 spent, $767.52 sold, 48 orders) at $2.80 per sale. *)
Example calculateROI_documented_totals :
  let r := calculateROI "all" "All Campaigns"
             [day "2025-12-23" 32830 331 (of_frac 25940 100) (of_frac 76752 100) 48]
             default_config in
  estimatedRoyalties r = of_frac 13440 100 /\
  estimatedProfit r = of_Z (-125) /\
  acos r = of_frac 2594000 76752 /\
  roas r = of_frac 76752 25940 /\
  ctr r = of_frac 33100 32830 /\
  cpc r = of_frac 25940 33100 /\
  conversionRate r = of_frac 4800 331 /\
  breakEvenAcos r = of_frac 1344000 76752.
Proof. cbv zeta. repeat split; num_eq. Qed.

(** ** Order of the input and the period of the report *)

Lemma leb_refl (s : string) : String.leb s s = true.
Proof. destruct (String.leb_total s s); assumption. Qed.

Lemma last_elem_of {A : Type} (x d : A) (l : list A) :
  List.last (x :: l) d ∈ x :: l.
Proof.
  revert x. induction l as [| y l IH]; intros x.
  - apply list_elem_of_here.
  - change (List.last (x :: y :: l) d) with (List.last (y :: l) d).
    apply list_elem_of_further, IH.
Qed.

(** C5, as stated, fails: given the same two days latest first, the report
    starts on 2025-12-11 and ends on 2025-12-10, which are not the earliest
    and the latest date of the input, and it differs from the report of the
    two days given earliest first. *)
Lemma period_follows_input_order :
  [dec10; dec11] ≡ₚ [dec11; dec10] /\
  period (calculateROI "A1" "Book" [dec11; dec10] default_config) =
    {| startDate := "2025-12-11"; endDate := "2025-12-10" |} /\
  ~ covers (period (calculateROI "A1" "Book" [dec11; dec10] default_config))
      [dec11; dec10] /\
  calculateROI "A1" "Book" [dec11; dec10] default_config <>
  calculateROI "A1" "Book" [dec10; dec11] default_config.
Proof.
  split; [apply perm_swap | split; [reflexivity | split]].
  - intros (_ & _ & H).
    destruct (H dec10) as [H1 _].
    + apply list_elem_of_further, list_elem_of_here.
    + vm_compute in H1. discriminate H1.
  - intros H. apply (f_equal (fun r => startDate (period r))) in H.
    cbn in H. discriminate H.
Qed.

(** ** The period comparator *)

Lemma percentageChange_finite (c p : Qc) :
  percentageChange (Fin c) (Fin p) = Fin (change_rule c p).
Proof.
  unfold percentageChange, change_rule. simpl nis0.
  case_bool_decide as Hp.
  - rewrite ngt_0. now case_bool_decide.
  - simpl. now rewrite bool_decide_eq_false_2.
Qed.

Lemma change_rule_same (x : Qc) : change_rule x x = 0%Qc.
Proof.
  unfold change_rule. case_bool_decide as Hx.
  - subst x. rewrite bool_decide_eq_false_2; [reflexivity |].
    intros H. eapply Qclt_not_eq; [exact H | reflexivity].
  - field. exact Hx.
Qed.

Lemma percentageChange_same (x : num) :
  is_finite x = true -> percentageChange x x = of_Z 0.
Proof.
  intros [q ->]%is_finite_Fin.
  now rewrite percentageChange_finite, change_rule_same.
Qed.




(** ** The report of no record *)

(** C10, as stated, fails: under the default royalty of 2.80 per sale the
    break-even ACOS of the report of no record is 30. *)
Lemma calculateROI_empty_breakEven_30 :
  wf_config default_config = true /\
  breakEvenAcos (calculateROI "A1" "Book" [] default_config) = of_Z 30 /\
  ~ all_zero_but (of_Z 0) (calculateROI "A1" "Book" [] default_config).
Proof.
  split; [reflexivity | split; [reflexivity |]].
  intros (_ & _ & _ & _ & _ & _ & _ & _ & _ & _ & _ & _ & H).
  num_discriminate H.
Qed.

(** C10 (amended).  The report of the empty list has the pair of empty
    strings as its period, and its totals, its estimated royalties and
    profit and its derived ratios are 0, except the break-even ACOS, which
    is 30 when the royalty per sale is positive (and 0 otherwise). *)
Theorem calculateROI_empty (cid cname : string) (cfg : AnalysisConfig) :
  wf_config cfg = true ->
  let r := calculateROI cid cname [] cfg in
  period r = {| startDate := ""; endDate := "" |} /\
  estimatedRoyalties r = of_Z 0 /\
  estimatedProfit r = of_Z 0 /\
  all_zero_but (if (royaltyPerSale cfg >? of_Z 0)%num then of_Z 30 else of_Z 0) r.
Proof.
  unfold wf_config. intros [q Hq]%is_finite_Fin.
  assert (Hroy : (of_Z 0 * royaltyPerSale cfg + of_Z 0)%num = of_Z 0).
  { rewrite Hq, nadd_0_r. change (Fin (0 * q)%Qc = Fin 0%Qc). f_equal. ring. }
  assert (Hsub : (of_Z 0 - of_Z 0)%num = of_Z 0).
  { change (Fin (0 + - 0)%Qc = Fin 0%Qc). f_equal; try ring. }
  assert (Hgt : (of_Z 0 >? of_Z 0)%num = false) by (vm_compute; reflexivity).
  unfold all_zero_but, calculateROI. cbv zeta.
  change (aggregateMetrics []) with aggregate_zero.
  cbn [period estimatedRoyalties estimatedProfit totalSpend totalSales
       totalOrders totalUnitsSold totalImpressions totalClicks acos roas ctr
       cpc conversionRate profitMargin breakEvenAcos dateRange
       agg_unitsSold agg_kenpRoyalties agg_spend agg_sales agg_clicks
       agg_impressions agg_orders aggregate_zero].
  rewrite !Hroy, !Hsub, !Hgt.
  repeat split; reflexivity.
Qed.

Lemma calculateROI_empty_witness :
  wf_config default_config = true /\
  period (calculateROI "A1" "Book" [] default_config) =
    {| startDate := ""; endDate := "" |} /\
  breakEvenAcos (calculateROI "A1" "Book" [] default_config) = of_Z 30.
Proof.
  split; [reflexivity |].
  destruct (calculateROI_empty "A1" "Book" default_config eq_refl)
    as (Hp & _ & _ & Hz).
  split; [exact Hp |].
  apply Hz.
Defined.

(** ** The registry: what each handler does when it runs alone *)

Section Handlers.

Variable adsClient : option AdsClient.

Lemma run_approve_missing (w : World) (i : Z) :
  pending_changes w !! i = None ->
  run (approve_change adsClient i) w = (ChangeNotFound i, w).
Proof.
  intros H. unfold approve_change. cbn. unfold getPendingChangeById.
  now rewrite H.
Qed.

Lemma run_approve_resolved (w : World) (i : Z) (c : PendingChange) :
  pending_changes w !! i = Some c -> status c <> pending ->
  run (approve_change adsClient i) w = (AlreadyResolved i (status c), w).
Proof.
  intros H Hs. unfold approve_change. cbn. unfold getPendingChangeById.
  rewrite H. cbn. now rewrite bool_decide_eq_true_2.
Qed.

Lemma run_reject_missing (w : World) (i : Z) :
  pending_changes w !! i = None ->
  run (reject_change i) w = (ChangeNotFound i, w).
Proof.
  intros H. unfold reject_change. cbn. unfold getPendingChangeById.
  now rewrite H.
Qed.

Lemma run_reject_resolved (w : World) (i : Z) (c : PendingChange) :
  pending_changes w !! i = Some c -> status c <> pending ->
  run (reject_change i) w = (AlreadyResolved i (status c), w).
Proof.
  intros H Hs. unfold reject_change. cbn. unfold getPendingChangeById.
  rewrite H. cbn. now rewrite bool_decide_eq_true_2.
Qed.

Lemma run_reject_pending (w : World) (i : Z) (c : PendingChange) :
  pending_changes w !! i = Some c -> status c = pending ->
  run (reject_change i) w =
  (RejectedOk i, updatePendingChangeStatus i rejected None w).
Proof.
  intros H Hs. unfold reject_change. cbn. unfold getPendingChangeById.
  rewrite H. cbn. rewrite bool_decide_eq_false_2; [reflexivity | tauto].
Qed.

End Handlers.

Lemma run_approve_unconfigured (w : World) (i : Z) (c : PendingChange) :
  pending_changes w !! i = Some c -> status c = pending ->
  run (approve_change None i) w =
  (ApprovedNotExecuted i (target_label c) (proposedValue c),
   updatePendingChangeStatus i approved None w).
Proof.
  intros H Hs. unfold approve_change. cbn. unfold getPendingChangeById.
  rewrite H. cbn. rewrite bool_decide_eq_false_2; [reflexivity | tauto].
Qed.

Lemma run_approve_configured (client : AdsClient) (w : World) (i : Z)
    (c : PendingChange) :
  pending_changes w !! i = Some c -> status c = pending ->
  run (approve_change (Some client) i) w =
  let w1 := set_ads_calls (ads_calls w ++ [dispatch c]) w in
  match client (ads_calls w) (dispatch c) with
  | AdsOk =>
      (ExecutedOk i (target_label c) (proposedValue c),
       recordChangeHistory (Some i) (targetType c) (targetId c) (changeType c)
         (Some (currentValue c)) (proposedValue c) true None
         (updatePendingChangeStatus i executed None w1))
  | AdsThrow e =>
      (ExecutionFailed i (errorText e),
       recordChangeHistory (Some i) (targetType c) (targetId c) (changeType c)
         (Some (currentValue c)) (proposedValue c) false
         (Some [("error", JString (errorText e))])
         (updatePendingChangeStatus i failed (Some (errorText e)) w1))
  end.
Proof.
  intros H Hs. unfold approve_change. cbn. unfold getPendingChangeById.
  rewrite H. cbn. rewrite bool_decide_eq_false_2 by tauto.
  cbn. now destruct (client (ads_calls w) (dispatch c)).
Qed.

Lemma createPendingChange_table (c : NewChange) (w : World) :
  table_step (pending_changes w) (pending_changes (snd (createPendingChange c w))).
Proof.
  unfold createPendingChange.
  destruct (pending_changes w !! pending_changes_seq w) eqn:E; cbn.
  - constructor.
  - now apply table_create.
Qed.

Lemma run_created (r : option Z) (ct : ChangeType) (cur prp : JsObject) (w : World) :
  snd (run (created r ct cur prp) w) = w.
Proof. now destruct r. Qed.

Ltac propose_step w :=
  cbn;
  match goal with
  | |- context [keywords w !! ?k] => destruct (keywords w !! k)
  | |- context [campaigns w !! ?k] => destruct (campaigns w !! k)
  end; cbn; [| constructor];
  match goal with
  | |- context [createPendingChange ?nc w] =>
      pose proof (createPendingChange_table nc w);
      destruct (createPendingChange nc w) as [? ?]
  end;
  now rewrite run_created.

(** Whatever the call, the table of proposals makes one [table_step]. *)
Lemma handler_table_step (adsClient : option AdsClient) (c : ToolCall) (w : World) :
  table_step (pending_changes w)
    (pending_changes (snd (run (handler adsClient c) w))).
Proof.
  destruct c as [k b r | k s r | k b r | k t m r | i | i]; cbn [handler].
  - unfold propose_bid_change. propose_step w.
  - unfold propose_keyword_state_change. propose_step w.
  - unfold propose_budget_change. propose_step w.
  - unfold propose_negative_keyword. propose_step w.
  - destruct (pending_changes w !! i) as [p |] eqn:E.
    + destruct (decide (status p = pending)) as [Hs | Hs].
      * destruct adsClient as [client |].
        -- rewrite (run_approve_configured client w i p E Hs). cbv zeta.
           destruct (client (ads_calls w) (dispatch p)); cbn;
             now apply table_resolve with (p := p).
        -- rewrite (run_approve_unconfigured w i p E Hs). cbn.
           now apply table_resolve with (p := p).
      * rewrite (run_approve_resolved adsClient w i p E Hs). constructor.
    + rewrite (run_approve_missing adsClient w i E). constructor.
  - destruct (pending_changes w !! i) as [p |] eqn:E.
    + destruct (decide (status p = pending)) as [Hs | Hs].
      * rewrite (run_reject_pending w i p E Hs). cbn.
        now apply table_resolve with (p := p).
      * rewrite (run_reject_resolved w i p E Hs). constructor.
    + rewrite (run_reject_missing w i E). constructor.
Qed.

Lemma event_table_step (adsClient : option AdsClient) (ev : Event) (w : World) :
  table_step (pending_changes w) (pending_changes (apply_event adsClient ev w)).
Proof.
  destruct ev as [c | t]; [apply handler_table_step | constructor].
Qed.

(** Across one [table_step] a stored proposal stays in the table with its
    payload, and either keeps its status or leaves 'pending'. *)
Lemma table_step_row (t t' : gmap Z PendingChange) (i : Z) (p : PendingChange) :
  table_step t t' -> t !! i = Some p ->
  exists p', t' !! i = Some p' /\
    (status p' = status p \/ resolution (status p) (status p') = true) /\
    id p' = id p /\ changeType p' = changeType p /\
    targetType p' = targetType p /\ targetId p' = targetId p /\
    currentValue p' = currentValue p /\ proposedValue p' = proposedValue p /\
    createdAt p' = createdAt p.
Proof.
  intros [| j q time s e Hj Hq Hs | j row Hj Hrow] Hi.
  - exists p. tauto.
  - destruct (decide (j = i)) as [-> | Hne].
    + rewrite lookup_alter_eq, Hi. cbn. eexists; split; [reflexivity |].
      rewrite Hi in Hj. injection Hj as <-.
      cbn. rewrite Hq. repeat split; try reflexivity.
      right. now destruct s.
    + rewrite lookup_alter_ne by assumption. exists p. tauto.
  - destruct (decide (j = i)) as [-> | Hne]; [congruence |].
    rewrite lookup_insert_ne by assumption. exists p. tauto.
Qed.

(** Across one [table_step] a proposal that appears is pending. *)
Lemma table_step_new (t t' : gmap Z PendingChange) (i : Z) (p : PendingChange) :
  table_step t t' -> t !! i = None -> t' !! i = Some p -> status p = pending.
Proof.
  intros [| j q time s e Hj Hq Hs | j row Hj Hrow] Hi Hp.
  - congruence.
  - destruct (decide (j = i)) as [-> | Hne]; [congruence |].
    rewrite lookup_alter_ne in Hp by assumption. congruence.
  - destruct (decide (j = i)) as [-> | Hne].
    + rewrite lookup_insert_eq in Hp. congruence.
    + rewrite lookup_insert_ne in Hp by assumption. congruence.
Qed.

Lemma resolution_from_pending (s s' : Status) :
  resolution s s' = true -> s = pending /\ s' <> pending.
Proof. destruct s, s'; simpl; intros H; try discriminate; split; congruence. Qed.

Lemma run_events_absorbing (adsClient : option AdsClient) (evs : list Event)
    (w : World) (i : Z) (p : PendingChange) :
  pending_changes w !! i = Some p -> status p <> pending ->
  exists p', pending_changes (run_events adsClient evs w) !! i = Some p' /\
    status p' = status p.
Proof.
  revert w p. induction evs as [| ev evs IH]; intros w p Hp Hs; cbn.
  - eauto.
  - destruct (table_step_row _ _ i p (event_table_step adsClient ev w) Hp)
      as (p1 & H1 & [Hsame | Hres] & _).
    + destruct (IH _ p1 H1) as (p' & Hp' & E); [congruence |].
      exists p'. split; [exact Hp' | congruence].
    + apply resolution_from_pending in Hres as [Hres _]. contradiction.
Qed.

Lemma createPendingChange_keeps (c : NewChange) (w : World) (i : Z)
    (p : PendingChange) :
  pending_changes w !! i = Some p ->
  pending_changes (snd (createPendingChange c w)) !! i = Some p.
Proof.
  intros Hp. unfold createPendingChange.
  destruct (pending_changes w !! pending_changes_seq w) eqn:E; cbn.
  - exact Hp.
  - rewrite lookup_insert_ne; [exact Hp | congruence].
Qed.

Ltac propose_case w :=
  let Hkeep := fresh "Hkeep" in
  cbn;
  match goal with
  | |- context [keywords w !! ?k] => destruct (keywords w !! k)
  | |- context [campaigns w !! ?k] => destruct (campaigns w !! k)
  end; cbn; [| assumption];
  match goal with
  | |- context [createPendingChange ?nc w] =>
      pose proof (createPendingChange_keeps nc w) as Hkeep;
      destruct (createPendingChange nc w) as [? ?]
  end;
  rewrite run_created; now apply Hkeep.

(** A proposal tool leaves every stored proposal as it is. *)
Lemma propose_keeps (adsClient : option AdsClient) (c : ToolCall) (w : World)
    (i : Z) (p : PendingChange) :
  (forall j, c <> call_approve_change j /\ c <> call_reject_change j) ->
  pending_changes w !! i = Some p ->
  pending_changes (snd (run (handler adsClient c) w)) !! i = Some p.
Proof.
  intros Hc Hp.
  destruct c as [k b r | k s r | k b r | k t m r | j | j]; cbn [handler].
  - unfold propose_bid_change. propose_case w.
  - unfold propose_keyword_state_change. propose_case w.
  - unfold propose_budget_change. propose_case w.
  - unfold propose_negative_keyword. propose_case w.
  - destruct (Hc j) as [H _]. congruence.
  - destruct (Hc j) as [_ H]. congruence.
Qed.

(** One event and one stored proposal: the status stays, or the proposal
    was pending and the event is its rejection or its approval, with the
    status these two lead to. *)
Lemma event_row_status (adsClient : option AdsClient) (ev : Event) (w : World)
    (i : Z) (p : PendingChange) :
  pending_changes w !! i = Some p ->
  exists p', pending_changes (apply_event adsClient ev w) !! i = Some p' /\
    (status p' = status p \/
     status p = pending /\
     (ev = Call (call_reject_change i) /\ status p' = rejected \/
      ev = Call (call_approve_change i) /\
      status p' = approval_status adsClient w p)).
Proof.
  intros Hp.
  destruct ev as [c | t]; [| exists p; cbn; tauto].
  cbn [apply_event].
  destruct c as [k b r | k s r | k b r | k t m r | j | j];
    try (exists p; split; [| now left];
         apply propose_keeps; [intros j; split; discriminate | exact Hp]).
  - destruct (decide (j = i)) as [-> | Hne]; cbn [handler].
    + destruct (decide (status p = pending)) as [Hs | Hs].
      * destruct adsClient as [client |].
        -- rewrite (run_approve_configured client w i p Hp Hs). cbv zeta.
           unfold approval_status.
           destruct (client (ads_calls w) (dispatch p)); cbn;
             rewrite lookup_alter_eq, Hp; cbn;
             eexists; (split; [reflexivity |]); right; cbn; tauto.
        -- rewrite (run_approve_unconfigured w i p Hp Hs). cbn.
           rewrite lookup_alter_eq, Hp. cbn.
           eexists; (split; [reflexivity |]); right; cbn; tauto.
      * rewrite (run_approve_resolved adsClient w i p Hp Hs). exists p. tauto.
    + exists p. split; [| now left].
      destruct (pending_changes w !! j) as [q |] eqn:E.
      * destruct (decide (status q = pending)) as [Hs | Hs].
        -- destruct adsClient as [client |].
           ++ rewrite (run_approve_configured client w j q E Hs). cbv zeta.
              destruct (client (ads_calls w) (dispatch q)); cbn;
                now rewrite lookup_alter_ne.
           ++ rewrite (run_approve_unconfigured w j q E Hs). cbn.
              now rewrite lookup_alter_ne.
        -- now rewrite (run_approve_resolved adsClient w j q E Hs).
      * now rewrite (run_approve_missing adsClient w j E).
  - destruct (decide (j = i)) as [-> | Hne]; cbn [handler].
    + destruct (decide (status p = pending)) as [Hs | Hs].
      * rewrite (run_reject_pending w i p Hp Hs). cbn.
        rewrite lookup_alter_eq, Hp. cbn.
        eexists; (split; [reflexivity |]); right; cbn; tauto.
      * rewrite (run_reject_resolved w i p Hp Hs). exists p. tauto.
    + exists p. split; [| now left].
      destruct (pending_changes w !! j) as [q |] eqn:E.
      * destruct (decide (status q = pending)) as [Hs | Hs].
        -- rewrite (run_reject_pending w j q E Hs). cbn.
           now rewrite lookup_alter_ne.
        -- now rewrite (run_reject_resolved w j q E Hs).
      * now rewrite (run_reject_missing w j E).
Qed.

(** ** The guard of [approve_change] and [reject_change] *)

(** C1.  On a proposal that is not pending, [approve_change] and
    [reject_change] both return the conflict result, which is an error and
    carries the current status, and the store they leave is the store they
    found: status, timestamps and payloads of the proposal included. *)
Theorem resolved_proposal_conflict (adsClient : option AdsClient) (w : World)
    (i : Z) (c : PendingChange) :
  pending_changes w !! i = Some c ->
  status c <> pending ->
  run (approve_change adsClient i) w = (AlreadyResolved i (status c), w) /\
  run (reject_change i) w = (AlreadyResolved i (status c), w) /\
  isError (AlreadyResolved i (status c)) = true.
Proof.
  intros Hc Hs. split; [| split].
  - now apply run_approve_resolved.
  - now apply run_reject_resolved.
  - reflexivity.
Qed.

Lemma resolved_proposal_conflict_witness :
  pending_changes (shop_with (lower_bid executed)) !! 1 = Some (lower_bid executed) /\
  status (lower_bid executed) <> pending /\
  run (approve_change (Some backend_ok) 1) (shop_with (lower_bid executed)) =
    (AlreadyResolved 1 executed, shop_with (lower_bid executed)) /\
  run (reject_change 1) (shop_with (lower_bid executed)) =
    (AlreadyResolved 1 executed, shop_with (lower_bid executed)).
Proof.
  assert (H1 : pending_changes (shop_with (lower_bid executed)) !! 1 =
               Some (lower_bid executed)) by reflexivity.
  assert (H2 : status (lower_bid executed) <> pending) by discriminate.
  split; [exact H1 | split; [exact H2 |]].
  destruct (resolved_proposal_conflict (Some backend_ok)
              (shop_with (lower_bid executed)) 1 (lower_bid executed) H1 H2)
    as (Ha & Hr & _).
  split; [exact Ha | exact Hr].
Defined.

(** ** Approval without a backend *)

(** C7.  Approving a pending proposal when no backend is configured returns
    the record-only result, which is not an error; the proposal is stored
    as 'approved' with its review time and nothing else changed, no request
    is sent to the backend, nothing is appended to the change history, and
    every other proposal is left alone. *)
Theorem approve_without_backend (w : World) (i : Z) (c : PendingChange) :
  pending_changes w !! i = Some c ->
  status c = pending ->
  let r := fst (run (approve_change None i) w) in
  let w' := snd (run (approve_change None i) w) in
  r = ApprovedNotExecuted i (target_label c) (proposedValue c) /\
  isError r = false /\
  (exists c', pending_changes w' !! i = Some c' /\
     status c' = approved /\ reviewedAt c' = Some (now w) /\
     executedAt c' = executedAt c /\ errorMessage c' = errorMessage c /\
     currentValue c' = currentValue c /\ proposedValue c' = proposedValue c) /\
  (forall j, j <> i -> pending_changes w' !! j = pending_changes w !! j) /\
  ads_calls w' = ads_calls w /\
  change_history w' = change_history w /\
  keywords w' = keywords w /\
  campaigns w' = campaigns w.
Proof.
  intros Hc Hs. cbv zeta.
  rewrite (run_approve_unconfigured w i c Hc Hs). cbn.
  repeat split.
  - rewrite lookup_alter_eq, Hc. cbn. eexists. split; [reflexivity |].
    cbn. repeat split.
  - intros j Hj. now rewrite lookup_alter_ne.
Qed.

Lemma approve_without_backend_witness :
  pending_changes (shop_with (lower_bid pending)) !! 1 = Some (lower_bid pending) /\
  status (lower_bid pending) = pending /\
  isError (fst (run (approve_change None 1) (shop_with (lower_bid pending)))) = false /\
  ads_calls (snd (run (approve_change None 1) (shop_with (lower_bid pending)))) = [].
Proof.
  assert (H1 : pending_changes (shop_with (lower_bid pending)) !! 1 =
               Some (lower_bid pending)) by reflexivity.
  split; [exact H1 | split; [reflexivity |]].
  destruct (approve_without_backend (shop_with (lower_bid pending)) 1
              (lower_bid pending) H1 eq_refl)
    as (_ & He & _ & _ & Ha & _).
  split; [exact He | exact Ha].
Defined.

(** ** Execution failures *)

(** What [approve_change] does with a pending proposal when the backend
    throws: one request and no second attempt, the proposal 'failed' with
    both timestamps, one failed history entry carrying the error text, an
    error result.  The error text reaches the proposal's own error field
    unless it is the empty string. *)
Lemma approve_backend_failure (client : AdsClient) (w : World) (i : Z)
    (c : PendingChange) (e : Thrown) :
  pending_changes w !! i = Some c ->
  status c = pending ->
  client (ads_calls w) (dispatch c) = AdsThrow e ->
  let r := fst (run (approve_change (Some client) i) w) in
  let w' := snd (run (approve_change (Some client) i) w) in
  r = ExecutionFailed i (errorText e) /\
  isError r = true /\
  ads_calls w' = ads_calls w ++ [dispatch c] /\
  (exists c', pending_changes w' !! i = Some c' /\
     status c' = failed /\
     reviewedAt c' = Some (now w) /\ executedAt c' = Some (now w) /\
     errorMessage c' =
       (if String.eqb (errorText e) "" then errorMessage c
        else Some (errorText e)) /\
     currentValue c' = currentValue c /\ proposedValue c' = proposedValue c) /\
  change_history w' = change_history w ++
    [ {| h_pendingChangeId := Some i; h_targetType := targetType c;
         h_targetId := targetId c; h_changeType := changeType c;
         h_oldValue := Some (currentValue c); h_newValue := proposedValue c;
         h_executedAt := now w; h_success := false;
         h_apiResponse := Some [("error", JString (errorText e))] |} ].
Proof.
  intros Hc Hs He. cbv zeta.
  rewrite (run_approve_configured client w i c Hc Hs). cbv zeta.
  rewrite He. cbn.
  repeat split.
  rewrite lookup_alter_eq, Hc. cbn. eexists. split; [reflexivity |].
  cbn. repeat split.
Qed.

(** The one text that does not reach the error field is the empty string,
    which [updatePendingChangeStatus] takes for an absent message: were an
    [Error] with an empty message thrown, the proposal would become
    'failed' and the history entry carry the empty text, with the error
    field of the proposal left as it was.  No error of the client has an
    empty message ([clientErrorMessage_nonempty]). *)
Remark approve_empty_message_not_stored :
  let before := shop_with (lower_bid pending) in
  let after := snd (run (approve_change (Some (backend_throws "")) 1) before) in
  fst (run (approve_change (Some (backend_throws "")) 1) before) =
    ExecutionFailed 1 "" /\
  (errorMessage <$> pending_changes after !! 1) = Some None /\
  (status <$> pending_changes after !! 1) = Some failed /\
  (h_apiResponse <$> change_history after) = [Some [("error", JString "")]].
Proof.
  cbv zeta.
  destruct (approve_backend_failure (backend_throws "")
              (shop_with (lower_bid pending)) 1 (lower_bid pending) (JsError "")
              eq_refl eq_refl eq_refl)
    as (Hr & _ & _ & (c' & Hc' & Hst & _ & _ & Hmsg & _) & Hh).
  split; [exact Hr |].
  rewrite Hc', Hh. cbn. rewrite Hst, Hmsg. repeat split.
Qed.

Lemma clientErrorMessage_nonempty (r : AdsRequest) (e : ClientError) :
  clientErrorMessage r e <> "".
Proof. destruct e; [| | destruct r]; discriminate. Qed.

(** C8.  When the backend throws while a pending proposal is approved, the
    proposal becomes 'failed', exactly one failed history entry carrying
    the error text under the key [error] is appended, exactly one request
    has been sent (there is no second attempt), and the caller gets an
    error result with that text.  The error text is stored unchanged in
    the error field of the proposal whenever it is not the empty string,
    so for every error the client raises of its own: a failed token
    refresh, an error status of the API, a refused mutation. *)
Theorem approve_backend_failure_recorded (client : AdsClient) (w : World)
    (i : Z) (c : PendingChange) (e : Thrown) :
  pending_changes w !! i = Some c ->
  status c = pending ->
  client (ads_calls w) (dispatch c) = AdsThrow e ->
  let r := fst (run (approve_change (Some client) i) w) in
  let w' := snd (run (approve_change (Some client) i) w) in
  r = ExecutionFailed i (errorText e) /\
  isError r = true /\
  ads_calls w' = ads_calls w ++ [dispatch c] /\
  change_history w' = change_history w ++
    [ {| h_pendingChangeId := Some i; h_targetType := targetType c;
         h_targetId := targetId c; h_changeType := changeType c;
         h_oldValue := Some (currentValue c); h_newValue := proposedValue c;
         h_executedAt := now w; h_success := false;
         h_apiResponse := Some [("error", JString (errorText e))] |} ] /\
  (forall j, j <> i -> pending_changes w' !! j = pending_changes w !! j) /\
  exists c', pending_changes w' !! i = Some c' /\
    status c' = failed /\
    currentValue c' = currentValue c /\ proposedValue c' = proposedValue c /\
    (errorText e <> "" -> errorMessage c' = Some (errorText e)) /\
    (forall ce, e = JsError (clientErrorMessage (dispatch c) ce) ->
       errorMessage c' = Some (clientErrorMessage (dispatch c) ce)).
Proof.
  intros Hc Hs He. cbv zeta.
  destruct (approve_backend_failure client w i c e Hc Hs He)
    as (Hr & Herr & Hcalls & (c' & Hc' & Hst & _ & _ & Hmsg & Hcur & Hprop) & Hh).
  assert (Hstored : errorText e <> "" -> errorMessage c' = Some (errorText e)).
  { intros Hne. rewrite Hmsg.
    destruct (String.eqb_spec (errorText e) ""); congruence. }
  repeat split; try assumption.
  - intros j Hj.
    rewrite (run_approve_configured client w i c Hc Hs). cbv zeta.
    rewrite He. cbn. now rewrite lookup_alter_ne.
  - exists c'. repeat split; try assumption.
    intros ce ->. apply Hstored. apply clientErrorMessage_nonempty.
Qed.

Lemma approve_backend_failure_recorded_witness :
  pending_changes (shop_with (lower_bid pending)) !! 1 = Some (lower_bid pending) /\
  status (lower_bid pending) = pending /\
  (errorMessage <$>
     pending_changes
       (snd (run (approve_change (Some (backend_refuses "INVALID_ARGUMENT")) 1)
               (shop_with (lower_bid pending)))) !! 1) =
    Some (Some "Failed to update keyword bid: INVALID_ARGUMENT").
Proof.
  assert (H1 : pending_changes (shop_with (lower_bid pending)) !! 1 =
               Some (lower_bid pending)) by reflexivity.
  split; [exact H1 | split; [reflexivity |]].
  destruct (approve_backend_failure_recorded (backend_refuses "INVALID_ARGUMENT")
              (shop_with (lower_bid pending)) 1 (lower_bid pending)
              (JsError "Failed to update keyword bid: INVALID_ARGUMENT")
              H1 eq_refl eq_refl)
    as (_ & _ & _ & _ & _ & (c' & Hc' & _ & _ & _ & _ & Hm)).
  rewrite Hc'. cbn. now rewrite (Hm (MutationRefused "INVALID_ARGUMENT") eq_refl).
Defined.

(** ** The sequence stays ahead of the table *)

Lemma createPendingChange_consistent (c : NewChange) (w : World) :
  store_consistent w -> store_consistent (snd (createPendingChange c w)).
Proof.
  unfold store_consistent, createPendingChange. intros Hw i.
  destruct (pending_changes w !! pending_changes_seq w) eqn:E; cbn; intros Hi.
  - apply Hw. lia.
  - rewrite lookup_insert_ne by lia. apply Hw. lia.
Qed.

Lemma updatePendingChangeStatus_consistent (i : Z) (s : Status)
    (e : option string) (w : World) :
  store_consistent w -> store_consistent (updatePendingChangeStatus i s e w).
Proof.
  unfold store_consistent. cbn. intros Hw j Hj.
  apply lookup_alter_None. now apply Hw.
Qed.

Ltac propose_consistent w :=
  cbn;
  match goal with
  | |- context [keywords w !! ?k] => destruct (keywords w !! k)
  | |- context [campaigns w !! ?k] => destruct (campaigns w !! k)
  end; cbn; [| assumption];
  match goal with
  | |- context [createPendingChange ?nc w] =>
      pose proof (createPendingChange_consistent nc w);
      destruct (createPendingChange nc w) as [? ?]
  end;
  rewrite run_created; auto.

(** Every event keeps the store consistent, so the id the next proposal
    gets is never taken. *)
Lemma apply_event_consistent (adsClient : option AdsClient) (ev : Event)
    (w : World) :
  store_consistent w -> store_consistent (apply_event adsClient ev w).
Proof.
  intros Hw. destruct ev as [c | t]; [| exact Hw]. cbn [apply_event].
  destruct c as [k b r | k s r | k b r | k t m r | i | i]; cbn [handler].
  - unfold propose_bid_change. propose_consistent w.
  - unfold propose_keyword_state_change. propose_consistent w.
  - unfold propose_budget_change. propose_consistent w.
  - unfold propose_negative_keyword. propose_consistent w.
  - destruct (pending_changes w !! i) as [p |] eqn:E.
    + destruct (decide (status p = pending)) as [Hs | Hs].
      * destruct adsClient as [client |].
        -- rewrite (run_approve_configured client w i p E Hs). cbv zeta.
           destruct (client (ads_calls w) (dispatch p)); cbn;
             apply (updatePendingChangeStatus_consistent i _ _
                      (set_ads_calls (ads_calls w ++ [dispatch p]) w) Hw).
        -- rewrite (run_approve_unconfigured w i p E Hs).
           now apply updatePendingChangeStatus_consistent.
      * now rewrite (run_approve_resolved adsClient w i p E Hs).
    + now rewrite (run_approve_missing adsClient w i E).
  - destruct (pending_changes w !! i) as [p |] eqn:E.
    + destruct (decide (status p = pending)) as [Hs | Hs].
      * rewrite (run_reject_pending w i p E Hs).
        now apply updatePendingChangeStatus_consistent.
      * now rewrite (run_reject_resolved w i p E Hs).
    + now rewrite (run_reject_missing w i E).
Qed.

Lemma run_events_consistent (adsClient : option AdsClient) (evs : list Event)
    (w : World) :
  store_consistent w ->
  store_consistent (run_events adsClient evs w) /\
  pending_changes (run_events adsClient evs w)
    !! pending_changes_seq (run_events adsClient evs w) = None.
Proof.
  revert w. induction evs as [| ev evs IH]; intros w Hw; cbn.
  - split; [exact Hw | apply Hw; lia].
  - apply IH. now apply apply_event_consistent.
Qed.

(** ** Proposing, then rejecting *)

Lemma run_propose_bid_change (w : World) (kid : string) (kw : Keyword)
    (new_bid : num) (why : option string) :
  keywords w !! kid = Some kw ->
  pending_changes w !! pending_changes_seq w = None ->
  run (propose_bid_change kid new_bid why) w =
  (ProposalCreated (pending_changes_seq w) bid_adjustment
     [("bid", JNumber (kw_bid kw))] [("bid", JNumber new_bid)],
   set_pending_changes
     (<[pending_changes_seq w :=
          new_row (pending_changes_seq w) (now w)
            {| new_changeType := bid_adjustment;
               new_targetType := target_keyword;
               new_targetId := kid;
               new_targetName := Some (kw_keywordText kw);
               new_currentValue := [("bid", JNumber (kw_bid kw))];
               new_proposedValue := [("bid", JNumber new_bid)];
               new_reason := why |}]> (pending_changes w))
     (set_pending_changes_seq (pending_changes_seq w + 1) w)).
Proof.
  intros Hk Hfresh. unfold propose_bid_change. cbn. rewrite Hk. cbn.
  unfold createPendingChange. now rewrite Hfresh.
Qed.

(** C9.  Proposing a bid change for a stored keyword and then rejecting the
    proposal, at any later time: the proposal is created under the next id
    with the stored bid as its current value and the new bid as its
    proposed value, the rejection succeeds and leaves it 'rejected', and
    neither step touches the keyword table (so the stored bid is the one
    before), the campaigns, the change history or the backend. *)
Theorem propose_bid_then_reject (w : World) (kid : string) (kw : Keyword)
    (new_bid : num) (why : option string) (t : Z) :
  keywords w !! kid = Some kw ->
  pending_changes w !! pending_changes_seq w = None ->
  let i := pending_changes_seq w in
  let r1 := fst (run (propose_bid_change kid new_bid why) w) in
  let w1 := snd (run (propose_bid_change kid new_bid why) w) in
  let r2 := fst (run (reject_change i) (set_now t w1)) in
  let w2 := snd (run (reject_change i) (set_now t w1)) in
  r1 = ProposalCreated i bid_adjustment
         [("bid", JNumber (kw_bid kw))] [("bid", JNumber new_bid)] /\
  r2 = RejectedOk i /\
  keywords w1 = keywords w /\ keywords w2 = keywords w /\
  (kw_bid <$> keywords w2 !! kid) = Some (kw_bid kw) /\
  campaigns w2 = campaigns w /\
  ads_calls w1 = ads_calls w /\ ads_calls w2 = ads_calls w /\
  change_history w2 = change_history w /\
  (exists p, pending_changes w1 !! i = Some p /\ status p = pending) /\
  (exists p, pending_changes w2 !! i = Some p /\ status p = rejected /\
     reviewedAt p = Some t /\ executedAt p = None /\
     currentValue p = [("bid", JNumber (kw_bid kw))] /\
     proposedValue p = [("bid", JNumber new_bid)]).
Proof.
  intros Hk Hfresh. cbv zeta.
  rewrite (run_propose_bid_change w kid kw new_bid why Hk Hfresh).
  cbn [fst snd].
  erewrite run_reject_pending;
    [| cbn; apply lookup_insert_eq | reflexivity].
  cbn. rewrite Hk. cbn.
  rewrite lookup_alter_eq, !lookup_insert_eq. cbn.
  repeat split; eexists; (split; [reflexivity |]); cbn; repeat split.
Qed.

Lemma propose_bid_then_reject_witness :
  keywords shop !! "K1" = Some epic_fantasy /\
  pending_changes shop !! pending_changes_seq shop = None /\
  (kw_bid <$>
     keywords
       (snd (run (reject_change 1)
          (set_now 1010
             (snd (run (propose_bid_change "K1" (of_frac 85 100) None) shop)))))
     !! "K1") = Some (of_frac 110 100) /\
  (status <$>
     pending_changes
       (snd (run (reject_change 1)
          (set_now 1010
             (snd (run (propose_bid_change "K1" (of_frac 85 100) None) shop)))))
     !! 1) = Some rejected.
Proof.
  assert (H1 : keywords shop !! "K1" = Some epic_fantasy) by reflexivity.
  assert (H2 : pending_changes shop !! pending_changes_seq shop = None)
    by reflexivity.
  split; [exact H1 | split; [exact H2 |]].
  destruct (propose_bid_then_reject shop "K1" epic_fantasy (of_frac 85 100)
              None 1010 H1 H2)
    as (_ & _ & _ & _ & Hbid & _ & _ & _ & _ & _ & (p & Hp & Hs & _)).
  split; [exact Hbid |].
  change (pending_changes_seq shop) with 1 in Hp.
  now rewrite Hp, <- Hs.
Defined.

(** ** The lifecycle of a proposal *)

(** C2, as stated, fails: with a backend configured, approving a pending
    proposal stores it as 'executed' in the same call.  The proposal goes
    from 'pending' to 'executed', which is not one of the four transitions
    of the specification, and it is never stored as 'approved'. *)
Lemma approve_goes_straight_to_executed :
  let before := shop_with (lower_bid pending) in
  let after :=
    apply_event (Some backend_ok) (Call (call_approve_change 1)) before in
  (status <$> pending_changes before !! 1) = Some pending /\
  (status <$> pending_changes after !! 1) = Some executed /\
  lifecycle_transition pending executed = false.
Proof. cbv zeta. repeat split. Qed.

(** C2 (amended).  For tool calls run one after the other, each to its end
    before the next begins: a proposal that appears in the table is
    pending.  One event leaves a stored proposal in the table with its
    identity and payloads, and either keeps its status or resolves it: the
    proposal was pending and the event is its rejection, which makes it
    'rejected', or its approval, which makes it 'approved' without a
    backend and otherwise 'executed' or 'failed' as the backend's answer
    alone decides.  Once a proposal is not pending, no sequence of such
    events changes its status.  (Calls that overlap are another matter:
    see [approve_reject_race].) *)
Theorem proposal_lifecycle (adsClient : option AdsClient) :
  (forall c w i p,
     pending_changes w !! i = None ->
     pending_changes (apply_event adsClient (Call c) w) !! i = Some p ->
     status p = pending) /\
  (forall ev w i p,
     pending_changes w !! i = Some p ->
     exists p', pending_changes (apply_event adsClient ev w) !! i = Some p' /\
       currentValue p' = currentValue p /\ proposedValue p' = proposedValue p /\
       (status p' = status p \/
        resolution (status p) (status p') = true /\
        (ev = Call (call_reject_change i) /\ status p' = rejected \/
         ev = Call (call_approve_change i) /\
         status p' = approval_status adsClient w p))) /\
  (forall evs w i p,
     pending_changes w !! i = Some p ->
     status p <> pending ->
     exists p', pending_changes (run_events adsClient evs w) !! i = Some p' /\
       status p' = status p).
Proof.
  split; [| split].
  - intros c w i p Hnone Hsome.
    exact (table_step_new _ _ i p (handler_table_step adsClient c w) Hnone Hsome).
  - intros ev w i p Hp.
    destruct (event_row_status adsClient ev w i p Hp) as (p' & Hp' & Hst).
    destruct (table_step_row _ _ i p (event_table_step adsClient ev w) Hp)
      as (p'' & Hp'' & _ & _ & _ & _ & _ & Hcur & Hprp & _).
    rewrite Hp' in Hp''. injection Hp'' as <-.
    exists p'. split; [exact Hp' | split; [exact Hcur | split; [exact Hprp |]]].
    destruct Hst as [Hsame | [Hpend Hev]]; [now left | right].
    split; [| exact Hev].
    rewrite Hpend.
    destruct Hev as [[_ ->] | [_ ->]]; [reflexivity |].
    unfold approval_status.
    destruct adsClient as [client |]; [| reflexivity].
    now destruct (client (ads_calls w) (dispatch p)).
  - intros evs w i p. apply run_events_absorbing.
Qed.

(** ** Two approvals of one proposal *)

(** C3, as stated, fails: when each of two approvals of the same pending
    proposal has read the proposal before the other has written, both pass
    the guard, two requests reach the backend, both callers are told that
    the change was executed and none sees a conflict. *)
Lemma concurrent_approvals_both_execute :
  let before := shop_with (lower_bid pending) in
  let approve := approve_change (Some backend_ok) 1 in
  let result := interleave [First; Second] approve approve before in
  fst (fst result) =
    ExecutedOk 1 "epic fantasy books" [("bid", JNumber (of_frac 85 100))] /\
  snd (fst result) =
    ExecutedOk 1 "epic fantasy books" [("bid", JNumber (of_frac 85 100))] /\
  ads_calls (snd result) =
    [updateKeywordBid "K1" (JNumber (of_frac 85 100));
     updateKeywordBid "K1" (JNumber (of_frac 85 100))] /\
  length (change_history (snd result)) = 2%nat.
Proof. cbv zeta. repeat split. Qed.

(** C3 (amended).  The guard is a read of the stored proposal, and the
    later status update is keyed by the id alone: it rewrites the row
    whatever status it holds by then.  When two approvals of the same
    pending proposal run one after the other, the first resolves it with
    at most one request to the backend, and the second returns the conflict
    result with the status the first one stored and changes nothing. *)
Theorem approvals_in_sequence (adsClient : option AdsClient) (w : World)
    (i : Z) (c : PendingChange) :
  pending_changes w !! i = Some c ->
  status c = pending ->
  let approve := approve_change adsClient i in
  let w1 := snd (run approve w) in
  perform (GetPendingChangeById i) w = (Some c, w) /\
  (forall s e w0 p,
     pending_changes w0 !! i = Some p ->
     pending_changes (updatePendingChangeStatus i s e w0) !! i =
       Some (status_update (now w0) s e p)) /\
  interleave [] approve approve w =
    (fst (run approve w), AlreadyResolved i (approval_status adsClient w c), w1) /\
  isError (fst (run approve w)) =
    bool_decide (approval_status adsClient w c = failed) /\
  ads_calls w1 =
    ads_calls w ++ match adsClient with Some _ => [dispatch c] | None => [] end.
Proof.
  intros Hc Hs. cbv zeta. split; [| split; [| split; [| split]]].
  - cbn. unfold getPendingChangeById. now rewrite Hc.
  - intros s e w0 p Hp. cbn. now rewrite lookup_alter_eq, Hp.
  - destruct (event_row_status adsClient (Call (call_approve_change i)) w i c Hc)
      as (c' & Hc' & Hst).
    cbn [apply_event handler] in Hc'.
    assert (Hs' : status c' = approval_status adsClient w c).
    { destruct Hst as [Hsame | [_ [[Hev _] | [_ Hst]]]].
      - exfalso. revert Hc' Hsame.
        destruct adsClient as [client |].
        + rewrite (run_approve_configured client w i c Hc Hs). cbv zeta.
          destruct (client (ads_calls w) (dispatch c)); cbn;
            rewrite lookup_alter_eq, Hc; cbn; intros [= <-]; cbn; congruence.
        + rewrite (run_approve_unconfigured w i c Hc Hs). cbn.
          rewrite lookup_alter_eq, Hc. cbn. intros [= <-]. cbn. congruence.
      - discriminate Hev.
      - exact Hst. }
    cbn [interleave].
    destruct (run (approve_change adsClient i) w) as [r1 w1] eqn:E1.
    cbn [fst snd] in *.
    rewrite (run_approve_resolved adsClient w1 i c' Hc').
    + now rewrite Hs'.
    + rewrite Hs'. unfold approval_status.
      destruct adsClient as [client |]; [| discriminate].
      destruct (client (ads_calls w) (dispatch c)); discriminate.
  - destruct adsClient as [client |].
    + rewrite (run_approve_configured client w i c Hc Hs). cbv zeta.
      unfold approval_status.
      now destruct (client (ads_calls w) (dispatch c)).
    + now rewrite (run_approve_unconfigured w i c Hc Hs).
  - destruct adsClient as [client |].
    + rewrite (run_approve_configured client w i c Hc Hs). cbv zeta.
      now destruct (client (ads_calls w) (dispatch c)).
    + rewrite (run_approve_unconfigured w i c Hc Hs). cbn.
      now rewrite app_nil_r.
Qed.

Lemma approvals_in_sequence_witness :
  pending_changes (shop_with (lower_bid pending)) !! 1 = Some (lower_bid pending) /\
  status (lower_bid pending) = pending /\
  snd (fst (interleave [] (approve_change (Some backend_ok) 1)
              (approve_change (Some backend_ok) 1)
              (shop_with (lower_bid pending)))) =
    AlreadyResolved 1 executed /\
  ads_calls (snd (run (approve_change (Some backend_ok) 1)
                    (shop_with (lower_bid pending)))) =
    [updateKeywordBid "K1" (JNumber (of_frac 85 100))].
Proof.
  assert (H1 : pending_changes (shop_with (lower_bid pending)) !! 1 =
               Some (lower_bid pending)) by reflexivity.
  split; [exact H1 | split; [reflexivity |]].
  destruct (approvals_in_sequence (Some backend_ok)
              (shop_with (lower_bid pending)) 1 (lower_bid pending) H1 eq_refl)
    as (_ & _ & Hseq & _ & Hcalls).
  split; [now rewrite Hseq | exact Hcalls].
Defined.

(** * Further properties of the registry *)

(** ** What a handler leaves alone *)

Lemma run_approve_executing (client : AdsClient) (w : World) (i : Z)
    (c : PendingChange) :
  pending_changes w !! i = Some c -> status c = pending ->
  let r := client (ads_calls w) (dispatch c) in
  let w' := snd (run (approve_change (Some client) i) w) in
  keywords w' = keywords w /\ campaigns w' = campaigns w /\
  now w' = now w /\ pending_changes_seq w' = pending_changes_seq w /\
  ads_calls w' = ads_calls w ++ [dispatch c] /\
  change_history w' = change_history w ++ [execution_entry (now w) i c r] /\
  pending_changes w' =
    alter (status_update (now w) (outcome_status r)
             match r with AdsOk => None | AdsThrow e => Some (errorText e) end)
      i (pending_changes w).
Proof.
  intros Hc Hs. cbv zeta.
  rewrite (run_approve_configured client w i c Hc Hs). cbv zeta.
  destruct (client (ads_calls w) (dispatch c)); cbn; repeat split.
Qed.

Ltac propose_frame w :=
  cbn;
  match goal with
  | |- context [keywords w !! ?k] => destruct (keywords w !! k)
  | |- context [campaigns w !! ?k] => destruct (campaigns w !! k)
  end; cbn; [| repeat split];
  unfold createPendingChange;
  destruct (pending_changes w !! pending_changes_seq w);
  cbn; repeat split.

(** No tool call touches the keywords, the campaigns or the clock; the
    change history and the log of backend requests change only in an
    approval that reaches the backend. *)
Lemma handler_frame (adsClient : option AdsClient) (c : ToolCall) (w : World) :
  let w' := snd (run (handler adsClient c) w) in
  keywords w' = keywords w /\ campaigns w' = campaigns w /\ now w' = now w /\
  (change_history w' = change_history w /\ ads_calls w' = ads_calls w \/
   exists i p client,
     c = call_approve_change i /\ adsClient = Some client /\
     pending_changes w !! i = Some p /\ status p = pending /\
     ads_calls w' = ads_calls w ++ [dispatch p] /\
     change_history w' =
       change_history w ++
       [execution_entry (now w) i p (client (ads_calls w) (dispatch p))]).
Proof.
  cbv zeta.
  destruct c as [k b r | k s r | k b r | k t m r | i | i]; cbn [handler].
  - unfold propose_bid_change. propose_frame w; now left.
  - unfold propose_keyword_state_change. propose_frame w; now left.
  - unfold propose_budget_change. propose_frame w; now left.
  - unfold propose_negative_keyword. propose_frame w; now left.
  - destruct (pending_changes w !! i) as [p |] eqn:E.
    + destruct (decide (status p = pending)) as [Hs | Hs].
      * destruct adsClient as [client |].
        -- destruct (run_approve_executing client w i p E Hs)
             as (H1 & H2 & H3 & _ & H5 & H6 & _).
           repeat split; try assumption.
           right. exists i, p, client. repeat split; assumption.
        -- rewrite (run_approve_unconfigured w i p E Hs). cbn.
           repeat split. now left.
      * rewrite (run_approve_resolved adsClient w i p E Hs).
        repeat split. now left.
    + rewrite (run_approve_missing adsClient w i E). repeat split. now left.
  - destruct (pending_changes w !! i) as [p |] eqn:E.
    + destruct (decide (status p = pending)) as [Hs | Hs].
      * rewrite (run_reject_pending w i p E Hs). cbn. repeat split. now left.
      * rewrite (run_reject_resolved w i p E Hs). repeat split. now left.
    + rewrite (run_reject_missing w i E). repeat split. now left.
Qed.

(** ** Successful execution *)

(** X1.  Approving a pending proposal when the backend accepts the
    dispatched request: the result is the success result, the proposal is
    stored as 'executed' with review and execution time set to the current
    time and no error text, exactly one request is sent, exactly one
    successful history entry with the old and new value and no API response
    is appended, and the keyword and campaign tables are not touched (the
    locally stored bid, state or budget stays what it was). *)
Theorem approve_executes (client : AdsClient) (w : World) (i : Z)
    (c : PendingChange) :
  pending_changes w !! i = Some c ->
  status c = pending ->
  client (ads_calls w) (dispatch c) = AdsOk ->
  let r := fst (run (approve_change (Some client) i) w) in
  let w' := snd (run (approve_change (Some client) i) w) in
  r = ExecutedOk i (target_label c) (proposedValue c) /\
  isError r = false /\
  (exists c', pending_changes w' !! i = Some c' /\
     status c' = executed /\
     reviewedAt c' = Some (now w) /\ executedAt c' = Some (now w) /\
     errorMessage c' = errorMessage c /\
     currentValue c' = currentValue c /\ proposedValue c' = proposedValue c) /\
  (forall j, j <> i -> pending_changes w' !! j = pending_changes w !! j) /\
  ads_calls w' = ads_calls w ++ [dispatch c] /\
  change_history w' = change_history w ++
    [ {| h_pendingChangeId := Some i; h_targetType := targetType c;
         h_targetId := targetId c; h_changeType := changeType c;
         h_oldValue := Some (currentValue c); h_newValue := proposedValue c;
         h_executedAt := now w; h_success := true; h_apiResponse := None |} ] /\
  keywords w' = keywords w /\
  campaigns w' = campaigns w.
Proof.
  intros Hc Hs Hok. cbv zeta.
  rewrite (run_approve_configured client w i c Hc Hs). cbv zeta.
  rewrite Hok. cbn. repeat split.
  - rewrite lookup_alter_eq, Hc. cbn. eexists. split; [reflexivity |].
    cbn. repeat split.
  - intros j Hj. now rewrite lookup_alter_ne.
Qed.

Lemma approve_executes_witness :
  pending_changes (shop_with (lower_bid pending)) !! 1 = Some (lower_bid pending) /\
  status (lower_bid pending) = pending /\
  backend_ok (ads_calls (shop_with (lower_bid pending)))
    (dispatch (lower_bid pending)) = AdsOk /\
  fst (run (approve_change (Some backend_ok) 1) (shop_with (lower_bid pending))) =
    ExecutedOk 1 "epic fantasy books" [("bid", JNumber (of_frac 85 100))] /\
  keywords (snd (run (approve_change (Some backend_ok) 1)
                   (shop_with (lower_bid pending)))) =
    keywords (shop_with (lower_bid pending)).
Proof.
  assert (H1 : pending_changes (shop_with (lower_bid pending)) !! 1 =
               Some (lower_bid pending)) by reflexivity.
  split; [exact H1 | split; [reflexivity | split; [reflexivity |]]].
  destruct (approve_executes backend_ok (shop_with (lower_bid pending)) 1
              (lower_bid pending) H1 eq_refl eq_refl)
    as (Hr & _ & _ & _ & _ & _ & Hk & _).
  split; [exact Hr | exact Hk].
Defined.

(** ** Unknown ids *)

(** X2.  Every write tool given an id that is not stored (a keyword for the
    two keyword proposals, a campaign for the budget and negative-keyword
    proposals, a proposal for approval and rejection) returns its not-found
    result, which is an error, and leaves the store exactly as it found
    it: in particular no proposal is created for an unknown target. *)
Theorem unknown_id_not_found (adsClient : option AdsClient) (w : World) :
  (forall k b s why,
     keywords w !! k = None ->
     run (propose_bid_change k b why) w = (KeywordNotFound k, w) /\
     run (propose_keyword_state_change k s why) w = (KeywordNotFound k, w)) /\
  (forall c b txt m why,
     campaigns w !! c = None ->
     run (propose_budget_change c b why) w = (CampaignNotFound c, w) /\
     run (propose_negative_keyword c txt m why) w = (CampaignNotFound c, w)) /\
  (forall i,
     pending_changes w !! i = None ->
     run (approve_change adsClient i) w = (ChangeNotFound i, w) /\
     run (reject_change i) w = (ChangeNotFound i, w)) /\
  (forall k c i,
     isError (KeywordNotFound k) = true /\ isError (CampaignNotFound c) = true /\
     isError (ChangeNotFound i) = true).
Proof.
  split; [| split; [| split]].
  - intros k b s why Hk. split.
    + unfold propose_bid_change. cbn. now rewrite Hk.
    + unfold propose_keyword_state_change. cbn. now rewrite Hk.
  - intros c b txt m why Hc. split.
    + unfold propose_budget_change. cbn. now rewrite Hc.
    + unfold propose_negative_keyword. cbn. now rewrite Hc.
  - intros i Hi. split.
    + now apply run_approve_missing.
    + now apply run_reject_missing.
  - intros. repeat split.
Qed.

(** ** Recorded failures *)

(** X3.  When the backend throws while a pending proposal is approved and
    the error text (the message of an [Error], 'Unknown error' for any
    other thrown value) is not empty, that text is what the failed
    proposal's error field holds, what the single failed history entry
    carries under the key [error], and what the error result reports; one
    request was sent and both timestamps are the current time. *)
Theorem approve_failure_recorded (client : AdsClient) (w : World) (i : Z)
    (c : PendingChange) (e : Thrown) :
  pending_changes w !! i = Some c ->
  status c = pending ->
  client (ads_calls w) (dispatch c) = AdsThrow e ->
  errorText e <> "" ->
  let r := fst (run (approve_change (Some client) i) w) in
  let w' := snd (run (approve_change (Some client) i) w) in
  r = ExecutionFailed i (errorText e) /\
  isError r = true /\
  (e = JsOther -> errorText e = "Unknown error") /\
  (forall m, e = JsError m -> errorText e = m) /\
  ads_calls w' = ads_calls w ++ [dispatch c] /\
  (exists c', pending_changes w' !! i = Some c' /\
     status c' = failed /\ errorMessage c' = Some (errorText e) /\
     reviewedAt c' = Some (now w) /\ executedAt c' = Some (now w)) /\
  (exists h, change_history w' = change_history w ++ [h] /\
     h_success h = false /\ h_pendingChangeId h = Some i /\
     h_apiResponse h = Some [("error", JString (errorText e))]).
Proof.
  intros Hc Hs He Hne. cbv zeta.
  destruct (approve_backend_failure client w i c e Hc Hs He)
    as (Hr & Herr & Hcalls & (c' & Hc' & Hst & Hrev & Hex & Hmsg & _) & Hh).
  repeat split; try assumption.
  - now intros ->.
  - now intros m ->.
  - exists c'. repeat split; try assumption.
    rewrite Hmsg. destruct (String.eqb_spec (errorText e) ""); congruence.
  - eexists. split; [exact Hh |]. repeat split.
Qed.

Lemma approve_failure_recorded_witness :
  pending_changes (shop_with (lower_bid pending)) !! 1 = Some (lower_bid pending) /\
  status (lower_bid pending) = pending /\
  errorText (JsError "API Error: 429 - throttled") <> "" /\
  (errorMessage <$>
     pending_changes
       (snd (run (approve_change
                    (Some (backend_throws "API Error: 429 - throttled")) 1)
               (shop_with (lower_bid pending)))) !! 1) =
    Some (Some "API Error: 429 - throttled").
Proof.
  assert (H1 : pending_changes (shop_with (lower_bid pending)) !! 1 =
               Some (lower_bid pending)) by reflexivity.
  assert (H2 : errorText (JsError "API Error: 429 - throttled") <> "")
    by discriminate.
  split; [exact H1 | split; [reflexivity | split; [exact H2 |]]].
  destruct (approve_failure_recorded
              (backend_throws "API Error: 429 - throttled")
              (shop_with (lower_bid pending)) 1 (lower_bid pending)
              (JsError "API Error: 429 - throttled") H1 eq_refl eq_refl H2)
    as (_ & _ & _ & _ & _ & (c' & Hc' & _ & Hm & _) & _).
  rewrite Hc'. cbn. now rewrite Hm.
Defined.

(** ** From a proposal to the backend request *)

Lemma createPendingChange_fresh (nc : NewChange) (w : World) :
  pending_changes w !! pending_changes_seq w = None ->
  createPendingChange nc w =
  (Some (pending_changes_seq w),
   set_pending_changes
     (<[pending_changes_seq w := new_row (pending_changes_seq w) (now w) nc]>
        (pending_changes w))
     (set_pending_changes_seq (pending_changes_seq w + 1) w)).
Proof. intros H. unfold createPendingChange. now rewrite H. Qed.

(** Approving, at a later time [t], the proposal a fresh insertion has just
    created: the request is the one dispatched for the new row, and the
    row ends in the status the backend's answer decides. *)
Lemma approve_created (client : AdsClient) (nc : NewChange) (w : World) (t : Z) :
  pending_changes w !! pending_changes_seq w = None ->
  let i := pending_changes_seq w in
  let row := new_row i (now w) nc in
  let w2 :=
    snd (run (approve_change (Some client) i)
           (set_now t (snd (createPendingChange nc w)))) in
  ads_calls w2 = ads_calls w ++ [dispatch row] /\
  (status <$> pending_changes w2 !! i) =
    Some (outcome_status (client (ads_calls w) (dispatch row))) /\
  keywords w2 = keywords w /\ campaigns w2 = campaigns w.
Proof.
  intros Hfresh. cbv zeta.
  rewrite (createPendingChange_fresh nc w Hfresh). cbn [snd].
  match goal with |- context [run (approve_change _ ?i) ?w1] =>
    destruct (run_approve_executing client w1 i
                (new_row (pending_changes_seq w) (now w) nc))
      as (Hk & Hc & _ & _ & Hcalls & _ & Htab);
      [cbn; apply lookup_insert_eq | reflexivity |]
  end.
  rewrite Hcalls, Htab, Hk, Hc. cbn.
  rewrite lookup_alter_eq, lookup_insert_eq. cbn. repeat split.
Qed.

Ltac sent_case client w t Hfresh :=
  let H1 := fresh in
  let H2 := fresh in
  match goal with
  | |- context [createPendingChange ?nc w] =>
      destruct (approve_created client nc w t Hfresh) as (H1 & H2 & _);
      rewrite (createPendingChange_fresh nc w Hfresh) in *
  end;
  cbn [created mret Prog_ret run snd] in *; split; assumption.

(** X4.  For each of the four proposal tools: when the target is stored and
    the next id is free, approving the proposal the tool has created, at
    any later time and with a backend configured, sends exactly one
    request, the mutation of the proposal's kind, addressed to the target
    and carrying the proposed value as it was given to the tool; the
    proposal ends 'executed' or 'failed' as the answer to that request
    decides. *)
Theorem proposal_reaches_backend (client : AdsClient) (w : World) (t : Z) :
  pending_changes w !! pending_changes_seq w = None ->
  let i := pending_changes_seq w in
  let approved w1 := snd (run (approve_change (Some client) i) (set_now t w1)) in
  let sent w1 req :=
    ads_calls (approved w1) = ads_calls w ++ [req] /\
    (status <$> pending_changes (approved w1) !! i) =
      Some (outcome_status (client (ads_calls w) req)) in
  (forall k kw b why,
     keywords w !! k = Some kw ->
     sent (snd (run (propose_bid_change k b why) w))
       (updateKeywordBid k (JNumber b))) /\
  (forall k kw s why,
     keywords w !! k = Some kw ->
     sent (snd (run (propose_keyword_state_change k s why) w))
       (updateKeywordState k (JString (EntityState_name s)))) /\
  (forall c cp b why,
     campaigns w !! c = Some cp ->
     sent (snd (run (propose_budget_change c b why) w))
       (updateCampaignBudget c (JNumber b))) /\
  (forall c cp txt m why,
     campaigns w !! c = Some cp ->
     sent (snd (run (propose_negative_keyword c txt m why) w))
       (addNegativeKeyword c (JString txt) (JString (NegativeMatchType_name m)))).
Proof.
  intros Hfresh. cbv zeta.
  split; [| split; [| split]].
  - intros k kw b why Hk. unfold propose_bid_change. cbn. rewrite Hk. cbn.
    sent_case client w t Hfresh.
  - intros k kw s why Hk. unfold propose_keyword_state_change. cbn.
    rewrite Hk. cbn.
    sent_case client w t Hfresh.
  - intros c cp b why Hc. unfold propose_budget_change. cbn. rewrite Hc. cbn.
    sent_case client w t Hfresh.
  - intros c cp txt m why Hc. unfold propose_negative_keyword. cbn.
    rewrite Hc. cbn.
    sent_case client w t Hfresh.
Qed.

Lemma proposal_reaches_backend_witness :
  pending_changes shop !! pending_changes_seq shop = None /\
  keywords shop !! "K1" = Some epic_fantasy /\
  ads_calls
    (snd (run (approve_change (Some backend_ok) 1)
            (set_now 1010
               (snd (run (propose_keyword_state_change "K1" paused None) shop))))) =
    [updateKeywordState "K1" (JString "paused")].
Proof.
  assert (H1 : pending_changes shop !! pending_changes_seq shop = None)
    by reflexivity.
  assert (H2 : keywords shop !! "K1" = Some epic_fantasy) by reflexivity.
  split; [exact H1 | split; [exact H2 |]].
  destruct (proposal_reaches_backend backend_ok shop 1010 H1)
    as (_ & Hstate & _).
  exact (proj1 (Hstate "K1" epic_fantasy paused None H2)).
Defined.

(** ** The local tables after an execution *)

(** X5.  Executing a bid change does not write the new bid to the local
    keyword table: after a proposal to set the bid to [b1] has been
    approved and executed, the keyword is stored with the bid it had, and
    the next proposal for the same keyword records that old bid, not
    [b1], as its current value. *)
Theorem executed_bid_not_stored (client : AdsClient) (w : World)
    (kid : string) (kw : Keyword) (b1 b2 : num) (why1 why2 : option string)
    (t1 t2 : Z) :
  keywords w !! kid = Some kw ->
  store_consistent w ->
  client (ads_calls w) (updateKeywordBid kid (JNumber b1)) = AdsOk ->
  let i := pending_changes_seq w in
  let w1 := snd (run (propose_bid_change kid b1 why1) w) in
  let w2 := snd (run (approve_change (Some client) i) (set_now t1 w1)) in
  let r3 := fst (run (propose_bid_change kid b2 why2) (set_now t2 w2)) in
  (status <$> pending_changes w2 !! i) = Some executed /\
  ads_calls w2 = ads_calls w ++ [updateKeywordBid kid (JNumber b1)] /\
  keywords w2 !! kid = Some kw /\
  r3 = ProposalCreated (i + 1) bid_adjustment
         [("bid", JNumber (kw_bid kw))] [("bid", JNumber b2)].
Proof.
  intros Hk Hw Hok. cbv zeta.
  assert (Hfresh : pending_changes w !! pending_changes_seq w = None)
    by (apply Hw; lia).
  rewrite (run_propose_bid_change w kid kw b1 why1 Hk Hfresh). cbn [snd].
  match goal with |- context [run (approve_change _ ?i) ?w1] =>
    pose proof (run_approve_executing client w1 i
                  (new_row (pending_changes_seq w) (now w)
                     {| new_changeType := bid_adjustment;
                        new_targetType := target_keyword;
                        new_targetId := kid;
                        new_targetName := Some (kw_keywordText kw);
                        new_currentValue := [("bid", JNumber (kw_bid kw))];
                        new_proposedValue := [("bid", JNumber b1)];
                        new_reason := why1 |})) as H;
      destruct H as (Hkw & _ & _ & Hseq & Hcalls & _ & Htab);
      [cbn; apply lookup_insert_eq | reflexivity |];
      set (w2 := snd (run (approve_change (Some client) i) w1)) in *
  end.
  cbn in Hkw, Hseq, Hcalls, Htab. rewrite Hok in Htab. cbn in Htab.
  assert (Hk2 : keywords (set_now t2 w2) !! kid = Some kw)
    by (cbn; now rewrite Hkw).
  assert (Hfresh2 : pending_changes (set_now t2 w2)
                      !! pending_changes_seq (set_now t2 w2) = None).
  { cbn. rewrite Htab, Hseq. apply lookup_alter_None.
    rewrite lookup_insert_ne by lia. apply Hw. lia. }
  rewrite (run_propose_bid_change (set_now t2 w2) kid kw b2 why2 Hk2 Hfresh2).
  cbn [fst]. cbn [pending_changes_seq set_now]. rewrite Hseq.
  repeat split; try assumption.
  rewrite Htab, lookup_alter_eq, lookup_insert_eq. reflexivity.
Qed.

Lemma executed_bid_not_stored_witness :
  keywords shop !! "K1" = Some epic_fantasy /\
  store_consistent shop /\
  fst (run (propose_bid_change "K1" (of_frac 70 100) None)
         (set_now 1020
            (snd (run (approve_change (Some backend_ok) 1)
                    (set_now 1010
                       (snd (run (propose_bid_change "K1" (of_frac 85 100) None)
                               shop))))))) =
    ProposalCreated 2 bid_adjustment
      [("bid", JNumber (of_frac 110 100))] [("bid", JNumber (of_frac 70 100))].
Proof.
  assert (H1 : keywords shop !! "K1" = Some epic_fantasy) by reflexivity.
  assert (H2 : store_consistent shop) by (intros i _; reflexivity).
  split; [exact H1 | split; [exact H2 |]].
  destruct (executed_bid_not_stored backend_ok shop "K1" epic_fantasy
              (of_frac 85 100) (of_frac 70 100) None None 1010 1020
              H1 H2 eq_refl)
    as (_ & _ & _ & H).
  exact H.
Defined.

(** ** Listing proposals *)

Lemma newest_first_total : Total newest_first.
Proof. intros a b. unfold newest_first. lia. Qed.

Lemma newest_first_trans : Transitive newest_first.
Proof. intros a b c. unfold newest_first. lia. Qed.

Lemma elem_of_getPendingChanges (st : option Status) (w : World)
    (p : PendingChange) :
  p ∈ getPendingChanges st w <->
  (exists i, pending_changes w !! i = Some p) /\ has_status st p.
Proof.
  unfold getPendingChanges.
  rewrite sorting.merge_sort_Permutation, list_elem_of_filter, list_elem_of_fmap.
  split.
  - intros [Hs ([i q] & -> & Hin)]. split; [| exact Hs].
    exists i. now apply elem_of_map_to_list in Hin.
  - intros [[i Hi] Hs]. split; [exact Hs |].
    exists (i, p). split; [reflexivity |]. now apply elem_of_map_to_list.
Qed.

(** X6.  [list_pending_changes] looks for the given status, and for
    'pending' when none is given.  It answers "none found" exactly when no
    stored proposal has that status; otherwise it lists the stored
    proposals of that status and no others, newest first. *)
Theorem list_pending_changes_result (status_arg : option Status) (w : World) :
  let st := default pending status_arg in
  (list_pending_changes status_arg w = NoChangesFound st <->
   forall i p, pending_changes w !! i = Some p -> status p <> st) /\
  (list_pending_changes status_arg w <> NoChangesFound st ->
   exists listed,
     list_pending_changes status_arg w = ChangesListed st listed /\
     listed <> [] /\
     (forall p, p ∈ listed <->
        (exists i, pending_changes w !! i = Some p) /\ status p = st) /\
     StronglySorted newest_first listed).
Proof.
  cbv zeta. unfold list_pending_changes.
  set (st := default pending status_arg).
  pose proof (elem_of_getPendingChanges (Some st) w) as Hin.
  destruct (getPendingChanges (Some st) w) as [| q l] eqn:E.
  - rewrite bool_decide_eq_true_2 by reflexivity. split.
    + split; [| reflexivity]. intros _ i p Hp Hs.
      assert (H : p ∈ @nil PendingChange) by (apply Hin; eauto).
      inversion H.
    + intros H. now contradiction H.
  - rewrite bool_decide_eq_false_2 by discriminate. split.
    + split; [discriminate |]. intros Hnone. exfalso.
      assert (Hq : q ∈ q :: l) by apply list_elem_of_here.
      apply Hin in Hq as [[i Hi] Hs]. exact (Hnone i q Hi Hs).
    + intros _. exists (q :: l). split; [reflexivity |].
      split; [discriminate |]. split; [exact Hin |].
      rewrite <- E. apply sorting.StronglySorted_merge_sort.
      * apply newest_first_trans.
      * apply newest_first_total.
Qed.

(** ** The shape of stored proposals *)

Lemma new_row_ok (i t : Z) (nc : NewChange) : row_ok i (new_row i t nc).
Proof.
  unfold row_ok. cbn. repeat split; try tauto; try discriminate.
  - intros [H | H]; discriminate H.
Qed.

Lemma status_update_ok (i t : Z) (s : Status) (e : option string)
    (p : PendingChange) :
  row_ok i p -> status p = pending -> s <> pending ->
  (is_Some e -> s = failed) ->
  row_ok i (status_update t s e p).
Proof.
  intros (Hid & Hrev & Hex & Herr) Hp Hs He.
  assert (Hex0 : executedAt p = None).
  { destruct (executedAt p) eqn:E; [| reflexivity].
    destruct Hex as [Hex _]. destruct Hex as [H | H]; congruence. }
  assert (Herr0 : errorMessage p = None).
  { destruct (errorMessage p) eqn:E; [| reflexivity].
    assert (status p = failed) by (apply Herr; discriminate). congruence. }
  unfold row_ok. cbn. split; [exact Hid | split; [| split]].
  - split; [discriminate | tauto].
  - case_bool_decide as Hd.
    + split; [tauto | discriminate].
    + rewrite Hex0. split; [congruence | tauto].
  - destruct e as [m |]; [| congruence].
    intros _. apply He. eauto.
Qed.

Lemma alter_rows_ok (t : gmap Z PendingChange) (i time : Z) (s : Status)
    (e : option string) (p : PendingChange) :
  (forall j q, t !! j = Some q -> row_ok j q) ->
  t !! i = Some p -> status p = pending -> s <> pending ->
  (is_Some e -> s = failed) ->
  forall j q, alter (status_update time s e) i t !! j = Some q -> row_ok j q.
Proof.
  intros Ht Hp Hpend Hs He j q Hq.
  destruct (decide (i = j)) as [-> | Hne].
  - rewrite lookup_alter_eq, Hp in Hq. injection Hq as <-.
    apply status_update_ok; auto.
  - rewrite lookup_alter_ne in Hq by assumption. auto.
Qed.

Lemma createPendingChange_rows_ok (nc : NewChange) (w : World) :
  rows_ok w -> rows_ok (snd (createPendingChange nc w)).
Proof.
  unfold rows_ok, createPendingChange. intros Hw.
  destruct (pending_changes w !! pending_changes_seq w) eqn:E; cbn.
  - exact Hw.
  - intros j q Hq. destruct (decide (pending_changes_seq w = j)) as [<- | Hne].
    + rewrite lookup_insert_eq in Hq. injection Hq as <-. apply new_row_ok.
    + rewrite lookup_insert_ne in Hq by assumption. auto.
Qed.

Ltac propose_rows_ok w :=
  cbn;
  match goal with
  | |- context [keywords w !! ?k] => destruct (keywords w !! k)
  | |- context [campaigns w !! ?k] => destruct (campaigns w !! k)
  end; cbn; [| assumption];
  match goal with
  | |- context [createPendingChange ?nc w] =>
      pose proof (createPendingChange_rows_ok nc w);
      destruct (createPendingChange nc w) as [? ?]
  end;
  rewrite run_created; auto.

Lemma apply_event_rows_ok (adsClient : option AdsClient) (ev : Event) (w : World) :
  rows_ok w -> rows_ok (apply_event adsClient ev w).
Proof.
  intros Hw. destruct ev as [c | t]; [| exact Hw]. cbn [apply_event].
  destruct c as [k b r | k s r | k b r | k t m r | i | i]; cbn [handler].
  - unfold propose_bid_change. propose_rows_ok w.
  - unfold propose_keyword_state_change. propose_rows_ok w.
  - unfold propose_budget_change. propose_rows_ok w.
  - unfold propose_negative_keyword. propose_rows_ok w.
  - destruct (pending_changes w !! i) as [p |] eqn:E.
    + destruct (decide (status p = pending)) as [Hs | Hs].
      * destruct adsClient as [client |].
        -- destruct (run_approve_executing client w i p E Hs)
             as (_ & _ & _ & _ & _ & _ & Htab).
           unfold rows_ok. rewrite Htab.
           apply alter_rows_ok with (p := p); auto.
           ++ destruct (client (ads_calls w) (dispatch p)); discriminate.
           ++ destruct (client (ads_calls w) (dispatch p)); [| reflexivity].
              intros [? ?]. discriminate.
        -- rewrite (run_approve_unconfigured w i p E Hs).
           unfold rows_ok. cbn.
           apply alter_rows_ok with (p := p); auto; try discriminate.
           intros [? ?]. discriminate.
      * now rewrite (run_approve_resolved adsClient w i p E Hs).
    + now rewrite (run_approve_missing adsClient w i E).
  - destruct (pending_changes w !! i) as [p |] eqn:E.
    + destruct (decide (status p = pending)) as [Hs | Hs].
      * rewrite (run_reject_pending w i p E Hs). unfold rows_ok. cbn.
        apply alter_rows_ok with (p := p); auto; try discriminate.
        intros [? ?]. discriminate.
      * now rewrite (run_reject_resolved w i p E Hs).
    + now rewrite (run_reject_missing w i E).
Qed.

(** X7.  The operations keep every stored proposal well-shaped: it carries
    the id it is stored under, it has a review time exactly when it is no
    longer pending, an execution time exactly when it is executed or
    failed, and an error text only when it failed.  This holds after every
    sequence of tool calls from a store where it holds (the empty store for
    one). *)
Theorem run_events_rows_ok (adsClient : option AdsClient) (evs : list Event)
    (w : World) :
  rows_ok w -> rows_ok (run_events adsClient evs w).
Proof.
  revert w. induction evs as [| ev evs IH]; intros w Hw; cbn.
  - exact Hw.
  - apply IH. now apply apply_event_rows_ok.
Qed.

Lemma run_events_rows_ok_witness :
  rows_ok shop /\
  rows_ok
    (run_events (Some backend_ok)
       [Call (call_propose_bid_change "K1" (of_frac 85 100) None);
        Clock 1010; Call (call_approve_change 1)] shop).
Proof.
  assert (H : rows_ok shop) by (intros i p Hp; inversion Hp).
  split; [exact H |].
  apply (run_events_rows_ok (Some backend_ok)
           [Call (call_propose_bid_change "K1" (of_frac 85 100) None);
            Clock 1010; Call (call_approve_change 1)] shop H).
Defined.

(** ** The change history and the backend *)

Lemma dispatch_same (p p' : PendingChange) :
  changeType p' = changeType p -> targetId p' = targetId p ->
  proposedValue p' = proposedValue p -> dispatch p' = dispatch p.
Proof. intros H1 H2 H3. unfold dispatch. now rewrite H1, H2, H3. Qed.

Lemma entry_kept_step (t t' : gmap Z PendingChange) (h : ChangeHistoryEntry)
    (i : Z) (p : PendingChange) :
  table_step t t' -> t !! i = Some p -> entry_of h i p ->
  exists p', t' !! i = Some p' /\ entry_of h i p' /\ dispatch p' = dispatch p.
Proof.
  intros Hstep Hp (H1 & H2 & H3 & H4 & H5 & H6 & H7 & H8).
  destruct (table_step_row t t' i p Hstep Hp)
    as (p' & Hp' & Hst & _ & Hct & Htt & Hti & Hcur & Hprp & _).
  exists p'. split; [exact Hp' | split].
  - assert (Hs : status p' = status p).
    { destruct Hst as [Hst | Hst]; [exact Hst |].
      apply resolution_from_pending in Hst as [Hst _].
      destruct (h_success h); congruence. }
    unfold entry_of. rewrite Hs, Htt, Hti, Hct, Hcur, Hprp. tauto.
  - now apply dispatch_same.
Qed.

Lemma entry_kept_events (adsClient : option AdsClient) (evs : list Event)
    (w : World) (h : ChangeHistoryEntry) (i : Z) (p : PendingChange) :
  pending_changes w !! i = Some p -> entry_of h i p ->
  exists p', pending_changes (run_events adsClient evs w) !! i = Some p' /\
    entry_of h i p' /\ dispatch p' = dispatch p.
Proof.
  revert w p. induction evs as [| ev evs IH]; intros w p Hp He; cbn.
  - eauto.
  - destruct (entry_kept_step _ _ h i p (event_table_step adsClient ev w) Hp He)
      as (p1 & Hp1 & He1 & Hd1).
    destruct (IH _ p1 Hp1 He1) as (p' & Hp' & He' & Hd').
    exists p'. split; [exact Hp' | split; [exact He' | congruence]].
Qed.

(** What one event adds to the history and to the log of requests: nothing,
    or one entry and the request it answers, for a proposal that the event
    leaves executed or failed accordingly. *)
Lemma event_history (adsClient : option AdsClient) (ev : Event) (w : World) :
  let w' := apply_event adsClient ev w in
  change_history w' = change_history w /\ ads_calls w' = ads_calls w \/
  exists h i p,
    change_history w' = change_history w ++ [h] /\
    pending_changes w' !! i = Some p /\ entry_of h i p /\
    ads_calls w' = ads_calls w ++ [dispatch p].
Proof.
  cbv zeta. destruct ev as [c | t]; [| now left]. cbn [apply_event].
  destruct (handler_frame adsClient c w)
    as (_ & _ & _ & [Hsame | (i & p & client & -> & -> & Hp & Hs & Hcalls & Hh)]);
    [now left | right].
  cbn [handler] in *.
  destruct (run_approve_executing client w i p Hp Hs)
    as (_ & _ & _ & _ & _ & _ & Htab).
  eexists _, i, _. split; [exact Hh |].
  split; [rewrite Htab, lookup_alter_eq, Hp; reflexivity |].
  split; [| exact Hcalls].
  unfold entry_of. cbn.
  destruct (client (ads_calls w) (dispatch p)); cbn; repeat split.
  discriminate.
Qed.

(** X8.  Along every sequence of tool calls run one after the other, each
    to its end before the next begins, the change history only grows, by
    exactly one entry per request sent to the backend and in the same
    order; every added entry belongs to a stored proposal that is
    'executed' if the entry is a success and 'failed' otherwise, records
    that proposal's current and proposed value as old and new value, and
    answers the request dispatched for that proposal.  If every earlier
    entry belonged to a stored proposal in this way, every entry still
    does. *)
Theorem history_mirrors_backend (adsClient : option AdsClient)
    (evs : list Event) (w : World) :
  let w' := run_events adsClient evs w in
  (exists added reqs,
     change_history w' = change_history w ++ added /\
     ads_calls w' = ads_calls w ++ reqs /\
     Forall2
       (fun h r => exists i p,
          pending_changes w' !! i = Some p /\ entry_of h i p /\ r = dispatch p)
       added reqs) /\
  (history_ok w -> history_ok w').
Proof.
  cbv zeta. revert w. induction evs as [| ev evs IH]; intros w.
  - cbn. split; [| auto].
    exists [], []. rewrite !app_nil_r. repeat split. constructor.
  - cbn [run_events foldl].
    change (foldl (fun w0 ev0 => apply_event adsClient ev0 w0)
              (apply_event adsClient ev w) evs)
      with (run_events adsClient evs (apply_event adsClient ev w)).
    destruct (IH (apply_event adsClient ev w))
      as ((added & reqs & Hh & Hc & Hall) & Hok).
    split.
    + destruct (event_history adsClient ev w)
        as [[Hh0 Hc0] | (h & i & p & Hh0 & Hp & He & Hc0)].
      * exists added, reqs. rewrite Hh, Hc, Hh0, Hc0. repeat split. exact Hall.
      * destruct (entry_kept_events adsClient evs _ h i p Hp He)
          as (p' & Hp' & He' & Hd').
        exists (h :: added), (dispatch p :: reqs).
        rewrite Hh, Hc, Hh0, Hc0, <- !app_assoc. repeat split.
        constructor; [| exact Hall].
        exists i, p'. repeat split; try assumption; try apply He'.
        congruence.
    + intros Hw. apply Hok. intros h Hin.
      destruct (event_history adsClient ev w)
        as [[Hh0 _] | (h0 & i & p & Hh0 & Hp & He & _)].
      * rewrite Hh0 in Hin. destruct (Hw h Hin) as (i & p & Hp & He).
        destruct (entry_kept_step _ _ h i p (event_table_step adsClient ev w) Hp He)
          as (p1 & Hp1 & He1 & _).
        eauto.
      * rewrite Hh0 in Hin. apply elem_of_app in Hin as [Hin | Hin].
        -- destruct (Hw h Hin) as (j & q & Hq & He').
           destruct (entry_kept_step _ _ h j q
                       (event_table_step adsClient ev w) Hq He')
             as (q1 & Hq1 & He1 & _).
           eauto.
        -- apply list_elem_of_singleton in Hin. subst h0. eauto.
Qed.

(** ** Tool calls in flight together *)

Lemma table_kept_refl (t : gmap Z PendingChange) : table_kept t t.
Proof. intros i p Hp. exists p. tauto. Qed.

Lemma table_kept_trans (t1 t2 t3 : gmap Z PendingChange) :
  table_kept t1 t2 -> table_kept t2 t3 -> table_kept t1 t3.
Proof.
  intros H12 H23 i p Hp.
  destruct (H12 i p Hp) as (p2 & Hp2 & A1 & A2 & A3 & A4 & A5 & A6 & A7).
  destruct (H23 i p2 Hp2) as (p3 & Hp3 & B1 & B2 & B3 & B4 & B5 & B6 & B7).
  exists p3. split; [exact Hp3 |].
  repeat split; try congruence. auto.
Qed.

Lemma perform_table_kept {X : Type} (e : Eff X) (w : World) :
  keeps_resolved e ->
  table_kept (pending_changes w) (pending_changes (snd (perform e w))).
Proof.
  destruct e; cbn; intros He; try apply table_kept_refl.
  - unfold createPendingChange.
    destruct (pending_changes w !! pending_changes_seq w) eqn:E; cbn;
      [apply table_kept_refl |].
    intros j p Hp. exists p. split; [| tauto].
    rewrite lookup_insert_ne; [exact Hp | congruence].
  - intros j p Hp. destruct (decide (i = j)) as [-> | Hne].
    + rewrite lookup_alter_eq, Hp. cbn. eexists. split; [reflexivity |].
      cbn. repeat split. auto.
    + rewrite lookup_alter_ne by assumption. exists p. tauto.
Qed.

Lemma run_table_kept {A : Type} (p : Prog A) :
  never_reopens p ->
  forall w, table_kept (pending_changes w) (pending_changes (snd (run p w))).
Proof.
  induction 1 as [a | X e k He Hk IH]; intros w; cbn.
  - apply table_kept_refl.
  - pose proof (perform_table_kept e w He) as H1.
    destruct (perform e w) as [x w1]. cbn in H1.
    eapply table_kept_trans; [exact H1 | apply IH].
Qed.

Lemma step_never_reopens {A : Type} (p : Prog A) (w : World) :
  never_reopens p ->
  never_reopens (fst (step p w)) /\
  table_kept (pending_changes w) (pending_changes (snd (step p w))).
Proof.
  intros [a | X e k He Hk]; cbn.
  - split; [constructor | apply table_kept_refl].
  - pose proof (perform_table_kept e w He) as H1.
    destruct (perform e w) as [x w1]. cbn in *. split; [apply Hk | exact H1].
Qed.

Lemma interleave_table_kept {A B : Type} (sched : list Turn) :
  forall (p : Prog A) (q : Prog B) (w : World),
    never_reopens p -> never_reopens q ->
    table_kept (pending_changes w)
      (pending_changes (snd (interleave sched p q w))).
Proof.
  induction sched as [| turn sched IH]; intros p q w Hp Hq.
  - cbn. pose proof (run_table_kept p Hp w) as H1.
    destruct (run p w) as [a w1]. cbn in H1.
    pose proof (run_table_kept q Hq w1) as H2.
    destruct (run q w1) as [b w2]. cbn in *.
    eapply table_kept_trans; eassumption.
  - destruct turn; cbn.
    + destruct (step_never_reopens p w Hp) as [Hp' Hk].
      destruct (step p w) as [p' w']. cbn in *.
      eapply table_kept_trans; [exact Hk | now apply IH].
    + destruct (step_never_reopens q w Hq) as [Hq' Hk].
      destruct (step q w) as [q' w']. cbn in *.
      eapply table_kept_trans; [exact Hk | now apply IH].
Qed.

Ltac never_reopens_tac :=
  repeat (cbn;
    first
      [ apply never_reopens_ret
      | apply never_reopens_vis; [first [exact I | discriminate] | intros ?]
      | match goal with
        | |- never_reopens (match ?x with _ => _ end) => destruct x
        | |- never_reopens (if ?b then _ else _) => destruct b
        end ]).

Lemma handler_never_reopens (adsClient : option AdsClient) (c : ToolCall) :
  never_reopens (handler adsClient c).
Proof.
  destruct c; cbn [handler];
    unfold propose_bid_change, propose_keyword_state_change,
      propose_budget_change, propose_negative_keyword, approve_change,
      reject_change, execute_change, created;
    never_reopens_tac.
Qed.

(** X9.  However the atomic steps of two tool calls are interleaved, no
    stored proposal is lost, none has its identity, its target, its current
    or proposed value or its creation time changed, and none that was
    resolved becomes pending again. *)
Theorem interleaving_keeps_proposals (adsClient : option AdsClient)
    (sched : list Turn) (c1 c2 : ToolCall) (w : World) :
  table_kept (pending_changes w)
    (pending_changes
       (snd (interleave sched (handler adsClient c1) (handler adsClient c2) w))).
Proof.
  apply interleave_table_kept; apply handler_never_reopens.
Qed.

(** X10.  An approval and a rejection of the same pending proposal, each
    having read the proposal before the other writes, the approval
    finishing first: the request is sent to the backend and recorded in the
    history, the approver is told the outcome of the execution and the
    rejecter that the change was rejected, and the proposal is left
    'rejected' while keeping the execution time, a shape no sequence of
    calls run one after the other produces. *)
Theorem approve_reject_race (client : AdsClient) (w : World) (i : Z)
    (c : PendingChange) :
  pending_changes w !! i = Some c ->
  status c = pending ->
  let result :=
    interleave [First; Second] (approve_change (Some client) i)
      (reject_change i) w in
  let answer := client (ads_calls w) (dispatch c) in
  fst (fst result) =
    match answer with
    | AdsOk => ExecutedOk i (target_label c) (proposedValue c)
    | AdsThrow e => ExecutionFailed i (errorText e)
    end /\
  snd (fst result) = RejectedOk i /\
  ads_calls (snd result) = ads_calls w ++ [dispatch c] /\
  change_history (snd result) =
    change_history w ++ [execution_entry (now w) i c answer] /\
  exists c', pending_changes (snd result) !! i = Some c' /\
    status c' = rejected /\ executedAt c' = Some (now w) /\ ~ row_ok i c'.
Proof.
  intros Hc Hs. cbv zeta.
  unfold approve_change, reject_change. cbn.
  unfold getPendingChangeById. rewrite Hc. cbn.
  rewrite !bool_decide_eq_false_2 by tauto. cbn.
  destruct (client (ads_calls w) (dispatch c)) as [| e]; cbn;
    rewrite !lookup_alter_eq, Hc; cbn;
    (repeat split; eexists; split; [reflexivity |]; cbn;
     split; [reflexivity | split; [reflexivity |]];
     intros (_ & _ & [Hex _] & _); cbn in Hex;
     destruct Hex as [H | H]; [discriminate | discriminate H | discriminate H]).
Qed.

Lemma approve_reject_race_witness :
  pending_changes (shop_with (lower_bid pending)) !! 1 = Some (lower_bid pending) /\
  status (lower_bid pending) = pending /\
  ads_calls
    (snd (interleave [First; Second] (approve_change (Some backend_ok) 1)
            (reject_change 1) (shop_with (lower_bid pending)))) =
    [updateKeywordBid "K1" (JNumber (of_frac 85 100))] /\
  (status <$>
     pending_changes
       (snd (interleave [First; Second] (approve_change (Some backend_ok) 1)
               (reject_change 1) (shop_with (lower_bid pending)))) !! 1) =
    Some rejected.
Proof.
  assert (H1 : pending_changes (shop_with (lower_bid pending)) !! 1 =
               Some (lower_bid pending)) by reflexivity.
  split; [exact H1 | split; [reflexivity |]].
  destruct (approve_reject_race backend_ok (shop_with (lower_bid pending)) 1
              (lower_bid pending) H1 eq_refl)
    as (_ & _ & Hcalls & _ & (c' & Hc' & Hs & _)).
  split; [exact Hcalls |].
  rewrite Hc'. cbn. now rewrite Hs.
Defined.

(** * Further properties of the ROI calculator *)

(** ** Daily trends *)




Lemma pct_lt (a b s : Qc) :
  (0 < s)%Qc ->
  (b / s * Q2Qc 100 < a / s * Q2Qc 100)%Qc <-> (b < a)%Qc.
Proof.
  intros Hs.
  rewrite <- (Qcmult_lt_mono_pos_r _ _ (Q2Qc 100)) by reflexivity.
  unfold Qcdiv.
  rewrite <- (Qcmult_lt_mono_pos_r _ _ (/ s)%Qc) by now apply Qcinv_pos.
  reflexivity.
Qed.

Lemma profit_negative (roy sp : Qc) :
  (roy + - sp < 0)%Qc <-> (roy < sp)%Qc.
Proof.
  rewrite (Qcplus_lt_mono_r (roy + - sp) 0 sp).
  replace (roy + - sp + sp)%Qc with roy by ring.
  replace (0 + sp)%Qc with sp by ring.
  reflexivity.
Qed.

(** ** The interpretation of a comparison *)

Lemma change_rule_negative (c p : Qc) :
  (0 <= c)%Qc -> (0 <= p)%Qc ->
  (change_rule c p < 0)%Qc <-> (c < p)%Qc.
Proof.
  intros Hc Hp. unfold change_rule. case_bool_decide as H0.
  - subst p. split.
    + intros H. exfalso. case_bool_decide; revert H; apply Qcle_not_lt;
        [discriminate | apply Qcle_refl].
    + intros H. exfalso. revert H. now apply Qcle_not_lt.
  - assert (Hpos : (0 < p)%Qc).
    { destruct (Qcle_lt_or_eq _ _ Hp); [assumption | congruence]. }
    replace 0%Qc with (0 / p * Q2Qc 100)%Qc at 1 by (field; exact H0).
    rewrite (pct_lt 0 (c - p) p Hpos).
    unfold Qcminus. apply profit_negative.
Qed.

(** X13.  In the interpretation of a comparison of two reports with finite
    figures and non-negative ACOS, the line "ACOS improved" appears exactly
    when the current ACOS is lower than the previous one; and a report
    compared with itself gets no interpretation line at all. *)
Theorem comparison_interpretation (cur prev : ROIMetrics) :
  compared_finite cur = true ->
  compared_finite prev = true ->
  nonneg (acos cur) = true ->
  nonneg (acos prev) = true ->
  (AcosImproved ∈ comparisonInterpretation (comparePeriods cur prev) <->
   (acos prev >? acos cur)%num = true) /\
  comparisonInterpretation (comparePeriods cur cur) = [].
Proof.
  intros Fc Fp Nc Np. split.
  - apply nonneg_Fin in Nc as (c & Ec & Hc).
    apply nonneg_Fin in Np as (p & Ep & Hp).
    unfold comparisonInterpretation, comparePeriods. cbv zeta.
    cbn [changes salesChange spendChange acosChange].
    rewrite Ec, Ep, percentageChange_finite.
    change (nlt (Fin (change_rule c p)) (of_Z 0))
      with (bool_decide (change_rule c p < 0)%Qc).
    change (Fin p >? Fin c)%num with (bool_decide (c < p)%Qc).
    rewrite (bool_decide_ext _ _ (change_rule_negative c p Hc Hp)).
    rewrite elem_of_app.
    destruct (bool_decide (c < p)%Qc).
    + split; [reflexivity |]. intros _. right. apply list_elem_of_here.
    + split; [| discriminate]. intros [H | H]; exfalso.
      * repeat match type of H with
               | context [if ?b then _ else _] => destruct b
               end;
          repeat match goal with
                 | H : _ ∈ _ :: _ |- _ => apply elem_of_cons in H as [H | H]
                 | H : _ ∈ [] |- _ => inversion H
                 end; discriminate.
      * repeat match type of H with
               | context [if ?b then _ else _] => destruct b
               end;
          repeat match goal with
                 | H : _ ∈ _ :: _ |- _ => apply elem_of_cons in H as [H | H]
                 | H : _ ∈ [] |- _ => inversion H
                 end; discriminate.
  - unfold compared_finite in Fc. rewrite !andb_true_iff in Fc.
    destruct Fc as [[[[[C1 C2] C3] C4] C5] C6].
    unfold comparisonInterpretation, comparePeriods. cbv zeta.
    cbn [changes salesChange spendChange acosChange].
    rewrite !percentageChange_same by assumption.
    reflexivity.
Qed.

Lemma comparison_interpretation_witness :
  compared_finite (calculateROI "A1" "Book" [dec11] default_config) = true /\
  compared_finite (calculateROI "A1" "Book" [dec10] default_config) = true /\
  nonneg (acos (calculateROI "A1" "Book" [dec11] default_config)) = true /\
  nonneg (acos (calculateROI "A1" "Book" [dec10] default_config)) = true /\
  AcosImproved ∈
    comparisonInterpretation
      (comparePeriods (calculateROI "A1" "Book" [dec11] default_config)
         (calculateROI "A1" "Book" [dec10] default_config)).
Proof.
  split; [reflexivity | split; [reflexivity | split; [reflexivity |]]].
  split; [reflexivity |].
  apply (comparison_interpretation
           (calculateROI "A1" "Book" [dec11] default_config)
           (calculateROI "A1" "Book" [dec10] default_config));
    reflexivity.
Defined.

(** * Dates in the CSV import *)

Example parseDate_samples :
  parseDate "12/5/2024" = "2024-12-05" /\
  parseDate "1/15/2025" = "2025-01-15" /\
  parseDate "20241205" = "2024-12-05" /\
  parseDate "2024-12-05" = "2024-12-05" /\
  parseDate "Dec 5, 2024" = "Dec 5, 2024" /\
  parseDate "13/45/2024" = "2024-13-45" /\
  parseDate "" = "".
Proof. repeat split. Qed.

Lemma digit_not_dash (c : Ascii.ascii) : is_digit c = true -> is_dash c = false.
Proof.
  intros H. unfold is_dash. destruct (Ascii.eqb_spec c (char_of "-")); [| reflexivity].
  subst c. discriminate H.
Qed.

Lemma digit_not_slash (c : Ascii.ascii) : is_digit c = true -> is_slash c = false.
Proof.
  intros H. unfold is_slash. destruct (Ascii.eqb_spec c (char_of "/")); [| reflexivity].
  subst c. discriminate H.
Qed.

Lemma is_dash_eq (c : Ascii.ascii) : is_dash c = true -> c = char_of "-".
Proof. apply Ascii.eqb_eq. Qed.

Ltac shape l H := repeat (destruct l as [| ? l]; cbn in H; try discriminate H).

Ltac split_andb :=
  repeat match goal with
         | H : _ && _ = true |- _ => apply andb_true_iff in H as [? ?]
         end.

Lemma parseDate_chars_iso (l : list Ascii.ascii) :
  iso_chars l = true -> parseDate_chars l = l.
Proof.
  intros H. unfold parseDate_chars. rewrite H. now destruct l.
Qed.

Lemma slashed_chars_iso (l m d y : list Ascii.ascii) :
  slashed_chars l = Some (m, d, y) ->
  iso_chars (y ++ char_of "-" :: padStart2 m ++ char_of "-" :: padStart2 d) = true.
Proof.
  intros H. shape l H;
    repeat match type of H with
           | (if ?b then _ else _) = _ => destruct b eqn:?; try discriminate H
           end;
    injection H as <- <- <-; split_andb; cbn;
    repeat match goal with
           | H : is_digit _ = true |- _ => rewrite H; clear H
           end;
    reflexivity.
Qed.

Lemma eight_digit_chars_iso (l : list Ascii.ascii) :
  eight_digit_chars l = true ->
  iso_chars
    (take 4 l ++ char_of "-" :: take 2 (drop 4 l) ++ char_of "-" :: take 2 (drop 6 l))
  = true.
Proof.
  unfold eight_digit_chars. intros H.
  apply andb_true_iff in H as [Hlen H]. apply Nat.eqb_eq in Hlen.
  repeat (destruct l as [| ? l]; try discriminate Hlen).
  cbn in H. split_andb. cbn.
  repeat match goal with
         | H : is_digit _ = true |- _ => rewrite H; clear H
         end.
  reflexivity.
Qed.

Lemma iso_chars_parsed (l : list Ascii.ascii) :
  l = parseDate_chars l \/ iso_chars (parseDate_chars l) = true.
Proof.
  unfold parseDate_chars. destruct l as [| c l]; [now left |].
  destruct (iso_chars (c :: l)) eqn:E1; [now left |].
  destruct (slashed_chars (c :: l)) as [[[m d] y] |] eqn:E2.
  - right. eapply slashed_chars_iso, E2.
  - destruct (eight_digit_chars (c :: l)) eqn:E3; [| now left].
    right. now apply eight_digit_chars_iso.
Qed.

Lemma parseDate_chars_idempotent (l : list Ascii.ascii) :
  parseDate_chars (parseDate_chars l) = parseDate_chars l.
Proof.
  destruct (iso_chars_parsed l) as [H | H].
  - now rewrite <- H.
  - now apply parseDate_chars_iso.
Qed.

Lemma parseDate_chars_recognised (l : list Ascii.ascii) :
  iso_chars l || bool_decide (is_Some (slashed_chars l)) || eight_digit_chars l
    = true ->
  iso_chars (parseDate_chars l) = true.
Proof.
  intros H. unfold parseDate_chars.
  destruct l as [| c l]; [discriminate H |].
  destruct (iso_chars (c :: l)) eqn:E1; [exact E1 |].
  destruct (slashed_chars (c :: l)) as [[[m d] y] |] eqn:E2.
  - eapply slashed_chars_iso, E2.
  - destruct (eight_digit_chars (c :: l)) eqn:E3.
    + now apply eight_digit_chars_iso.
    + discriminate H.
Qed.

Lemma parseDate_chars_other (l : list Ascii.ascii) :
  iso_chars l || bool_decide (is_Some (slashed_chars l)) || eight_digit_chars l
    = false ->
  parseDate_chars l = l.
Proof.
  intros H. apply orb_false_iff in H as [H E3].
  apply orb_false_iff in H as [E1 E2].
  apply bool_decide_eq_false in E2.
  unfold parseDate_chars. destruct l as [| c l]; [reflexivity |].
  rewrite E1, E3.
  destruct (slashed_chars (c :: l)) eqn:E; [| reflexivity].
  exfalso. apply E2. eauto.
Qed.

(** X14.  [parseDate] normalises: a string in one of the three formats it
    knows (YYYY-MM-DD, M/D/YYYY with one or two digits for month and day,
    YYYYMMDD) comes out in the shape YYYY-MM-DD, any other string comes out
    unchanged, and parsing the result again changes nothing.  The digits
    are not checked to form a calendar date. *)
Theorem parseDate_normalises (s : string) :
  (recognised s = true -> iso_shaped (parseDate s) = true) /\
  (recognised s = false -> parseDate s = s) /\
  parseDate (parseDate s) = parseDate s.
Proof.
  unfold recognised, iso_shaped, eight_digits, parseDate.
  rewrite !String.list_ascii_of_string_of_list_ascii.
  split; [| split].
  - apply parseDate_chars_recognised.
  - intros H. rewrite (parseDate_chars_other _ H).
    apply String.string_of_list_ascii_of_string.
  - now rewrite parseDate_chars_idempotent.
Qed.

Lemma parseDate_chars_eight (a b c d e f g h : Ascii.ascii) :
  forallb is_digit [a; b; c; d; e; f; g; h] = true ->
  parseDate_chars [a; b; c; d; e; f; g; h] =
  [a; b; c; d; char_of "-"; e; f; char_of "-"; g; h].
Proof.
  intros H. unfold parseDate_chars, slashed_chars, eight_digit_chars.
  cbn [iso_chars length Nat.eqb andb].
  rewrite H. cbn in H. split_andb.
  rewrite (digit_not_slash b) by assumption.
  rewrite !andb_false_r. reflexivity.
Qed.

Lemma strip_iso_chars (l : list Ascii.ascii) :
  iso_chars l = true ->
  eight_digit_chars (filter (fun c => is_dash c = false) l) = true /\
  parseDate_chars (filter (fun c => is_dash c = false) l) = l.
Proof.
  intros H. shape l H. split_andb.
  repeat match goal with
         | H : is_dash _ = true |- _ => apply is_dash_eq in H; subst
         end.
  assert (E : filter (fun c => is_dash c = false)
                [a; a0; a1; a2; char_of "-"; a4; a5; char_of "-"; a7; a8] =
              [a; a0; a1; a2; a4; a5; a7; a8]).
  { repeat first
      [ rewrite filter_cons_True by now apply digit_not_dash
      | rewrite filter_cons_False by discriminate ].
    reflexivity. }
  rewrite E.
  assert (D : forallb is_digit [a; a0; a1; a2; a4; a5; a7; a8] = true).
  { cbn. repeat match goal with
                | H : is_digit _ = true |- _ => rewrite H; clear H
                end. reflexivity. }
  split.
  - unfold eight_digit_chars. now rewrite D.
  - now apply parseDate_chars_eight.
Qed.

Lemma strip_parsed_eight (l : list Ascii.ascii) :
  eight_digit_chars l = true ->
  filter (fun c => is_dash c = false) (parseDate_chars l) = l.
Proof.
  unfold eight_digit_chars. intros H.
  apply andb_true_iff in H as [Hlen H]. apply Nat.eqb_eq in Hlen.
  repeat (destruct l as [| ? l]; try discriminate Hlen).
  rewrite (parseDate_chars_eight _ _ _ _ _ _ _ _ H).
  cbn in H. split_andb.
  repeat first
    [ rewrite filter_cons_True by now apply digit_not_dash
    | rewrite filter_cons_False by discriminate ].
  reflexivity.
Qed.

(** X15.  The two date formats of the import convert into each other
    without loss: parsing eight digits (Amazon's YYYYMMDD) and removing the
    dashes again gives the eight digits back, and removing the dashes of a
    YYYY-MM-DD date gives eight digits that parse back to it.  Hence every
    start date in a format [parseDate] knows is stored as eight digits. *)
Theorem amazon_date_round_trip (s : string) :
  (eight_digits s = true -> strip_dashes (parseDate s) = s) /\
  (iso_shaped s = true ->
   eight_digits (strip_dashes s) = true /\ parseDate (strip_dashes s) = s) /\
  (recognised s = true -> eight_digits (strip_dashes (parseDate s)) = true).
Proof.
  unfold eight_digits, iso_shaped, strip_dashes, parseDate.
  rewrite !String.list_ascii_of_string_of_list_ascii.
  split; [| split].
  - intros H. rewrite (strip_parsed_eight _ H).
    apply String.string_of_list_ascii_of_string.
  - intros H. destruct (strip_iso_chars _ H) as [H1 H2].
    split; [exact H1 |]. rewrite H2.
    apply String.string_of_list_ascii_of_string.
  - intros H. apply parseDate_chars_recognised in H.
    now destruct (strip_iso_chars _ H).
Qed.

(** * The ROI engine in binary64 *)

(** ** Signs and NaN in the operations *)

Lemma shr_1_nonneg (mrs : SpecFloat.shr_record) :
  0 <= SpecFloat.shr_m mrs -> 0 <= SpecFloat.shr_m (SpecFloat.shr_1 mrs).
Proof.
  destruct mrs as [m r s]. cbn.
  destruct m as [| [p | p |] | p]; cbn; lia.
Qed.

Lemma iter_pos_shr_1_nonneg (p : positive) :
  forall mrs, 0 <= SpecFloat.shr_m mrs ->
    0 <= SpecFloat.shr_m (SpecFloat.iter_pos SpecFloat.shr_1 p mrs).
Proof.
  induction p as [p IH | p IH |]; intros mrs H; cbn.
  - apply IH, IH. now apply shr_1_nonneg.
  - now apply IH, IH.
  - now apply shr_1_nonneg.
Qed.

Lemma shr_fexp_nonneg (m e : Z) (l : SpecFloat.location) :
  0 <= m -> 0 <= SpecFloat.shr_m (SpecFloat.shr_fexp 53 1024 m e l).1.
Proof.
  intros Hm. unfold SpecFloat.shr_fexp, SpecFloat.shr.
  assert (H0 : 0 <= SpecFloat.shr_m (SpecFloat.shr_record_of_loc m l)).
  { destruct l as [| []]; exact Hm. }
  destruct (_ - e); cbn [fst]; try exact H0.
  now apply iter_pos_shr_1_nonneg.
Qed.

Lemma round_nearest_even_nonneg (m : Z) (l : SpecFloat.location) :
  0 <= m -> 0 <= SpecFloat.round_nearest_even m l.
Proof.
  intros Hm. destruct l as [| []]; cbn; try lia.
  destruct (Z.even m); lia.
Qed.

Lemma binary_round_aux_signed (s : bool) (m e : Z) (l : SpecFloat.location) :
  0 <= m -> F64.signed s (SpecFloat.binary_round_aux 53 1024 s m e l).
Proof.
  intros Hm. unfold SpecFloat.binary_round_aux.
  pose proof (shr_fexp_nonneg m e l Hm) as H1.
  destruct (SpecFloat.shr_fexp 53 1024 m e l) as [mrs' e']. cbn [fst] in H1.
  pose proof (round_nearest_even_nonneg _ (SpecFloat.loc_of_shr_record mrs') H1)
    as H2.
  pose proof (shr_fexp_nonneg _ e' SpecFloat.loc_Exact H2) as H3.
  destruct (SpecFloat.shr_fexp 53 1024 _ e' SpecFloat.loc_Exact) as [mrs'' e''].
  cbn [fst] in H3.
  destruct (SpecFloat.shr_m mrs'') as [| p | p]; [reflexivity | | lia].
  destruct (e'' <=? 1024 - 53); reflexivity.
Qed.

Lemma binary_round_signed (s : bool) (m : positive) (e : Z) :
  F64.signed s (SpecFloat.binary_round 53 1024 s m e).
Proof.
  unfold SpecFloat.binary_round.
  destruct (SpecFloat.shl_align m e _) as [mz ez].
  now apply binary_round_aux_signed.
Qed.

Lemma not_negative_signed (x : F64.f64) :
  F64.not_negative x = true <->
  F64.signed false x \/ exists s, x = SpecFloat.S754_zero s.
Proof.
  destruct x as [s | s | | s m e]; cbn.
  - split; [intros _; right; now exists s | reflexivity].
  - destruct s; split; try discriminate; try (now left); try reflexivity.
    intros [H | [s H]]; discriminate.
  - split; [discriminate | intros [[] | [s H]]; discriminate].
  - destruct s; split; try discriminate; try (now left); try reflexivity.
    intros [H | [s H]]; discriminate.
Qed.

Lemma signed_not_negative (x : F64.f64) :
  F64.signed false x -> F64.not_negative x = true.
Proof. intros H. apply not_negative_signed. now left. Qed.

(** Adding a finite non-negative number to a sum that is not negative
    gives a sum that is not negative. *)
Lemma fadd_not_negative (x y : F64.f64) :
  F64.not_negative x = true -> F64.nonneg y = true ->
  F64.not_negative (F64.fadd x y) = true.
Proof.
  destruct x as [sx | [] | | [] mx ex]; try discriminate;
    destruct y as [sy | sy | | [] my ey]; try discriminate; intros _ _;
    try reflexivity.
  - destruct sx, sy; reflexivity.
  - unfold F64.fadd, SpecFloat.SFadd. cbn [SpecFloat.cond_Zopp].
    apply signed_not_negative. cbn [Z.add SpecFloat.binary_normalize].
    apply binary_round_signed.
Qed.

(** The tests [x > 0] and [x = 0] of a number that is not negative are
    each other's negation. *)
Lemma f64_guard_agree (x : F64.f64) :
  F64.not_negative x = true ->
  F64.fgt x (F64.of_Z 0) = negb (F64.feq x (F64.of_Z 0)).
Proof. destruct x as [s | [] | | [] m e]; try discriminate; reflexivity. Qed.

Lemma fadd_not_negative2 (x y : F64.f64) :
  F64.not_negative x = true -> F64.not_negative y = true ->
  F64.not_negative (F64.fadd x y) = true.
Proof.
  intros Hx Hy. destruct y as [sy | [] | | [] my ey] eqn:E; try discriminate.
  - apply fadd_not_negative; [exact Hx | reflexivity].
  - destruct x as [sx | [] | | [] mx ex]; try discriminate; reflexivity.
  - apply fadd_not_negative; [exact Hx | reflexivity].
Qed.

(** The product of a sum that is not negative with a finite non-negative
    factor is not negative, unless it is [Infinity] times 0, which is
    NaN. *)
Lemma fmul_not_negative (x y : F64.f64) :
  F64.not_negative x = true -> F64.nonneg y = true ->
  F64.is_nan (F64.fmul x y) = false ->
  F64.not_negative (F64.fmul x y) = true.
Proof.
  destruct x as [sx | [] | | [] mx ex]; try discriminate;
    destruct y as [sy | sy | | [] my ey]; try discriminate; intros _ _;
    try reflexivity; try discriminate.
  intros _. apply signed_not_negative.
  unfold F64.fmul, SpecFloat.SFmul. cbn [xorb].
  apply binary_round_aux_signed. lia.
Qed.

Lemma signed_not_nan (s : bool) (x : F64.f64) :
  F64.signed s x -> F64.is_nan x = false.
Proof. destruct x; [reflexivity .. | intros [] | reflexivity]. Qed.

Lemma not_negative_not_nan (x : F64.f64) :
  F64.not_negative x = true -> F64.is_nan x = false.
Proof. destruct x; [reflexivity .. | discriminate | reflexivity]. Qed.

Lemma div_core_nonneg (m1 m2 : positive) (e1 e2 : Z) :
  0 <= (SpecFloat.SFdiv_core_binary 53 1024 (Z.pos m1) e1 (Z.pos m2) e2).1.1.
Proof.
  unfold SpecFloat.SFdiv_core_binary. cbv zeta.
  match goal with
  | |- context [Z.div_eucl ?a (Z.pos m2)] =>
      assert (Hm : 0 <= a);
      [ | pose proof (Z.div_pos a (Z.pos m2) Hm ltac:(lia)) as Hq;
          unfold Z.div in Hq;
          destruct (Z.div_eucl a (Z.pos m2)) as [q r]; exact Hq ]
  end.
  match goal with
  | |- 0 <= match ?s with _ => _ end => destruct s; try lia
  end.
  apply Z.shiftl_nonneg. lia.
Qed.

(** A quotient by a finite number other than zero is NaN only if the
    dividend is. *)
Lemma fdiv_finite_not_nan (x : F64.f64) (s : bool) (m : positive) (e : Z) :
  F64.is_nan x = false ->
  F64.is_nan (F64.fdiv x (SpecFloat.S754_finite s m e)) = false.
Proof.
  destruct x as [sx | sx | | sx mx ex]; try discriminate; intros _;
    try reflexivity.
  unfold F64.fdiv, SpecFloat.SFdiv.
  pose proof (div_core_nonneg mx m ex e) as H.
  destruct (SpecFloat.SFdiv_core_binary 53 1024 _ _ _ _) as [[mz ez] lz].
  cbn [fst] in H.
  exact (signed_not_nan _ _ (binary_round_aux_signed _ mz ez lz H)).
Qed.

(** A product with a finite number other than zero is NaN only if the
    other factor is. *)
Lemma fmul_finite_not_nan (x : F64.f64) (s : bool) (m : positive) (e : Z) :
  F64.is_nan x = false ->
  F64.is_nan (F64.fmul x (SpecFloat.S754_finite s m e)) = false.
Proof.
  destruct x as [sx | sx | | sx mx ex]; try discriminate; intros _;
    try reflexivity.
  unfold F64.fmul, SpecFloat.SFmul.
  refine (signed_not_nan _ _ (binary_round_aux_signed _ _ _ _ _)). lia.
Qed.

Lemma binary_normalize_not_nan (m e : Z) (s : bool) :
  F64.is_nan (SpecFloat.binary_normalize 53 1024 m e s) = false.
Proof.
  destruct m; cbn; [reflexivity | |];
    exact (signed_not_nan _ _ (binary_round_signed _ _ _)).
Qed.

(** Subtracting a finite number gives NaN only from NaN. *)
Lemma fsub_finite_not_nan (x y : F64.f64) :
  F64.is_nan x = false -> F64.is_finite y = true ->
  F64.is_nan (F64.fsub x y) = false.
Proof.
  destruct x as [sx | sx | | sx mx ex]; try discriminate;
    destruct y as [sy | sy | | sy my ey]; try discriminate; intros _ _;
    try reflexivity.
  - destruct sx, sy; reflexivity.
  - unfold F64.fsub, SpecFloat.SFsub. apply binary_normalize_not_nan.
Qed.

Lemma of_Z_100 :
  F64.of_Z 100 = SpecFloat.S754_finite false 7036874417766400 (-46).
Proof. vm_compute. reflexivity. Qed.

Lemma positive_finite (x : F64.f64) :
  F64.is_finite x = true -> F64.fgt x (F64.of_Z 0) = true ->
  exists m e, x = SpecFloat.S754_finite false m e.
Proof.
  destruct x as [s | [] | | [] m e]; try discriminate; intros _ H.
  now exists m, e.
Qed.

(** ** The totals *)

Lemma f64_aggregate_step_wf (a : F64.Aggregate) (m : F64.CampaignMetrics) :
  F64.wf_agg a -> F64.wf_metric m = true -> F64.wf_agg (F64.aggregate_step a m).
Proof.
  unfold F64.wf_agg, F64.wf_metric. rewrite !andb_true_iff.
  intros (? & ? & ? & ? & ? & ? & ?) [[[[[[? ?] ?] ?] ?] ?] Hk]. cbn.
  repeat split; try (apply fadd_not_negative; assumption).
  apply fadd_not_negative; [assumption |].
  destruct (F64.kenpRoyalties m); [exact Hk | reflexivity].
Qed.

Lemma f64_aggregateMetrics_wf (ms : list F64.CampaignMetrics) :
  forallb F64.wf_metric ms = true -> F64.wf_agg (F64.aggregateMetrics ms).
Proof.
  unfold F64.aggregateMetrics.
  assert (H0 : F64.wf_agg F64.aggregate_zero) by (repeat split).
  revert H0. generalize F64.aggregate_zero.
  induction ms as [| m ms IH]; intros acc Hacc Hms; cbn in *.
  - exact Hacc.
  - apply andb_true_iff in Hms as [Hm Hms].
    apply IH; [now apply f64_aggregate_step_wf | exact Hms].
Qed.

Lemma f64_foldl_columns (ms : list F64.CampaignMetrics) (acc : F64.Aggregate) :
  let a := foldl F64.aggregate_step acc ms in
  let col f x := foldl (fun s m => F64.fadd s (f m)) x ms in
  F64.agg_impressions a = col F64.impressions (F64.agg_impressions acc) /\
  F64.agg_clicks a = col F64.clicks (F64.agg_clicks acc) /\
  F64.agg_spend a = col F64.spend (F64.agg_spend acc) /\
  F64.agg_sales a = col F64.sales (F64.agg_sales acc) /\
  F64.agg_orders a = col F64.orders (F64.agg_orders acc) /\
  F64.agg_unitsSold a = col F64.unitsSold (F64.agg_unitsSold acc) /\
  F64.agg_kenpRoyalties a =
    col (fun m => default (F64.of_Z 0) (F64.kenpRoyalties m))
      (F64.agg_kenpRoyalties acc).
Proof.
  revert acc. induction ms as [| m ms IH]; intros acc; cbn.
  - repeat split.
  - apply (IH (F64.aggregate_step acc m)).
Qed.

(** ** The formulas of the report *)

Lemma ratio_not_nan (x y : F64.f64) :
  F64.is_nan x = false -> F64.is_finite y = true ->
  F64.is_nan (if F64.fgt y (F64.of_Z 0) then F64.fdiv x y else F64.of_Z 0) = false.
Proof.
  intros Hx Hy. destruct (F64.fgt y (F64.of_Z 0)) eqn:E; [| reflexivity].
  destruct (positive_finite y Hy E) as (m & e & ->).
  now apply fdiv_finite_not_nan.
Qed.

Lemma ratio_pct_not_nan (x y : F64.f64) :
  F64.is_nan x = false -> F64.is_finite y = true ->
  F64.is_nan
    (if F64.fgt y (F64.of_Z 0) then F64.fmul (F64.fdiv x y) (F64.of_Z 100)
     else F64.of_Z 0) = false.
Proof.
  intros Hx Hy. destruct (F64.fgt y (F64.of_Z 0)) eqn:E; [| reflexivity].
  destruct (positive_finite y Hy E) as (m & e & ->).
  rewrite of_Z_100. apply fmul_finite_not_nan. now apply fdiv_finite_not_nan.
Qed.

Lemma f64_guarded_pct (x y : F64.f64) :
  F64.not_negative y = true ->
  (if F64.fgt y (F64.of_Z 0) then F64.fmul (F64.fdiv x y) (F64.of_Z 100)
   else F64.of_Z 0) = F64.zero_guarded_pct x y.
Proof.
  intros Hy. unfold F64.zero_guarded_pct. rewrite (f64_guard_agree y Hy).
  now destruct (F64.feq y (F64.of_Z 0)).
Qed.

Lemma f64_guarded (x y : F64.f64) :
  F64.not_negative y = true ->
  (if F64.fgt y (F64.of_Z 0) then F64.fdiv x y else F64.of_Z 0) =
  F64.zero_guarded x y.
Proof.
  intros Hy. unfold F64.zero_guarded. rewrite (f64_guard_agree y Hy).
  now destruct (F64.feq y (F64.of_Z 0)).
Qed.

Lemma f64_breakEven_agree (roy s rpu : F64.f64) :
  F64.not_negative s = true ->
  (if F64.fgt s (F64.of_Z 0) then F64.fmul (F64.fdiv roy s) (F64.of_Z 100)
   else if F64.fgt rpu (F64.of_Z 0) then F64.of_Z 30 else F64.of_Z 0)
  = F64.breakEven_rule roy s rpu.
Proof.
  intros Hs. unfold F64.breakEven_rule. rewrite (f64_guard_agree s Hs).
  now destruct (F64.feq s (F64.of_Z 0)).
Qed.

Lemma fadd_nan_l (x y : F64.f64) :
  F64.is_nan (F64.fadd x y) = false -> F64.is_nan x = false.
Proof. destruct x; try reflexivity. discriminate. Qed.

(** The estimated royalties of well-formed data are not negative, unless
    they are NaN. *)
Lemma royalties_not_negative (units rps kenp : F64.f64) :
  F64.not_negative units = true -> F64.nonneg rps = true ->
  F64.not_negative kenp = true ->
  F64.is_nan (F64.fadd (F64.fmul units rps) kenp) = false ->
  F64.not_negative (F64.fadd (F64.fmul units rps) kenp) = true.
Proof.
  intros Hu Hr Hk Hn. apply fadd_not_negative2; [| exact Hk].
  apply fmul_not_negative; try assumption. now apply fadd_nan_l in Hn.
Qed.

(** C4, as stated, fails: for two records with a spend and sales of 1e308
    each, which are finite non-negative numbers, the totals are Infinity
    and the ACOS is NaN. *)
Lemma calculateROI_overflow_nan :
  let ms := [F64.huge_day; F64.huge_day] in
  let r := F64.calculateROI "A1" "Book" ms F64.default_config in
  forallb F64.wf_metric ms = true /\
  F64.wf_config F64.default_config = true /\
  F64.totalSpend r = SpecFloat.S754_infinity false /\
  F64.totalSales r = SpecFloat.S754_infinity false /\
  F64.acos r = SpecFloat.S754_nan /\
  F64.roas r = SpecFloat.S754_nan /\
  F64.derived_not_nan r = false.
Proof. vm_compute. repeat split. Qed.

(** C4 (amended).  In binary64, for metric records with finite
    non-negative counts and amounts and a finite non-negative royalty per
    sale: the totals are not negative; ACOS, ROAS, CTR, CPC and the
    conversion rate are the quotients of section 4.2 with "0 when the
    denominator is 0"; the royalties, the profit and the break-even ACOS
    are as stated; the profit margin is profit / royalties × 100 with "0
    when the royalties are 0" unless the royalties are NaN, when it is 0;
    and no derived figure is NaN as long as the six totals and the
    estimated royalties are finite, that is, as long as no sum or product
    has overflowed. *)
Theorem calculateROI_fields_binary64 (cid cname : string)
    (ms : list F64.CampaignMetrics) (cfg : F64.AnalysisConfig) :
  forallb F64.wf_metric ms = true ->
  F64.wf_config cfg = true ->
  let r := F64.calculateROI cid cname ms cfg in
  (F64.not_negative (F64.totalSpend r) = true /\
   F64.not_negative (F64.totalSales r) = true /\
   F64.not_negative (F64.totalOrders r) = true /\
   F64.not_negative (F64.totalUnitsSold r) = true /\
   F64.not_negative (F64.totalImpressions r) = true /\
   F64.not_negative (F64.totalClicks r) = true) /\
  F64.acos r = F64.zero_guarded_pct (F64.totalSpend r) (F64.totalSales r) /\
  F64.roas r = F64.zero_guarded (F64.totalSales r) (F64.totalSpend r) /\
  F64.ctr r = F64.zero_guarded_pct (F64.totalClicks r) (F64.totalImpressions r) /\
  F64.cpc r = F64.zero_guarded (F64.totalSpend r) (F64.totalClicks r) /\
  F64.conversionRate r =
    F64.zero_guarded_pct (F64.totalOrders r) (F64.totalClicks r) /\
  F64.estimatedRoyalties r =
    F64.fadd (F64.fmul (F64.totalUnitsSold r) (F64.royaltyPerSale cfg))
      (F64.agg_kenpRoyalties (F64.aggregateMetrics ms)) /\
  F64.estimatedProfit r = F64.fsub (F64.estimatedRoyalties r) (F64.totalSpend r) /\
  F64.breakEvenAcos r =
    F64.breakEven_rule (F64.estimatedRoyalties r) (F64.totalSales r)
      (F64.royaltyPerSale cfg) /\
  (F64.is_nan (F64.estimatedRoyalties r) = false ->
   F64.profitMargin r =
     F64.zero_guarded_pct (F64.estimatedProfit r) (F64.estimatedRoyalties r)) /\
  (F64.is_nan (F64.estimatedRoyalties r) = true ->
   F64.profitMargin r = F64.of_Z 0) /\
  (F64.no_overflow r = true -> F64.derived_not_nan r = true).
Proof.
  intros Hms Hcfg r.
  destruct (f64_aggregateMetrics_wf ms Hms) as (Hi & Hc & Hsp & Hsa & Ho & Hu & Hk).
  unfold F64.wf_config in Hcfg.
  subst r. unfold F64.calculateROI. cbv zeta.
  set (a := F64.aggregateMetrics ms) in *.
  cbn [F64.totalSpend F64.totalSales F64.totalOrders F64.totalUnitsSold
       F64.totalImpressions F64.totalClicks F64.acos F64.roas F64.ctr F64.cpc
       F64.conversionRate F64.estimatedRoyalties F64.estimatedProfit
       F64.profitMargin F64.breakEvenAcos].
  split; [tauto |].
  split; [now apply f64_guarded_pct |].
  split; [now apply f64_guarded |].
  split; [now apply f64_guarded_pct |].
  split; [now apply f64_guarded |].
  split; [now apply f64_guarded_pct |].
  split; [reflexivity |].
  split; [reflexivity |].
  split; [now apply f64_breakEven_agree |].
  split; [| split].
  - intros Hn. apply f64_guarded_pct. now apply royalties_not_negative.
  - intros Hn. now destruct (F64.fadd _ _).
  - unfold F64.no_overflow, F64.derived_not_nan.
    cbn [F64.totalSpend F64.totalSales F64.totalOrders F64.totalUnitsSold
         F64.totalImpressions F64.totalClicks F64.acos F64.roas F64.ctr F64.cpc
         F64.conversionRate F64.estimatedRoyalties F64.estimatedProfit
         F64.profitMargin F64.breakEvenAcos].
    rewrite !andb_true_iff.
    intros [[[[[[Fsp Fsa] Fo] Fu] Fi] Fc] Froy].
    set (roy := F64.fadd _ _) in *.
    assert (Nroy : F64.is_nan roy = false) by (now destruct roy).
    assert (Nprofit : F64.is_nan (F64.fsub roy (F64.agg_spend a)) = false)
      by now apply fsub_finite_not_nan.
    rewrite !negb_true_iff.
    repeat split;
      try (apply ratio_pct_not_nan; [now apply not_negative_not_nan | assumption]);
      try (apply ratio_not_nan; [now apply not_negative_not_nan | assumption]);
      try assumption.
    + now apply ratio_pct_not_nan.
    + destruct (F64.fgt (F64.agg_sales a) (F64.of_Z 0)) eqn:E.
      * destruct (positive_finite _ Fsa E) as (m & e & ->).
        rewrite of_Z_100. apply fmul_finite_not_nan.
        now apply fdiv_finite_not_nan.
      * now destruct (F64.fgt (F64.royaltyPerSale cfg) (F64.of_Z 0)).
Qed.

Lemma calculateROI_fields_binary64_witness :
  let r := F64.calculateROI "A1" "Book" F64.two_days F64.default_config in
  forallb F64.wf_metric F64.two_days = true /\
  F64.wf_config F64.default_config = true /\
  F64.no_overflow r = true /\
  F64.derived_not_nan r = true.
Proof.
  cbv zeta.
  assert (H1 : forallb F64.wf_metric F64.two_days = true) by reflexivity.
  assert (H2 : F64.wf_config F64.default_config = true) by reflexivity.
  split; [exact H1 | split; [exact H2 | split; [vm_compute; reflexivity |]]].
  apply (calculateROI_fields_binary64 "A1" "Book" F64.two_days
           F64.default_config H1 H2).
  vm_compute. reflexivity.
Defined.

(** ** Totals and period follow the order of the records *)

Lemma f64_sorted_le_last (l : list F64.CampaignMetrics)
    (d m : F64.CampaignMetrics) :
  StronglySorted F64.date_le l -> m ∈ l -> F64.date_le m (List.last l d).
Proof.
  induction 1 as [| a l Hl IH Ha]; intros Hm.
  - inversion Hm.
  - destruct l as [| b l'].
    + apply list_elem_of_singleton in Hm. subst m. apply leb_refl.
    + change (List.last (a :: b :: l') d) with (List.last (b :: l') d).
      apply elem_of_cons in Hm as [-> | Hm].
      * rewrite Forall_forall in Ha. apply Ha, list_elem_of_In, last_elem_of.
      * now apply IH.
Qed.

Lemma f64_dateRange_covers (ms : list F64.CampaignMetrics) :
  ms <> [] -> StronglySorted F64.date_le ms -> F64.covers (F64.dateRange ms) ms.
Proof.
  destruct ms as [| m0 tl]; [congruence |]. intros _ Hs.
  unfold F64.covers, F64.dateRange. cbn [startDate endDate].
  split; [| split].
  - exists m0. split; [apply list_elem_of_here | reflexivity].
  - exists (List.last (m0 :: tl) m0). split; [apply last_elem_of | reflexivity].
  - intros m Hm. split.
    + apply elem_of_cons in Hm as [-> | Hm]; [apply leb_refl |].
      inversion Hs as [| ? ? _ Hall]; subst.
      rewrite Forall_forall in Hall. now apply Hall, list_elem_of_In.
    + now apply f64_sorted_le_last.
Qed.

(** The period that runs from the earliest to the latest date of the
    records is the same for every arrangement of the records. *)
Lemma f64_covers_unique (p p' : Period) (ms ms' : list F64.CampaignMetrics) :
  ms ≡ₚ ms' -> F64.covers p ms -> F64.covers p' ms' -> p = p'.
Proof.
  intros Hp ((a & Ha & Ea) & (b & Hb & Eb) & H) ((a' & Ha' & Ea') & (b' & Hb' & Eb') & H').
  destruct p as [s e], p' as [s' e']. cbn in *. f_equal.
  - apply String.leb_antisym.
    + rewrite Ea'. apply H. now rewrite Hp.
    + rewrite Ea. apply H'. now rewrite <- Hp.
  - apply String.leb_antisym.
    + rewrite Eb. apply H'. now rewrite <- Hp.
    + rewrite Eb'. apply H. now rewrite Hp.
Qed.

(** C5 (amended).  In binary64, the totals of the report are the sums of
    the columns taken from 0 in the order of the records, an absent
    page-read royalty counting as zero; the sums round, so the order
    matters: a spend of 0.1, 0.2 and 0.3 adds up to another total than a
    spend of 0.3, 0.2 and 0.1.  The period runs from the date of the first
    record to the date of the last record as given; when the records are
    given in date order these are the earliest and the latest date
    present, and every arrangement of the records in date order gets the
    same period. *)
Theorem calculateROI_order_binary64 (cid cname : string)
    (ms : list F64.CampaignMetrics) (cfg : F64.AnalysisConfig) :
  let r := F64.calculateROI cid cname ms cfg in
  (F64.totalImpressions r = F64.sum_in_order F64.impressions ms /\
   F64.totalClicks r = F64.sum_in_order F64.clicks ms /\
   F64.totalSpend r = F64.sum_in_order F64.spend ms /\
   F64.totalSales r = F64.sum_in_order F64.sales ms /\
   F64.totalOrders r = F64.sum_in_order F64.orders ms /\
   F64.totalUnitsSold r = F64.sum_in_order F64.unitsSold ms /\
   F64.agg_kenpRoyalties (F64.aggregateMetrics ms) =
     F64.sum_in_order (fun m => default (F64.of_Z 0) (F64.kenpRoyalties m)) ms) /\
  (reverse F64.three_days ≡ₚ F64.three_days /\
   F64.totalSpend (F64.calculateROI cid cname (reverse F64.three_days) cfg) <>
   F64.totalSpend (F64.calculateROI cid cname F64.three_days cfg)) /\
  (forall m0 tl, ms = m0 :: tl ->
     F64.period r =
       {| startDate := F64.date m0; endDate := F64.date (List.last ms m0) |}) /\
  (ms <> [] -> StronglySorted F64.date_le ms -> F64.covers (F64.period r) ms) /\
  (forall ms', ms ≡ₚ ms' -> ms <> [] ->
     StronglySorted F64.date_le ms -> StronglySorted F64.date_le ms' ->
     F64.period (F64.calculateROI cid cname ms' cfg) = F64.period r).
Proof.
  cbv zeta. split; [| split; [| split; [| split]]].
  - exact (f64_foldl_columns ms F64.aggregate_zero).
  - split; [apply reverse_Permutation |].
    unfold F64.calculateROI. cbn [F64.totalSpend]. vm_compute. discriminate.
  - intros m0 tl ->. reflexivity.
  - intros Hne Hs. now apply f64_dateRange_covers.
  - intros ms' Hp Hne Hs Hs'.
    assert (Hne' : ms' <> []).
    { intros ->. now apply Permutation_nil_r in Hp. }
    symmetry. eapply f64_covers_unique; [exact Hp | |];
      unfold F64.calculateROI; cbn [F64.period];
      now apply f64_dateRange_covers.
Qed.

(** ** The verdict of the summary without sales *)

(** X12.  When the report has no sales, the first line of the analysis in
    the ROI summary is "ACOS is below break-even, campaign is profitable",
    whatever was spent and whatever the estimated profit is. *)
Theorem summary_verdict_no_sales (cid cname : string)
    (ms : list F64.CampaignMetrics) (cfg : F64.AnalysisConfig) :
  let r := F64.calculateROI cid cname ms cfg in
  F64.fgt (F64.totalSales r) (F64.of_Z 0) = false ->
  head (F64.summaryAnalysis r) = Some AcosBelowBreakEven.
Proof.
  cbv zeta. unfold F64.summaryAnalysis, F64.calculateROI.
  cbn [F64.totalSales F64.acos F64.breakEvenAcos]. intros ->.
  now destruct (F64.fgt (F64.royaltyPerSale cfg) (F64.of_Z 0)).
Qed.

Lemma summary_verdict_no_sales_witness :
  let r := F64.calculateROI "A1" "Book" F64.three_days F64.default_config in
  F64.fgt (F64.totalSales r) (F64.of_Z 0) = false /\
  F64.fgt (F64.of_Z 0) (F64.estimatedProfit r) = true /\
  head (F64.summaryAnalysis r) = Some AcosBelowBreakEven.
Proof.
  cbv zeta.
  assert (H : F64.fgt (F64.totalSales
                (F64.calculateROI "A1" "Book" F64.three_days F64.default_config))
                (F64.of_Z 0) = false) by (vm_compute; reflexivity).
  split; [exact H | split; [vm_compute; reflexivity |]].
  exact (summary_verdict_no_sales "A1" "Book" F64.three_days F64.default_config H).
Defined.

(** * The metric queries and the read tools *)

Lemma row_le_total : Total row_le.
Proof. intros a b. unfold row_le. lia. Qed.

Lemma row_le_trans : Transitive row_le.
Proof. intros a b c. unfold row_le. lia. Qed.

Lemma sorted_by_day (l : list MetricsRow) :
  StronglySorted row_le (sorting.merge_sort row_le l).
Proof.
  apply sorting.StronglySorted_merge_sort; [apply row_le_trans | apply row_le_total].
Qed.

Lemma tool_metrics_none (env : DateHandling) (rows : list MetricsRow)
    (cid s e : string) :
  tool_metrics env rows cid s e = None <->
  date_in env s = None \/ date_in env e = None.
Proof.
  unfold tool_metrics, getAllMetrics, getCampaignMetrics.
  destruct (String.eqb cid "all"), (date_in env s), (date_in env e);
    split; try discriminate; try tauto; intros [H | H]; discriminate.
Qed.

Lemma tool_metrics_some (env : DateHandling) (rows : list MetricsRow)
    (cid s e : string) (a b : Z) :
  date_in env s = Some a -> date_in env e = Some b ->
  exists sorted,
    tool_metrics env rows cid s e = Some (of_row env <$> sorted) /\
    sorted ≡ₚ filter (selected cid a b) rows /\
    StronglySorted row_le sorted.
Proof.
  intros Ha Hb. unfold tool_metrics, getAllMetrics, getCampaignMetrics.
  rewrite Ha, Hb.
  destruct (String.eqb_spec cid "all") as [-> | Hne];
    (eexists; split; [reflexivity | split; [| apply sorted_by_day]]);
    rewrite sorting.merge_sort_Permutation;
    (erewrite list_filter_iff; [reflexivity |]);
    intros row; unfold selected; tauto.
Qed.

Lemma last_fmap {A B : Type} (f : A -> B) (l : list A) (d : A) :
  List.last (f <$> l) (f d) = f (List.last l d).
Proof.
  induction l as [| x [| y l] IH]; [reflexivity | reflexivity |].
  exact IH.
Qed.

Lemma sorted_day_le_last (l : list MetricsRow) (d row : MetricsRow) :
  StronglySorted row_le l -> row ∈ l -> row_le row (List.last l d).
Proof.
  induction 1 as [| a l Hl IH Ha]; intros Hm.
  - inversion Hm.
  - destruct l as [| b l'].
    + apply list_elem_of_singleton in Hm. subst row. unfold row_le. cbn. lia.
    + change (List.last (a :: b :: l') d) with (List.last (b :: l') d).
      apply elem_of_cons in Hm as [-> | Hm].
      * rewrite Forall_forall in Ha. apply Ha, list_elem_of_In, last_elem_of.
      * now apply IH.
Qed.

(** The period of the report of rows in day order: the strings made of the
    earliest and of the latest day. *)
Lemma period_of_rows (env : DateHandling) (sorted : list MetricsRow) :
  sorted <> [] -> StronglySorted row_le sorted ->
  exists first last,
    first ∈ sorted /\ last ∈ sorted /\
    (forall row, row ∈ sorted ->
       row_date first <= row_date row /\ row_date row <= row_date last) /\
    F64.dateRange (of_row env <$> sorted) =
      {| startDate := date_out env (row_date first);
         endDate := date_out env (row_date last) |}.
Proof.
  destruct sorted as [| x l]; [congruence |]. intros _ Hs.
  exists x, (List.last (x :: l) x).
  split; [apply list_elem_of_here | split; [apply last_elem_of | split]].
  - intros row Hrow. split.
    + apply elem_of_cons in Hrow as [-> | Hrow]; [lia |].
      inversion Hs as [| ? ? _ Hall]; subst.
      rewrite Forall_forall in Hall. now apply Hall, list_elem_of_In.
    + now apply (sorted_day_le_last _ x row Hs).
  - change (of_row env <$> x :: l) with (of_row env x :: (of_row env <$> l)).
    unfold F64.dateRange.
    change (of_row env x :: (of_row env <$> l)) with (of_row env <$> x :: l).
    now rewrite last_fmap.
Qed.

Lemma fmap_length_zero (env : DateHandling) (l : list MetricsRow) :
  length (of_row env <$> l) = 0%nat <-> l = [].
Proof. rewrite length_fmap. apply length_zero_iff_nil. Qed.

Lemma perm_nil_iff {A : Type} (l l' : list A) : l ≡ₚ l' -> l = [] <-> l' = [].
Proof.
  intros Hp. split; intros ->.
  - now apply Permutation_nil_l in Hp.
  - now apply Permutation_nil_r in Hp.
Qed.

(** X16.  [analyze_roi] returns the error result exactly when the database
    rejects the text of one of the two dates.  Otherwise it answers "no
    metrics found" exactly when the table has no row of the requested
    days (and, unless 'all' is asked for, of the requested campaign), and
    else the period of its report is made of the earliest and of the
    latest day that has such a row, each as the server renders it: east of
    UTC that is the day before the stored one. *)
Theorem analyze_roi_result (env : DateHandling) (cfg : F64.AnalysisConfig)
    (campaigns : gmap string Campaign) (rows : list MetricsRow)
    (cid s e : string) :
  (analyze_roi env cfg campaigns rows cid s e = RoiQueryFailed <->
   date_in env s = None \/ date_in env e = None) /\
  (forall a b, date_in env s = Some a -> date_in env e = Some b ->
     let found := filter (selected cid a b) rows in
     (analyze_roi env cfg campaigns rows cid s e = NoMetricsFound <-> found = []) /\
     (forall roi, analyze_roi env cfg campaigns rows cid s e = RoiSummary roi ->
        exists first last,
          first ∈ found /\ last ∈ found /\
          (forall row, row ∈ found ->
             row_date first <= row_date row /\ row_date row <= row_date last) /\
          F64.period roi =
            {| startDate := date_out env (row_date first);
               endDate := date_out env (row_date last) |})).
Proof.
  split.
  - rewrite <- (tool_metrics_none env rows cid s e). unfold analyze_roi.
    destruct (tool_metrics env rows cid s e) as [ms |];
      [| split; reflexivity].
    case_bool_decide; split; discriminate.
  - intros a b Ha Hb found.
    destruct (tool_metrics_some env rows cid s e a b Ha Hb)
      as (sorted & Hq & Hp & Hs).
    fold found in Hp. unfold analyze_roi. rewrite Hq.
    case_bool_decide as Hlen; rewrite fmap_length_zero in Hlen.
    + split; [split; [intros _; now apply (perm_nil_iff _ _ Hp) | reflexivity]
             | discriminate].
    + split.
      { split; [discriminate |]. intros E.
        now apply (perm_nil_iff _ _ Hp) in E. }
      intros roi [= <-].
      destruct (period_of_rows env sorted Hlen Hs)
        as (first & last & Hf & Hl & Hall & Hper).
      exists first, last.
      split; [now rewrite <- Hp | split; [now rewrite <- Hp | split]].
      * intros row Hrow. apply Hall. now rewrite Hp.
      * exact Hper.
Qed.

(** X17.  [get_daily_breakdown] fails, finds no data or gives a breakdown
    exactly when [analyze_roi] fails, finds no metrics or gives a report
    for the same arguments.  The breakdown has one line for each selected
    row of the table (so for 'all' a day has as many lines as campaigns
    with a row on it), the lines in the order of the stored days. *)
Theorem get_daily_breakdown_result (env : DateHandling) (cfg : F64.AnalysisConfig)
    (campaigns : gmap string Campaign) (rows : list MetricsRow)
    (cid s e : string) :
  (get_daily_breakdown env rows cid s e = BreakdownQueryFailed <->
   analyze_roi env cfg campaigns rows cid s e = RoiQueryFailed) /\
  (get_daily_breakdown env rows cid s e = NoDataFound <->
   analyze_roi env cfg campaigns rows cid s e = NoMetricsFound) /\
  (forall a b trends,
     date_in env s = Some a -> date_in env e = Some b ->
     get_daily_breakdown env rows cid s e = DailyBreakdown trends ->
     exists sorted,
       sorted ≡ₚ filter (selected cid a b) rows /\
       StronglySorted row_le sorted /\
       trends = F64.calculateDailyTrends (of_row env <$> sorted) /\
       F64.t_date <$> trends = (fun row => date_out env (row_date row)) <$> sorted).
Proof.
  unfold get_daily_breakdown, analyze_roi.
  split; [| split].
  - destruct (tool_metrics env rows cid s e) as [ms |]; [| split; reflexivity].
    case_bool_decide; split; discriminate.
  - destruct (tool_metrics env rows cid s e) as [ms |]; [| split; discriminate].
    case_bool_decide; split; try discriminate; reflexivity.
  - intros a b trends Ha Hb.
    destruct (tool_metrics_some env rows cid s e a b Ha Hb)
      as (sorted & Hq & Hp & Hs).
    rewrite Hq. case_bool_decide; [discriminate |]. intros [= <-].
    exists sorted. repeat split; try assumption.
    unfold F64.calculateDailyTrends.
    rewrite <- !list_fmap_compose. reflexivity.
Qed.

Lemma filter_of_campaign (rows : list MetricsRow) (cid : string) (a b : Z) :
  cid <> "" ->
  filter (fun row => in_range a b row /\ of_campaign (Some cid) row) rows =
  filter (fun row => row_campaign_id row = cid /\ in_range a b row) rows.
Proof.
  intros Hne. apply list_filter_iff. intros m. unfold of_campaign.
  destruct (String.eqb_spec cid ""); [contradiction | tauto].
Qed.

(** X18.  [get_campaign_metrics] returns the error result exactly when the
    database rejects the text of one of the two dates.  Otherwise, for a
    campaign id other than the empty string, it answers "no metrics found"
    exactly when the campaign has no row in the range, and else shows the
    number of those rows and the exact sums of their columns, read back as
    numbers.  For the empty id the aggregate query leaves the campaign
    filter out. *)
Theorem get_campaign_metrics_result (env : DateHandling) (rows : list MetricsRow)
    (cid s e : string) :
  cid <> "" ->
  (get_campaign_metrics env rows cid s e = MetricsQueryFailed <->
   date_in env s = None \/ date_in env e = None) /\
  (forall a b, date_in env s = Some a -> date_in env e = Some b ->
     let mine :=
       filter (fun row => row_campaign_id row = cid /\ in_range a b row) rows in
     (get_campaign_metrics env rows cid s e = NoCampaignMetrics <-> mine = []) /\
     (mine <> [] ->
      get_campaign_metrics env rows cid s e =
      MetricsSummary (length mine) (aggregate_of mine))) /\
  getAggregatedMetrics env (Some "") s e rows = getAggregatedMetrics env None s e rows.
Proof.
  intros Hne. split; [| split; [| reflexivity]].
  - unfold get_campaign_metrics, getCampaignMetrics, getAggregatedMetrics.
    destruct (date_in env s), (date_in env e);
      try (split; [intros _; auto | reflexivity]).
    case_bool_decide; (split; [discriminate | intros [E1 | E1]; discriminate]).
  - intros a b Ha Hb mine.
    assert (Hlen : length (of_row env <$> sorting.merge_sort row_le mine) =
                   length mine).
    { rewrite length_fmap.
      apply Permutation_length, sorting.merge_sort_Permutation. }
    assert (Hres : mine <> [] ->
      get_campaign_metrics env rows cid s e =
      MetricsSummary (length mine) (aggregate_of mine)).
    { intros Hmine.
      unfold get_campaign_metrics, getCampaignMetrics, getAggregatedMetrics.
      rewrite Ha, Hb, (filter_of_campaign rows cid a b Hne). fold mine.
      rewrite Hlen.
      rewrite bool_decide_eq_false_2; [reflexivity |].
      intros E. now apply length_zero_iff_nil in E. }
    split; [| exact Hres].
    destruct (decide (mine = [])) as [E | E].
    + split; [intros _; exact E | intros _].
      unfold get_campaign_metrics, getCampaignMetrics. rewrite Ha, Hb.
      fold mine. rewrite Hlen, E. reflexivity.
    + rewrite (Hres E). split; [discriminate | contradiction].
Qed.

Lemma get_campaign_metrics_result_witness :
  "A1" <> "" /\
  get_campaign_metrics utc_server metrics_table "A1" "2025-12-1" "2025-12-31" =
  MetricsSummary 2
    {| sum_impressions := F64.of_Z 4500;
       sum_clicks := F64.of_Z 45;
       sum_spend := F64.of_frac 3495 100;
       sum_sales := F64.of_frac 9594 100;
       sum_orders := F64.of_Z 6;
       sum_unitsSold := F64.of_Z 6 |}.
Proof.
  split; [discriminate |].
  destruct (get_campaign_metrics_result utc_server metrics_table "A1"
              "2025-12-1" "2025-12-31")
    as (_ & H & _); [discriminate |].
  destruct (H (days_from_civil 2025 12 1) (days_from_civil 2025 12 31))
    as [_ H']; [vm_compute; reflexivity | vm_compute; reflexivity |].
  rewrite H' by (vm_compute; discriminate).
  vm_compute. reflexivity.
Defined.

(** ** Comparing with a period without data *)

Lemma f64_empty_report (cid cname : string) (cfg : F64.AnalysisConfig) :
  F64.wf_config cfg = true ->
  let r := F64.calculateROI cid cname [] cfg in
  F64.period r = {| startDate := ""; endDate := "" |} /\
  F64.totalSpend r = F64.of_Z 0 /\ F64.totalSales r = F64.of_Z 0 /\
  F64.acos r = F64.of_Z 0 /\ F64.estimatedProfit r = F64.of_Z 0 /\
  F64.totalImpressions r = F64.of_Z 0 /\ F64.totalClicks r = F64.of_Z 0.
Proof.
  unfold F64.wf_config. intros Hcfg. cbv zeta.
  unfold F64.calculateROI. cbv zeta.
  change (F64.aggregateMetrics []) with F64.aggregate_zero.
  cbn [F64.period F64.totalSpend F64.totalSales F64.acos F64.estimatedProfit
       F64.totalImpressions F64.totalClicks F64.dateRange F64.agg_spend
       F64.agg_sales F64.agg_impressions F64.agg_clicks F64.agg_unitsSold
       F64.agg_kenpRoyalties F64.aggregate_zero].
  repeat split.
  destruct (F64.royaltyPerSale cfg) as [[] | | | [] m e]; try discriminate;
    reflexivity.
Qed.

Lemma f64_percentageChange_from_zero (x : F64.f64) :
  F64.percentageChange x (F64.of_Z 0) = F64.appeared x.
Proof. reflexivity. Qed.

(** X19.  [compare_periods] returns the error result exactly when the
    database rejects the text of one of the four dates.  Otherwise it
    answers "no metrics found for either period" exactly when neither
    period has a selected row; and when only the previous period has
    none, the report of the current period is compared with the report of
    no records, whose period is the pair of empty strings, and each of the
    six changes is 100 where the current figure is positive and 0
    otherwise. *)
Theorem compare_periods_result (env : DateHandling) (cfg : F64.AnalysisConfig)
    (campaigns : gmap string Campaign) (rows : list MetricsRow)
    (cid cs ce ps pe : string) :
  F64.wf_config cfg = true ->
  (compare_periods env cfg campaigns rows cid cs ce ps pe = CompareQueryFailed <->
   date_in env cs = None \/ date_in env ce = None \/
   date_in env ps = None \/ date_in env pe = None) /\
  (forall a b c d,
     date_in env cs = Some a -> date_in env ce = Some b ->
     date_in env ps = Some c -> date_in env pe = Some d ->
     let current := filter (selected cid a b) rows in
     let previous := filter (selected cid c d) rows in
     (compare_periods env cfg campaigns rows cid cs ce ps pe = NoMetricsEitherPeriod
      <-> current = [] /\ previous = []) /\
     (previous = [] -> current <> [] ->
      exists comparison,
        compare_periods env cfg campaigns rows cid cs ce ps pe =
          ComparisonSummary comparison /\
        F64.period (F64.previousPeriod comparison) =
          {| startDate := ""; endDate := "" |} /\
        F64.changes comparison =
          {| F64.spendChange :=
               F64.appeared (F64.totalSpend (F64.currentPeriod comparison));
             F64.salesChange :=
               F64.appeared (F64.totalSales (F64.currentPeriod comparison));
             F64.acosChange :=
               F64.appeared (F64.acos (F64.currentPeriod comparison));
             F64.profitChange :=
               F64.appeared (F64.estimatedProfit (F64.currentPeriod comparison));
             F64.impressionsChange :=
               F64.appeared (F64.totalImpressions (F64.currentPeriod comparison));
             F64.clicksChange :=
               F64.appeared (F64.totalClicks (F64.currentPeriod comparison)) |})).
Proof.
  intros Hcfg. split.
  - unfold compare_periods.
    pose proof (tool_metrics_none env rows cid cs ce) as H1.
    pose proof (tool_metrics_none env rows cid ps pe) as H2.
    destruct (tool_metrics env rows cid cs ce) as [cur |].
    + destruct (tool_metrics env rows cid ps pe) as [prev |].
      * destruct (_ && _);
          (split; [discriminate |
             intros [E | [E | [E | E]]];
             [ discriminate (proj2 H1 (or_introl E))
             | discriminate (proj2 H1 (or_intror E))
             | discriminate (proj2 H2 (or_introl E))
             | discriminate (proj2 H2 (or_intror E)) ]]).
      * split; [intros _ | reflexivity].
        destruct H2 as [H2 _]. destruct (H2 eq_refl); auto.
    + split; [intros _ | reflexivity].
      destruct H1 as [H1 _]. destruct (H1 eq_refl); auto.
  - intros a b c d Ha Hb Hc Hd current previous.
    destruct (tool_metrics_some env rows cid cs ce a b Ha Hb)
      as (cur & Hqc & Hpc & _).
    destruct (tool_metrics_some env rows cid ps pe c d Hc Hd)
      as (prev & Hqp & Hpp & _).
    fold current in Hpc. fold previous in Hpp.
    unfold compare_periods. rewrite Hqc, Hqp.
    rewrite <- (perm_nil_iff _ _ Hpc), <- (perm_nil_iff _ _ Hpp).
    split.
    + repeat case_bool_decide; cbn [andb];
        rewrite fmap_length_zero in *;
        split; try discriminate; try tauto.
    + intros Hprev Hcur. subst prev.
      rewrite (bool_decide_eq_false_2 (length (of_row env <$> cur) = 0%nat))
        by now rewrite fmap_length_zero.
      cbn [andb]. eexists. split; [reflexivity |].
      cbn [F64.currentPeriod F64.previousPeriod F64.changes F64.comparePeriods].
      change (of_row env <$> []) with (@nil F64.CampaignMetrics).
      destruct (f64_empty_report cid (report_name campaigns cid) cfg Hcfg)
        as (Hp & -> & -> & -> & -> & -> & ->).
      split; [exact Hp |].
      now rewrite !f64_percentageChange_from_zero.
Qed.

Lemma compare_periods_result_witness :
  F64.wf_config F64.default_config = true /\
  exists comparison,
    compare_periods utc_server F64.default_config ∅ metrics_table "A1"
      "2025-12-01" "2025-12-31" "2025-11-01" "2025-11-30" =
      ComparisonSummary comparison /\
    F64.changes comparison =
      {| F64.spendChange := F64.of_Z 100; F64.salesChange := F64.of_Z 100;
         F64.acosChange := F64.of_Z 100; F64.profitChange := F64.of_Z 0;
         F64.impressionsChange := F64.of_Z 100;
         F64.clicksChange := F64.of_Z 100 |}.
Proof.
  split; [reflexivity |].
  destruct (compare_periods_result utc_server F64.default_config ∅ metrics_table
              "A1" "2025-12-01" "2025-12-31" "2025-11-01" "2025-11-30" eq_refl)
    as (_ & H).
  destruct (H (days_from_civil 2025 12 1) (days_from_civil 2025 12 31)
              (days_from_civil 2025 11 1) (days_from_civil 2025 11 30))
    as (_ & H'); try (vm_compute; reflexivity).
  destruct H' as (comparison & Hc & _ & Hch).
  - vm_compute. reflexivity.
  - vm_compute. discriminate.
  - exists comparison. split; [exact Hc |]. rewrite Hch.
    assert (E : compare_periods utc_server F64.default_config ∅ metrics_table
                  "A1" "2025-12-01" "2025-12-31" "2025-11-01" "2025-11-30" =
                ComparisonSummary
                  (F64.comparePeriods
                     (F64.calculateROI "A1" "All Campaigns"
                        (of_row utc_server <$>
                         [stored "A1" 2025 12 10 2100 20 1570 3198 2;
                          stored "A1" 2025 12 11 2400 25 1925 6396 4])
                        F64.default_config)
                     (F64.calculateROI "A1" "All Campaigns" []
                        F64.default_config)))
      by (vm_compute; reflexivity).
    rewrite E in Hc. injection Hc as <-.
    vm_compute. reflexivity.
Defined.

(** ** The summary resource *)

Lemma foldl_min_day (l : list Z) (d : Z) :
  let r := foldl Z.min d l in
  (r = d \/ r ∈ l) /\ r <= d /\ forall x, x ∈ l -> r <= x.
Proof.
  revert d. induction l as [| y l IH]; intros d; cbn.
  - split; [now left | split; [lia |]]. intros x Hx. inversion Hx.
  - destruct (IH (Z.min d y)) as (Hin & Hle & Hall).
    split; [| split].
    + destruct Hin as [Hin | Hin].
      * rewrite Hin. destruct (Z.min_spec d y) as [[_ ->] | [_ ->]];
          [now left | right; apply list_elem_of_here].
      * right. now apply list_elem_of_further.
    + lia.
    + intros x [-> | Hx]%elem_of_cons; [lia | now apply Hall].
Qed.

Lemma foldl_max_day (l : list Z) (d : Z) :
  let r := foldl Z.max d l in
  (r = d \/ r ∈ l) /\ d <= r /\ forall x, x ∈ l -> x <= r.
Proof.
  revert d. induction l as [| y l IH]; intros d; cbn.
  - split; [now left | split; [lia |]]. intros x Hx. inversion Hx.
  - destruct (IH (Z.max d y)) as (Hin & Hle & Hall).
    split; [| split].
    + destruct Hin as [Hin | Hin].
      * rewrite Hin. destruct (Z.max_spec d y) as [[_ ->] | [_ ->]];
          [right; apply list_elem_of_here | now left].
      * right. now apply list_elem_of_further.
    + lia.
    + intros x [-> | Hx]%elem_of_cons; [lia | now apply Hall].
Qed.

Lemma filter_all {A : Type} (P : A -> Prop) `{forall x, Decision (P x)} (l : list A) :
  (forall x, x ∈ l -> P x) -> filter P l = l.
Proof.
  induction l as [| x l IH]; intros Hall; [reflexivity |].
  rewrite filter_cons_True by apply Hall, list_elem_of_here.
  f_equal. apply IH. intros y Hy. now apply Hall, list_elem_of_further.
Qed.

(** The earliest and the latest row of a table that is not empty, and what
    [getDateRange] makes of them. *)
Lemma getDateRange_rows (env : DateHandling) (rows : list MetricsRow) :
  rows <> [] ->
  exists first last,
    first ∈ rows /\ last ∈ rows /\
    (forall row, row ∈ rows ->
       row_date first <= row_date row /\ row_date row <= row_date last) /\
    getDateRange env rows =
      Some (date_out env (row_date first), date_out env (row_date last)).
Proof.
  destruct rows as [| r0 rest]; [congruence |]. intros _.
  unfold getDateRange.
  destruct (foldl_min_day (row_date <$> rest) (row_date r0)) as (Hmin & Hmin0 & Hmin_all).
  destruct (foldl_max_day (row_date <$> rest) (row_date r0)) as (Hmax & Hmax0 & Hmax_all).
  assert (Hf : exists first, first ∈ r0 :: rest /\
            row_date first = foldl Z.min (row_date r0) (row_date <$> rest)).
  { destruct Hmin as [E | (x & E & Hx)%list_elem_of_fmap].
    - exists r0. split; [apply list_elem_of_here | now rewrite E].
    - exists x. split; [now apply list_elem_of_further | now rewrite E]. }
  assert (Hl : exists last, last ∈ r0 :: rest /\
            row_date last = foldl Z.max (row_date r0) (row_date <$> rest)).
  { destruct Hmax as [E | (x & E & Hx)%list_elem_of_fmap].
    - exists r0. split; [apply list_elem_of_here | now rewrite E].
    - exists x. split; [now apply list_elem_of_further | now rewrite E]. }
  destruct Hf as (first & Hf & Ef), Hl as (last & Hl & El).
  exists first, last. rewrite Ef, El.
  split; [exact Hf | split; [exact Hl | split; [| reflexivity]]].
  intros row [-> | Hrow]%elem_of_cons; [lia |].
  split; [apply Hmin_all | apply Hmax_all]; now apply list_elem_of_fmap_2.
Qed.

(** X20.  The resource [kdp://metrics/summary] answers "no data available"
    exactly for the empty table.  Otherwise its date range is made of the
    earliest and of the latest stored day as the server renders them, and
    its totals are the sums over the rows between the days the database
    reads back from these two strings: the request fails when it rejects
    one of them, the totals cover every row of the table when it reads
    back the stored days, and they leave out the rows of the latest day
    when it reads back an earlier day than the latest, as it does for a
    server east of UTC. *)
Theorem metrics_summary_range (env : DateHandling) (rows : list MetricsRow) :
  (metrics_summary env rows = NoDataAvailable <-> rows = []) /\
  (rows <> [] ->
   exists first last,
     first ∈ rows /\ last ∈ rows /\
     (forall row, row ∈ rows ->
        row_date first <= row_date row /\ row_date row <= row_date last) /\
     let minDate := date_out env (row_date first) in
     let maxDate := date_out env (row_date last) in
     (metrics_summary env rows = ResourceFailed <->
      date_in env minDate = None \/ date_in env maxDate = None) /\
     (forall a b, date_in env minDate = Some a -> date_in env maxDate = Some b ->
        exists summary,
          metrics_summary env rows = MetricsResource summary /\
          res_dateRange summary = (minDate, maxDate) /\
          res_totals summary = aggregate_of (filter (in_range a b) rows) /\
          (a <= row_date first -> row_date last <= b ->
           res_totals summary = aggregate_of rows) /\
          (b < row_date last -> last ∉ filter (in_range a b) rows))).
Proof.
  split.
  - destruct rows as [| r0 rest]; [split; reflexivity |].
    split; [| discriminate].
    unfold metrics_summary, getDateRange.
    destruct (getAggregatedMetrics _ _ _ _ _); discriminate.
  - intros Hne.
    destruct (getDateRange_rows env rows Hne)
      as (first & last & Hf & Hl & Hall & Hrange).
    exists first, last.
    split; [exact Hf | split; [exact Hl | split; [exact Hall |]]].
    cbv zeta. unfold metrics_summary. rewrite Hrange.
    unfold getAggregatedMetrics.
    split.
    + destruct (date_in env (date_out env (row_date first))) as [a |];
        [destruct (date_in env (date_out env (row_date last))) as [b |] |].
      * split; [discriminate | intros [E | E]; discriminate].
      * split; [intros _; now right | reflexivity].
      * split; [intros _; now left | reflexivity].
    + intros a b -> ->. eexists. split; [reflexivity |].
      cbn [res_dateRange res_totals].
      assert (E : filter (fun row => in_range a b row /\ of_campaign None row) rows
                  = filter (in_range a b) rows).
      { apply list_filter_iff. intros row. cbn. tauto. }
      rewrite E. split; [reflexivity | split; [reflexivity | split]].
      * intros Ha Hb. f_equal. apply filter_all.
        intros row Hrow. destruct (Hall row Hrow). unfold in_range. lia.
      * intros Hb [[_ H] _]%list_elem_of_filter. lia.
Qed.

(** On the server east of UTC, the summary of the sample table runs from
    2025-12-09 to 2025-12-10 and counts 3,000 impressions: the 2,400 of
    2025-12-11 are left out. *)
Example metrics_summary_east_of_utc :
  exists summary,
    metrics_summary eastern_server metrics_table = MetricsResource summary /\
    res_dateRange summary = ("2025-12-09", "2025-12-10") /\
    sum_impressions (res_totals summary) = F64.of_Z 3000 /\
    column_sum row_impressions metrics_table = 5400.
Proof. eexists. split; [vm_compute; reflexivity |]. vm_compute. repeat split. Qed.
